(** * Bare-metal Kubernetes bootstrapper: a shallow embedding of
    [k8s/clustersetup] and the properties of its orchestration.

    The Go package drives remote hosts through three interfaces
    ([SSHClient], [CertificateManager] and the local operating system).
    The embedding keeps those interfaces abstract: every method is a
    function on an abstract world [W].  The orchestrator itself is written
    in a small monad that threads the world and a monotonic clock, stops at
    the first Go [error], and records every call that crosses an interface
    in a trace of [Event]s.  The properties below are statements about the
    value returned and about that trace. *)

From Stdlib Require Import String Ascii List ZArith NArith Lia Bool.
From Stdlib Require Import Strings.Byte.
Import ListNotations.

Local Open Scope Z_scope.
Local Open Scope list_scope.
Local Open Scope string_scope.

(* ===================================================================== *)
(** ** Strings as the Go code uses them *)

(** The line feed of Go's raw string literals. *)
Definition LF : string := String "010"%char EmptyString.

(** [s == ""]. *)
Definition isEmpty (s : string) : bool :=
  match s with EmptyString => true | String _ _ => false end.

(** [strings.HasPrefix(s, p)]. *)
Fixpoint HasPrefix (s p : string) : bool :=
  match p, s with
  | EmptyString, _ => true
  | String c p', String d s' => if Ascii.eqb c d then HasPrefix s' p' else false
  | String _ _, EmptyString => false
  end.

(** [strings.Contains(s, sub)]. *)
Fixpoint Contains (s sub : string) : bool :=
  if HasPrefix s sub then true
  else match s with
       | EmptyString => false
       | String _ s' => Contains s' sub
       end.

(** [strings.HasSuffix(s, suf)]. *)
Fixpoint HasSuffix (s suf : string) : bool :=
  if String.eqb s suf then true
  else match s with
       | EmptyString => false
       | String _ s' => HasSuffix s' suf
       end.

(** The UTF-8 encodings of the code points for which [unicode.IsSpace]
    holds: tab, line feed, vertical tab, form feed, carriage return, space,
    U+0085, U+00A0, U+1680, U+2000 to U+200A, U+2028, U+2029, U+202F, U+205F
    and U+3000. *)
Definition ofBytes (l : list nat) : string :=
  string_of_list_ascii (map ascii_of_nat l).

Definition whiteSpace : list string :=
  map ofBytes
    [[9]; [10]; [11]; [12]; [13]; [32]; [194; 133]; [194; 160];
     [225; 154; 128];
     [226; 128; 128]; [226; 128; 129]; [226; 128; 130]; [226; 128; 131];
     [226; 128; 132]; [226; 128; 133]; [226; 128; 134]; [226; 128; 135];
     [226; 128; 136]; [226; 128; 137]; [226; 128; 138];
     [226; 128; 168]; [226; 128; 169]; [226; 128; 175]; [226; 129; 159];
     [227; 128; 128]]%nat.

Fixpoint drop (n : nat) (s : string) : string :=
  match n, s with
  | S n', String _ s' => drop n' s'
  | _, _ => s
  end.

Fixpoint reverse (acc s : string) : string :=
  match s with
  | EmptyString => acc
  | String c s' => reverse (String c acc) s'
  end.

(** [s] without its first rune when that rune is one of [spaces]. *)
Fixpoint dropSpace (spaces : list string) (s : string) : option string :=
  match spaces with
  | [] => None
  | p :: spaces' =>
      if HasPrefix s p then Some (drop (String.length p) s)
      else dropSpace spaces' s
  end.

(** Drops runes of [spaces] from the front; [n] bounds their number. *)
Fixpoint trimFront (n : nat) (spaces : list string) (s : string) : string :=
  match n with
  | O => s
  | S n' =>
      match dropSpace spaces s with
      | Some s' => trimFront n' spaces s'
      | None => s
      end
  end.

Definition TrimLeft (s : string) : string :=
  trimFront (String.length s) whiteSpace s.

Definition TrimRight (s : string) : string :=
  reverse "" (trimFront (String.length s) (map (reverse "") whiteSpace)
                (reverse "" s)).

(** [strings.TrimSpace]. *)
Definition TrimSpace (s : string) : string := TrimRight (TrimLeft s).

(* ===================================================================== *)
(** ** Data model ([types.go]) *)

Record Node := mkNode {
  Name : string;
  IPAddress : string;
  Hostname : string;
  PodCIDR : string
}.

Record CertificateConfig := mkCertificateConfig {
  Country : string;
  State : string;
  City : string;
  Organization : string;
  OrganizationalUnit : string;
  ValidityDays : Z
}.

Record ClusterConfig := mkClusterConfig {
  ClusterName : string;
  KubernetesVersion : string;
  EtcdVersion : string;
  ContainerdVersion : string;
  CNIVersion : string;
  CoreDNSVersion : string;
  PodCIDR_ : string;
  ServiceCIDR : string;
  ClusterDNS : string;
  WorkDir : string;
  SSHKey : string;
  SSHUser : string;
  Controller : Node;
  Workers : list Node;
  Certificates : CertificateConfig
}.

(** A Go [error]: [None] is [nil], [Some msg] carries the text of
    [err.Error()]. *)
Definition error := option string.

(** [fmt.Errorf(prefix + "%w", err)]. *)
Definition Errorf (prefix : string) (e : string) : string := prefix ++ e.

(** [context.Context], as far as a callee can observe it: the background
    context is never done; a cancellable one is done from the instant
    [cancelAt] on ([None]: not cancelled during the run). *)
Inductive Ctx :=
| Background
| WithCancel (cancelAt : option Z).

Definition ctxDone (ctx : Ctx) (now : Z) : bool :=
  match ctx with
  | Background => false
  | WithCancel None => false
  | WithCancel (Some t) => (t <=? now)%Z
  end.

(** [time.Second], in the nanoseconds of [time.Duration]. *)
Definition Second : Z := 1000000000.

(* ===================================================================== *)
(** ** Interfaces *)

(** [SSHClient].  Each call answers with its Go results, the time it took
    on the monotonic clock, and the next world. *)
Record SSHClient (W : Type) := mkSSHClient {
  ExecuteCommand : Ctx -> string -> string -> W -> (string * error) * N * W;
  CopyFile : Ctx -> string -> string -> string -> W -> error * N * W;
  CopyContent : Ctx -> string -> string -> string -> W -> error * N * W
}.
Arguments ExecuteCommand {W}.
Arguments CopyFile {W}.
Arguments CopyContent {W}.

(** [CertificateManager]. *)
Record CertificateManager (W : Type) := mkCertificateManager {
  GenerateCA : string -> CertificateConfig -> W -> error * W;
  GenerateClientCert : string -> string -> CertificateConfig -> W -> error * W;
  GenerateServerCert :
    string -> string -> list string -> CertificateConfig -> W -> error * W
}.
Arguments GenerateCA {W}.
Arguments GenerateClientCert {W}.
Arguments GenerateServerCert {W}.

(** The local operating system and runtime: [os.MkdirAll], [os.WriteFile],
    [os.RemoveAll], [os.ReadFile], [crypto/rand.Read] (the bytes it stores
    in the caller's buffer), [yaml.Unmarshal] into a [ClusterConfig], and the
    order in which [range] visits a Go map. *)
Record OS (W : Type) := mkOS {
  MkdirAll : string -> Z -> W -> error * W;
  WriteFile : string -> string -> Z -> W -> error * W;
  RemoveAll : string -> W -> error * W;
  ReadFile : string -> W -> (string * error) * W;
  RandRead : nat -> W -> (list byte * error) * W;
  yamlUnmarshal : string -> ClusterConfig * error;
  mapRange : list (string * string) -> list (string * string)
}.
Arguments MkdirAll {W}.
Arguments WriteFile {W}.
Arguments RemoveAll {W}.
Arguments ReadFile {W}.
Arguments RandRead {W}.
Arguments yamlUnmarshal {W}.
Arguments mapRange {W}.

(** [golang.org/x/crypto/ssh] as [sshclient.go] uses it.  A call dials one
    connection; sessions on it are told apart by a number.  [Run] receives
    the command and what the writer goroutine feeds to the standard input
    pipe, and answers with standard output, standard error and the error. *)
Record SSHLibrary (W : Type) := mkSSHLibrary {
  ParsePrivateKey : string -> error;
  Dial : string -> string -> string -> Z -> W -> error * N * W;
  NewSession : W -> (nat * error) * W;
  StdinPipe : nat -> W -> error * W;
  Run : nat -> string -> option string -> W -> (string * string * error) * N * W;
  SessionClose : nat -> W -> W;
  ClientClose : W -> W
}.
Arguments ParsePrivateKey {W}.
Arguments Dial {W}.
Arguments NewSession {W}.
Arguments StdinPipe {W}.
Arguments Run {W}.
Arguments SessionClose {W}.
Arguments ClientClose {W}.

(** The text of the systemd units and manifests rendered by [helpers.go]
    (quoted templates over the configuration).  The orchestration only
    uploads them. *)
Record Renderers := mkRenderers {
  generateEtcdService : ClusterConfig -> Node -> string;
  generateContainerdConfig : ClusterConfig -> string;
  generateAPIServerService : ClusterConfig -> string;
  generateControllerManagerService : ClusterConfig -> string;
  generateSchedulerService : ClusterConfig -> string;
  generateContainerdService : ClusterConfig -> string;
  generateKubeletService : ClusterConfig -> Node -> string;
  generateKubeProxyService : ClusterConfig -> string;
  generateBridgeNetworkConfig : ClusterConfig -> string -> string;
  generateLoopbackNetworkConfig : ClusterConfig -> string;
  generateKubeletConfig : ClusterConfig -> Node -> string;
  generateKubeProxyConfig : ClusterConfig -> string;
  generateCoreDNSManifest : ClusterConfig -> string;
  generateTestApplicationManifest : ClusterConfig -> string
}.

(** [ClusterManager].  The logger and the progress reporter of the Go struct
    return nothing; their calls appear as events. *)
Record ClusterManager (W : Type) := mkClusterManager {
  config : ClusterConfig;
  sshClient : SSHClient W;
  certManager : CertificateManager W
}.
Arguments config {W}.
Arguments sshClient {W}.
Arguments certManager {W}.

(* ===================================================================== *)
(** ** Events and the orchestration monad *)

Inductive Event :=
| EvExec (ctx : Ctx) (host cmd : string) (out : string) (err : error)
| EvCopyFile (ctx : Ctx) (host localPath remotePath : string) (err : error)
| EvCopyContent (ctx : Ctx) (host content remotePath : string) (err : error)
| EvGenerateCA (workDir : string) (cfg : CertificateConfig) (err : error)
| EvGenerateClientCert (workDir name : string) (cfg : CertificateConfig)
    (err : error)
| EvGenerateServerCert (workDir name : string) (hosts : list string)
    (cfg : CertificateConfig) (err : error)
| EvMkdirAll (path : string) (perm : Z) (err : error)
| EvWriteFile (path content : string) (perm : Z) (err : error)
| EvRemoveAll (path : string) (err : error)
| EvReadFile (path : string) (err : error)
| EvRandRead (n : nat) (bytes : list byte) (err : error)
| EvDial (network addr user : string) (timeout : Z) (err : error)
| EvNewSession (session : nat) (err : error)
| EvStdinPipe (session : nat) (err : error)
| EvRun (session : nat) (cmd : string) (stdin : option string)
    (startedAt : Z) (took : N) (stdout : string) (err : error)
| EvSignal (session : nat) (sig : string)
| EvSessionClose (session : nat)
| EvClientClose
| EvSleep (d : Z)
| EvInfo (msg : string)
| EvProgress (step totalSteps : Z) (phase : string).

(** What a Go function call comes to: a value, an error, or a loop that was
    still running when the fuel of the model ran out. *)
Inductive Res (A : Type) :=
| Ok (a : A)
| Err (e : string)
| OutOfFuel.
Arguments Ok {A}.
Arguments Err {A}.
Arguments OutOfFuel {A}.

(** The state a run threads: the world behind the interfaces and the
    reading of the monotonic clock, in nanoseconds.  The clock moves with the
    time the transport takes and with [time.Sleep]; it is read only by the
    health gate, whose deadline is relative to its own start. *)
Record Sys (W : Type) := mkSys { world : W; clock : Z }.
Arguments mkSys {W}.
Arguments world {W}.
Arguments clock {W}.

Definition M (W A : Type) : Type := Sys W -> Res A * Sys W * list Event.

Section Monad.
Context {W : Type}.

Definition ret {A} (a : A) : M W A := fun s => (Ok a, s, []).

Definition bind {A B} (m : M W A) (f : A -> M W B) : M W B :=
  fun s =>
    match m s with
    | (Ok a, s1, t1) => let '(r, s2, t2) := f a s1 in (r, s2, (t1 ++ t2)%list)
    | (Err e, s1, t1) => (Err e, s1, t1)
    | (OutOfFuel, s1, t1) => (OutOfFuel, s1, t1)
    end.

(** [return fmt.Errorf(...)]. *)
Definition fail {A} (e : string) : M W A := fun s => (Err e, s, []).

(** [if err := m; err != nil { return fmt.Errorf(prefix+"%w", err) }]. *)
Definition wrap {A} (prefix : string) (m : M W A) : M W A :=
  fun s =>
    match m s with
    | (Err e, s1, t1) => (Err (Errorf prefix e), s1, t1)
    | r => r
    end.

(** [v, err := m], with the error kept as a value. *)
Definition try {A} (m : M W A) : M W (A + string) :=
  fun s =>
    match m s with
    | (Ok a, s1, t1) => (Ok (inl a), s1, t1)
    | (Err e, s1, t1) => (Ok (inr e), s1, t1)
    | (OutOfFuel, s1, t1) => (OutOfFuel, s1, t1)
    end.

Definition emit (e : Event) : M W unit := fun s => (Ok tt, s, [e]).

(** [defer cleanup()] before [body]: the cleanup runs when the body
    returns, with a value or with an error. *)
Definition deferring {A} (cleanup : Sys W -> Sys W * list Event)
    (body : M W A) : M W A :=
  fun s =>
    let '(r, s1, t1) := body s in
    let '(s2, t2) := cleanup s1 in
    (r, s2, (t1 ++ t2)%list).

(** [time.Now()] on the monotonic clock. *)
Definition Now : M W Z := fun s => (Ok (clock s), s, []).

(** [time.Sleep(d)]. *)
Definition Sleep (d : Z) : M W unit :=
  fun s => (Ok tt, mkSys (world s) (clock s + d), [EvSleep d]).

(** A call returning only an [error]. *)
Definition ofError (e : error) : Res unit :=
  match e with None => Ok tt | Some msg => Err msg end.

(** [for _, x := range xs { if err := f(x); err != nil { return err } }]. *)
Fixpoint forM_ {A} (xs : list A) (f : A -> M W unit) : M W unit :=
  match xs with
  | [] => ret tt
  | x :: xs' => bind (f x) (fun _ => forM_ xs' f)
  end.
End Monad.

Declare Scope go_scope.
Delimit Scope go_scope with go.
Notation "x <- m ;; k" := (bind m (fun x => k))
  (at level 61, m at next level, right associativity) : go_scope.
Notation "m ;; k" := (bind m (fun _ => k))
  (at level 61, right associativity) : go_scope.
Local Open Scope go_scope.

(** The pieces of a run. *)
Definition result {W A} (r : Res A * Sys W * list Event) : Res A := fst (fst r).
Definition final {W A} (r : Res A * Sys W * list Event) : Sys W := snd (fst r).
Definition trace {W A} (r : Res A * Sys W * list Event) : list Event := snd r.

(** Pure library functions the package calls: [filepath.Join] and the [%v]
    rendering of a [time.Duration]. *)
Record Lib := mkLib {
  filepathJoin : string -> string -> string;
  durationString : Z -> string
}.

(* ===================================================================== *)
(** ** Calls across the interfaces *)

Section Calls.
Context {W : Type}.

Definition sshExecuteCommand (c : SSHClient W) (ctx : Ctx) (host cmd : string)
  : M W string :=
  fun s =>
    let '((out, err), dt, w) := ExecuteCommand c ctx host cmd (world s) in
    (match err with None => Ok out | Some e => Err e end,
     mkSys w (clock s + Z.of_N dt),
     [EvExec ctx host cmd out err]).

Definition sshCopyFile (c : SSHClient W) (ctx : Ctx)
    (host localPath remotePath : string) : M W unit :=
  fun s =>
    let '(err, dt, w) := CopyFile c ctx host localPath remotePath (world s) in
    (ofError err, mkSys w (clock s + Z.of_N dt),
     [EvCopyFile ctx host localPath remotePath err]).

Definition sshCopyContent (c : SSHClient W) (ctx : Ctx)
    (host content remotePath : string) : M W unit :=
  fun s =>
    let '(err, dt, w) := CopyContent c ctx host content remotePath (world s) in
    (ofError err, mkSys w (clock s + Z.of_N dt),
     [EvCopyContent ctx host content remotePath err]).

Definition certGenerateCA (c : CertificateManager W) (workDir : string)
    (cfg : CertificateConfig) : M W unit :=
  fun s =>
    let '(err, w) := GenerateCA c workDir cfg (world s) in
    (ofError err, mkSys w (clock s), [EvGenerateCA workDir cfg err]).

Definition certGenerateClientCert (c : CertificateManager W)
    (workDir name : string) (cfg : CertificateConfig) : M W unit :=
  fun s =>
    let '(err, w) := GenerateClientCert c workDir name cfg (world s) in
    (ofError err, mkSys w (clock s), [EvGenerateClientCert workDir name cfg err]).

Definition certGenerateServerCert (c : CertificateManager W)
    (workDir name : string) (hosts : list string) (cfg : CertificateConfig)
  : M W unit :=
  fun s =>
    let '(err, w) := GenerateServerCert c workDir name hosts cfg (world s) in
    (ofError err, mkSys w (clock s),
     [EvGenerateServerCert workDir name hosts cfg err]).

Definition osMkdirAll (o : OS W) (path : string) (perm : Z) : M W unit :=
  fun s =>
    let '(err, w) := MkdirAll o path perm (world s) in
    (ofError err, mkSys w (clock s), [EvMkdirAll path perm err]).

Definition osWriteFile (o : OS W) (path content : string) (perm : Z)
  : M W unit :=
  fun s =>
    let '(err, w) := WriteFile o path content perm (world s) in
    (ofError err, mkSys w (clock s), [EvWriteFile path content perm err]).

Definition osRemoveAll (o : OS W) (path : string) : M W unit :=
  fun s =>
    let '(err, w) := RemoveAll o path (world s) in
    (ofError err, mkSys w (clock s), [EvRemoveAll path err]).

Definition osReadFile (o : OS W) (path : string) : M W string :=
  fun s =>
    let '((data, err), w) := ReadFile o path (world s) in
    (match err with None => Ok data | Some e => Err e end,
     mkSys w (clock s), [EvReadFile path err]).

(** [rand.Read(buf)]: the bytes read overwrite a prefix of the buffer,
    whose length does not change. *)
Definition fillBuffer (buf got : list byte) : list byte :=
  firstn (length buf) (got ++ skipn (length got) buf)%list.

Definition randRead (o : OS W) (buf : list byte) : M W (list byte) :=
  fun s =>
    let '((got, err), w) := RandRead o (length buf) (world s) in
    (match err with None => Ok (fillBuffer buf got) | Some e => Err e end,
     mkSys w (clock s), [EvRandRead (length buf) got err]).

(** [cm.logger.Info(msg)] and [cm.progress.ReportProgress(...)]. *)
Definition loggerInfo (msg : string) : M W unit := emit (EvInfo msg).
Definition ReportProgress (step totalSteps : Z) (phase : string) : M W unit :=
  emit (EvProgress step totalSteps phase).
End Calls.

(* ===================================================================== *)
(** ** [encoding/base64], standard alphabet with padding *)

Module Base64.
Definition alphabet : string :=
  "ABCDEFGHIJKLMNOPQRSTUVWXYZabcdefghijklmnopqrstuvwxyz0123456789+/".

Definition pad : ascii := "="%char.

(** A group of six bits, most significant first. *)
Definition sextet : Type := bool * bool * bool * bool * bool * bool.

Definition b2n (b : bool) : nat := if b then 1%nat else 0%nat.

Definition index (x : sextet) : nat :=
  let '(x5, x4, x3, x2, x1, x0) := x in
  (32 * b2n x5 + 16 * b2n x4 + 8 * b2n x3 + 4 * b2n x2 + 2 * b2n x1 + b2n x0)%nat.

Definition ofIndex (n : nat) : sextet :=
  (Nat.testbit n 5, Nat.testbit n 4, Nat.testbit n 3,
   Nat.testbit n 2, Nat.testbit n 1, Nat.testbit n 0).

(** [enc.encode[i]]. *)
Definition encodeChar (x : sextet) : ascii :=
  match String.get (index x) alphabet with
  | Some c => c
  | None => pad
  end.

Fixpoint find (c : ascii) (s : string) (i : nat) : option nat :=
  match s with
  | EmptyString => None
  | String d s' => if Ascii.eqb c d then Some i else find c s' (S i)
  end.

(** [enc.decodeMap[c]]. *)
Definition decodeChar (c : ascii) : option sextet :=
  option_map ofIndex (find c alphabet 0).

Definition bits (b : byte) : bool * bool * bool * bool * bool * bool * bool * bool :=
  let '(b0, (b1, (b2, (b3, (b4, (b5, (b6, b7))))))) := Byte.to_bits b in
  (b7, b6, b5, b4, b3, b2, b1, b0).

Definition ofBits (x : bool * bool * bool * bool * bool * bool * bool * bool) : byte :=
  let '(b7, b6, b5, b4, b3, b2, b1, b0) := x in
  Byte.of_bits (b0, (b1, (b2, (b3, (b4, (b5, (b6, b7))))))).

(** [EncodeToString]: three bytes become four characters; a tail of one
    or two bytes is padded with [=]. *)
Fixpoint EncodeToString (src : list byte) : string :=
  match src with
  | a :: b :: c :: rest =>
      let '(a7, a6, a5, a4, a3, a2, a1, a0) := bits a in
      let '(b7, b6, b5, b4, b3, b2, b1, b0) := bits b in
      let '(c7, c6, c5, c4, c3, c2, c1, c0) := bits c in
      String (encodeChar (a7, a6, a5, a4, a3, a2))
        (String (encodeChar (a1, a0, b7, b6, b5, b4))
           (String (encodeChar (b3, b2, b1, b0, c7, c6))
              (String (encodeChar (c5, c4, c3, c2, c1, c0))
                 (EncodeToString rest))))
  | [a; b] =>
      let '(a7, a6, a5, a4, a3, a2, a1, a0) := bits a in
      let '(b7, b6, b5, b4, b3, b2, b1, b0) := bits b in
      String (encodeChar (a7, a6, a5, a4, a3, a2))
        (String (encodeChar (a1, a0, b7, b6, b5, b4))
           (String (encodeChar (b3, b2, b1, b0, false, false))
              (String pad EmptyString)))
  | [a] =>
      let '(a7, a6, a5, a4, a3, a2, a1, a0) := bits a in
      String (encodeChar (a7, a6, a5, a4, a3, a2))
        (String (encodeChar (a1, a0, false, false, false, false))
           (String pad (String pad EmptyString)))
  | [] => EmptyString
  end.

(** [DecodeString] on unbroken input: four characters become three bytes;
    a final group may end in one or two [=]; anything else is corrupt
    input ([None]). *)
Fixpoint DecodeString (s : string) : option (list byte) :=
  match s with
  | EmptyString => Some []
  | String c0 (String c1 (String c2 (String c3 rest))) =>
      match decodeChar c0, decodeChar c1 with
      | Some (a7, a6, a5, a4, a3, a2), Some (a1, a0, b7, b6, b5, b4) =>
          let x := ofBits (a7, a6, a5, a4, a3, a2, a1, a0) in
          if Ascii.eqb c2 pad then
            if Ascii.eqb c3 pad && isEmpty rest then Some [x] else None
          else
            match decodeChar c2 with
            | Some (b3, b2, b1, b0, c7, c6) =>
                let y := ofBits (b7, b6, b5, b4, b3, b2, b1, b0) in
                if Ascii.eqb c3 pad then
                  if isEmpty rest then Some [x; y] else None
                else
                  match decodeChar c3 with
                  | Some (c5, c4, c3', c2', c1', c0') =>
                      let z := ofBits (c7, c6, c5, c4, c3', c2', c1', c0') in
                      option_map (fun tl => x :: y :: z :: tl)
                        (DecodeString rest)
                  | None => None
                  end
            | None => None
            end
      | _, _ => None
      end
  | _ => None
  end.
End Base64.

(* ===================================================================== *)
(** ** [config.go]: loading and validating the configuration *)

(** The first worker whose IP address, name or pod CIDR is empty. *)
Fixpoint incompleteWorker (ws : list Node) : option Node :=
  match ws with
  | [] => None
  | worker :: ws' =>
      if isEmpty (IPAddress worker) || isEmpty (Name worker)
         || isEmpty (PodCIDR worker)
      then Some worker
      else incompleteWorker ws'
  end.

(** The checks of [LoadClusterConfig] between unmarshalling and the creation
    of the work directory, in the order of the source. *)
Definition validateConfig (config : ClusterConfig) : error :=
  if isEmpty (ClusterName config) then Some "cluster_name is required"
  else if isEmpty (KubernetesVersion config) then
    Some "kubernetes_version is required"
  else if isEmpty (EtcdVersion config) then Some "etcd_version is required"
  else if isEmpty (ContainerdVersion config) then
    Some "containerd_version is required"
  else if isEmpty (CNIVersion config) then Some "cni_version is required"
  else if isEmpty (CoreDNSVersion config) then Some "coredns_version is required"
  else if isEmpty (PodCIDR_ config) then Some "pod_cidr is required"
  else if isEmpty (ServiceCIDR config) then Some "service_cidr is required"
  else if isEmpty (ClusterDNS config) then Some "cluster_dns is required"
  else if isEmpty (WorkDir config) then Some "work_dir is required"
  else if isEmpty (SSHKey config) then Some "ssh_key is required"
  else if isEmpty (SSHUser config) then Some "ssh_user is required"
  else if isEmpty (IPAddress (Controller config))
          || isEmpty (Name (Controller config)) then
    Some "controller configuration is incomplete"
  else if (length (Workers config) =? 0)%nat then
    Some "at least one worker node is required"
  else
    match incompleteWorker (Workers config) with
    | Some worker =>
        Some ("worker " ++ Name worker ++ " configuration is incomplete")
    | None =>
        if isEmpty (Country (Certificates config))
           || (ValidityDays (Certificates config) <=? 0)%Z
        then Some "certificate configuration is incomplete"
        else None
    end.

(** The zero value of [ClusterConfig] ([var config ClusterConfig]). *)
Definition zeroNode : Node := mkNode "" "" "" "".
Definition zeroConfig : ClusterConfig :=
  mkClusterConfig "" "" "" "" "" "" "" "" "" "" "" "" zeroNode []
    (mkCertificateConfig "" "" "" "" "" 0).

(** [GenerateDefaultConfig()]. *)
Definition GenerateDefaultConfig : ClusterConfig :=
  mkClusterConfig "my-cluster" "v1.26.0" "v3.5.9" "v1.7.2" "v1.3.0" "1.10.1"
    "10.200.0.0/16" "10.32.0.0/24" "10.32.0.10" "/tmp/k8s-hard-way"
    "~/.ssh/id_rsa" "ubuntu"
    (mkNode "controller-0" "10.240.0.10" "controller-0" "")
    [mkNode "worker-0" "10.240.0.20" "worker-0" "10.200.0.0/24";
     mkNode "worker-1" "10.240.0.21" "worker-1" "10.200.1.0/24";
     mkNode "worker-2" "10.240.0.22" "worker-2" "10.200.2.0/24"]
    (mkCertificateConfig "US" "California" "San Francisco" "ExampleOrg" "IT"
       365).

Section Load.
Context {W : Type}.
Variable os : OS W.

(** [LoadClusterConfig(configPath)]: the Go function returns the
    configuration together with the error. *)
Definition LoadClusterConfig (configPath : string) (w : W)
  : (ClusterConfig * error) * W :=
  let '((data, err), w1) := ReadFile os configPath w in
  match err with
  | Some e =>
      ((zeroConfig,
        Some (Errorf ("failed to read config file " ++ configPath ++ ": ") e)),
       w1)
  | None =>
      let '(config, err) := yamlUnmarshal os data in
      match err with
      | Some e => ((config, Some (Errorf "failed to unmarshal config: " e)), w1)
      | None =>
          match validateConfig config with
          | Some e => ((config, Some e), w1)
          | None =>
              let '(err, w2) := MkdirAll os (WorkDir config) 493 w1 in
              match err with
              | Some e =>
                  ((config,
                    Some (Errorf ("failed to create work directory "
                                  ++ WorkDir config ++ ": ") e)), w2)
              | None => ((config, None), w2)
              end
          end
      end
  end.
End Load.

(* ===================================================================== *)
(** ** [helpers.go]: the rendered encryption configuration and kubeconfigs *)

(** The [fmt.Sprintf] template of [generateEncryptionConfig]. *)
Definition encryptionConfigText (encodedKey : string) : string :=
  "kind: EncryptionConfig" ++ LF ++
  "apiVersion: v1" ++ LF ++
  "resources:" ++ LF ++
  "  - resources:" ++ LF ++
  "      - secrets" ++ LF ++
  "    providers:" ++ LF ++
  "      - aescbc:" ++ LF ++
  "          keys:" ++ LF ++
  "            - name: key1" ++ LF ++
  "              secret: " ++ encodedKey ++ LF ++
  "      - identity: {}" ++ LF.

(** The lines of the [fmt.Sprintf] template of [generateKubeconfig]; its
    arguments are [workDir, clusterIP, ClusterName, ClusterName, name, name,
    name, name, workDir, name, workDir, name]. *)
Definition kubeconfigLines (workDir clusterIP clusterName name : string)
  : list string :=
  ["apiVersion: v1";
   "clusters:";
   "- cluster:";
   "    certificate-authority: " ++ workDir ++ "/ca.pem";
   "    server: https://" ++ clusterIP ++ ":6443";
   "  name: " ++ clusterName;
   "contexts:";
   "- context:";
   "    cluster: " ++ clusterName;
   "    user: " ++ name;
   "  name: " ++ name;
   "current-context: " ++ name;
   "kind: Config";
   "preferences: {}";
   "users:";
   "- name: " ++ name;
   "  user:";
   "    client-certificate: " ++ workDir ++ "/" ++ name ++ ".pem";
   "    client-key: " ++ workDir ++ "/" ++ name ++ "-key.pem"].

(** Each line followed by a line feed, as in the raw string literal. *)
Fixpoint unlines (ls : list string) : string :=
  match ls with
  | [] => ""
  | l :: ls' => l ++ LF ++ unlines ls'
  end.

Definition kubeconfigText (workDir clusterIP clusterName name : string)
  : string :=
  unlines (kubeconfigLines workDir clusterIP clusterName name).

(** [make([]byte, n)]. *)
Definition makeBytes (n : nat) : list byte := repeat x00 n.

Section Orchestrator.
Context {W : Type}.
Variable os : OS W.
Variable lib : Lib.
Variable rnd : Renderers.
Variable cm : ClusterManager W.

Local Abbreviation cfg := (config cm).
Local Abbreviation ssh := (sshClient cm).

(** [cm.writeFile(path, content)]. *)
Definition writeFile (path content : string) : M W unit :=
  osWriteFile os path content 420.

Definition generateEncryptionConfig (workDir : string) : M W unit :=
  key <- wrap "failed to generate encryption key: "
           (randRead os (makeBytes 32)) ;;
  let encodedKey := Base64.EncodeToString key in
  writeFile (filepathJoin lib workDir "encryption-config.yaml")
    (encryptionConfigText encodedKey).

Definition generateKubeconfig (workDir name ip : string) : M W unit :=
  let clusterIP :=
    if negb (isEmpty ip) then ip else IPAddress (Controller cfg) in
  writeFile (filepathJoin lib workDir (name ++ ".kubeconfig"))
    (kubeconfigText workDir clusterIP (ClusterName cfg) name).

(* ------------------------------------------------------------------- *)
(** *** [manager.go]: prerequisites *)

Definition ValidateK8sPrerequisites : M W unit :=
  loggerInfo "Checking prerequisites..." ;;
  let nodes := ([Controller cfg] ++ Workers cfg)%list in
  forM_ nodes (fun node =>
    wrap ("SSH connection to " ++ Name node ++ " failed: ")
      (sshExecuteCommand ssh Background (IPAddress node) "echo 'SSH test'") ;;
    loggerInfo ("SSH connection verified: " ++ Name node)) ;;
  wrap ("failed to create work directory " ++ WorkDir cfg ++ ": ")
    (osMkdirAll os (WorkDir cfg) 493).

(* ------------------------------------------------------------------- *)
(** *** [setup.go]: certificates and configurations *)

Definition clientCerts : list string :=
  (["admin"; "kube-controller-manager"; "kube-proxy"; "kube-scheduler";
   "service-account"] ++ map Name (Workers cfg))%list.

Definition serverHosts : list string :=
  ["127.0.0.1"; "10.32.0.1";
   IPAddress (Controller cfg); Hostname (Controller cfg);
   "kubernetes"; "kubernetes.default"; "kubernetes.default.svc";
   "kubernetes.default.svc.cluster"; "kubernetes.default.svc.cluster.local"].

Definition generateCertificates (ctx : Ctx) (workDir : string) : M W unit :=
  loggerInfo "Generating certificates..." ;;
  wrap "failed to generate CA: "
    (certGenerateCA (certManager cm) workDir (Certificates cfg)) ;;
  forM_ clientCerts (fun name =>
    wrap ("failed to generate client certificate for " ++ name ++ ": ")
      (certGenerateClientCert (certManager cm) workDir name
         (Certificates cfg))) ;;
  wrap "failed to generate server certificate: "
    (certGenerateServerCert (certManager cm) workDir "kubernetes" serverHosts
       (Certificates cfg)) ;;
  loggerInfo "All certificates generated successfully".

Definition createConfigurations (ctx : Ctx) (workDir : string) : M W unit :=
  loggerInfo "Creating configurations..." ;;
  wrap "failed to create encryption config: "
    (generateEncryptionConfig workDir) ;;
  forM_ (Workers cfg) (fun worker =>
    wrap ("failed to generate kubeconfig for " ++ Name worker ++ ": ")
      (generateKubeconfig workDir (Name worker) (IPAddress worker))) ;;
  forM_ ["kube-proxy"; "kube-controller-manager"; "kube-scheduler"; "admin"]
    (fun name =>
       let ip :=
         if String.eqb name "kube-controller-manager"
            || String.eqb name "kube-scheduler" || String.eqb name "admin"
         then IPAddress (Controller cfg)
         else "" in
       wrap ("failed to generate kubeconfig for " ++ name ++ ": ")
         (generateKubeconfig workDir name ip)) ;;
  loggerInfo "All configurations created successfully".

(* ------------------------------------------------------------------- *)
(** *** [setup.go]: the health gate *)

Definition isActiveCmd (serviceName : string) : string :=
  "sudo systemctl is-active " ++ serviceName.

Definition unhealthyError (serviceName : string) (timeout : Z) : string :=
  "service " ++ serviceName ++ " did not become healthy within "
  ++ durationString lib timeout.

(** The loop [for time.Now().Before(deadline) { ... }] and the return after
    it.  [fuel] bounds the number of iterations of the model. *)
Fixpoint waitLoop (fuel : nat) (ctx : Ctx) (host serviceName : string)
    (timeout deadline : Z) : M W unit :=
  now <- Now ;;
  if (now <? deadline)%Z then
    match fuel with
    | O => fun s => (OutOfFuel, s, [])
    | S fuel' =>
        r <- try (sshExecuteCommand ssh ctx host (isActiveCmd serviceName)) ;;
        match r with
        | inl output =>
            if String.eqb (TrimSpace output) "active" then
              loggerInfo ("Service " ++ serviceName ++ " is healthy")
            else
              Sleep (5 * Second) ;;
              waitLoop fuel' ctx host serviceName timeout deadline
        | inr _ =>
            Sleep (5 * Second) ;;
            waitLoop fuel' ctx host serviceName timeout deadline
        end
    end
  else fail (unhealthyError serviceName timeout).

Definition waitForService (fuel : nat) (ctx : Ctx) (host serviceName : string)
    (timeout : Z) : M W unit :=
  now <- Now ;;
  let deadline := now + timeout in
  waitLoop fuel ctx host serviceName timeout deadline.

(* ------------------------------------------------------------------- *)
(** *** [setup.go]: the control plane *)

Definition etcdCommands : list string :=
  ["sudo mkdir -p /etc/etcd /var/lib/etcd";
   "sudo groupadd -f etcd";
   "sudo useradd -g etcd -d /var/lib/etcd -s /sbin/nologin -c 'etcd user' etcd || true";
   "sudo chown -R etcd:etcd /var/lib/etcd";
   "wget -q --show-progress --https-only --timestamping 'https://github.com/etcd-io/etcd/releases/download/"
     ++ EtcdVersion cfg ++ "/etcd-" ++ EtcdVersion cfg ++ "-linux-amd64.tar.gz'";
   "tar -xzf etcd-" ++ EtcdVersion cfg ++ "-linux-amd64.tar.gz";
   "sudo mv etcd-" ++ EtcdVersion cfg ++ "-linux-amd64/etcd* /usr/local/bin/";
   "rm -f etcd-" ++ EtcdVersion cfg ++ "-linux-amd64.tar.gz"].

Definition k8sCommands : list string :=
  ["sudo mkdir -p /etc/kubernetes/config /var/lib/kubernetes";
   "wget -q --show-progress --https-only --timestamping "
     ++ "'https://storage.googleapis.com/kubernetes-release/release/"
     ++ KubernetesVersion cfg ++ "/bin/linux/amd64/kube-apiserver' "
     ++ "'https://storage.googleapis.com/kubernetes-release/release/"
     ++ KubernetesVersion cfg ++ "/bin/linux/amd64/kube-controller-manager' "
     ++ "'https://storage.googleapis.com/kubernetes-release/release/"
     ++ KubernetesVersion cfg ++ "/bin/linux/amd64/kube-scheduler' "
     ++ "'https://storage.googleapis.com/kubernetes-release/release/"
     ++ KubernetesVersion cfg ++ "/bin/linux/amd64/kubectl'";
   "chmod +x kube-apiserver kube-controller-manager kube-scheduler kubectl";
   "sudo mv kube-apiserver kube-controller-manager kube-scheduler kubectl /usr/local/bin/"].

Definition startEtcdCmd : string :=
  "sudo systemctl daemon-reload && sudo systemctl enable etcd && sudo systemctl start etcd".

(** [fmt.Sprintf("sudo systemctl enable %s && sudo systemctl start %s",
    service, service)]; for [kube-apiserver] the source spells the command
    out as a literal. *)
Definition startCmd (service : string) : string :=
  "sudo systemctl enable " ++ service ++ " && sudo systemctl start " ++ service.

Definition setupControlPlane (fuel : nat) (ctx : Ctx) (workDir : string)
  : M W unit :=
  loggerInfo "Setting up control plane..." ;;
  let controller := Controller cfg in
  forM_ etcdCommands (fun cmd =>
    wrap ("failed to execute etcd setup command '" ++ cmd
          ++ "' on controller: ")
      (sshExecuteCommand ssh ctx (IPAddress controller) cmd) ;; ret tt) ;;
  forM_ ["ca.pem"; "kubernetes-key.pem"; "kubernetes.pem"] (fun file =>
    let localPath := filepathJoin lib workDir file in
    let remotePath := "/etc/etcd/" ++ file in
    wrap ("failed to copy " ++ file ++ " to controller: ")
      (sshCopyFile ssh ctx (IPAddress controller) localPath remotePath) ;;
    wrap ("failed to set ownership for " ++ remotePath ++ ": ")
      (sshExecuteCommand ssh ctx (IPAddress controller)
         ("sudo chown etcd:etcd " ++ remotePath)) ;; ret tt) ;;
  let etcdService := generateEtcdService rnd cfg controller in
  wrap "failed to upload etcd service: "
    (sshCopyContent ssh ctx (IPAddress controller) etcdService
       "/etc/systemd/system/etcd.service") ;;
  forM_ k8sCommands (fun cmd =>
    wrap ("failed to execute kubernetes setup command '" ++ cmd
          ++ "' on controller: ")
      (sshExecuteCommand ssh ctx (IPAddress controller) cmd) ;; ret tt) ;;
  forM_ ["ca-key.pem"; "service-account-key.pem"; "service-account.pem";
         "encryption-config.yaml"; "kube-controller-manager.kubeconfig";
         "kube-scheduler.kubeconfig"] (fun file =>
    let localPath := filepathJoin lib workDir file in
    let remotePath := "/var/lib/kubernetes/" ++ file in
    wrap ("failed to copy " ++ file ++ " to controller: ")
      (sshCopyFile ssh ctx (IPAddress controller) localPath remotePath)) ;;
  let services :=
    [("kube-apiserver", generateAPIServerService rnd cfg);
     ("kube-controller-manager", generateControllerManagerService rnd cfg);
     ("kube-scheduler", generateSchedulerService rnd cfg)] in
  forM_ (mapRange os services) (fun '(name, content) =>
    let servicePath := "/etc/systemd/system/" ++ name ++ ".service" in
    wrap ("failed to upload " ++ name ++ " service: ")
      (sshCopyContent ssh ctx (IPAddress controller) content servicePath)) ;;
  wrap "failed to start etcd: "
    (sshExecuteCommand ssh ctx (IPAddress controller) startEtcdCmd) ;;
  wrap "etcd failed to become healthy: "
    (waitForService fuel ctx (IPAddress controller) "etcd" (30 * Second)) ;;
  wrap "failed to start kube-apiserver: "
    (sshExecuteCommand ssh ctx (IPAddress controller)
       "sudo systemctl enable kube-apiserver && sudo systemctl start kube-apiserver") ;;
  wrap "kube-apiserver failed to become healthy: "
    (waitForService fuel ctx (IPAddress controller) "kube-apiserver"
       (60 * Second)) ;;
  forM_ ["kube-controller-manager"; "kube-scheduler"] (fun service =>
    wrap ("failed to start " ++ service ++ ": ")
      (sshExecuteCommand ssh ctx (IPAddress controller) (startCmd service)) ;;
    wrap (service ++ " failed to become healthy: ")
      (waitForService fuel ctx (IPAddress controller) service (30 * Second))) ;;
  loggerInfo "Control plane setup completed".

(* ------------------------------------------------------------------- *)
(** *** [setup.go]: the workers *)

Definition depCommands : list string :=
  ["sudo apt-get update";
   "sudo apt-get -y install socat conntrack ipset";
   "sudo mkdir -p /etc/cni/net.d /opt/cni/bin /var/lib/kubelet /var/lib/kube-proxy /var/lib/kubernetes /var/run/kubernetes"].

Definition cniCommands : list string :=
  ["wget -q --show-progress --https-only --timestamping 'https://github.com/containernetworking/plugins/releases/download/"
     ++ CNIVersion cfg ++ "/cni-plugins-linux-amd64-" ++ CNIVersion cfg
     ++ ".tgz'";
   "sudo tar -xzf cni-plugins-linux-amd64-" ++ CNIVersion cfg
     ++ ".tgz -C /opt/cni/bin/";
   "rm -f cni-plugins-linux-amd64-" ++ CNIVersion cfg ++ ".tgz"].

Definition containerdCommands : list string :=
  ["wget -q --show-progress --https-only --timestamping 'https://github.com/containerd/containerd/releases/download/"
     ++ ContainerdVersion cfg ++ "/containerd-" ++ ContainerdVersion cfg
     ++ "-linux-amd64.tar.gz'";
   "wget -q --show-progress --https-only --timestamping 'https://github.com/opencontainers/runc/releases/download/v1.1.7/runc.amd64'";
   "sudo tar -xzf containerd-" ++ ContainerdVersion cfg
     ++ "-linux-amd64.tar.gz -C /";
   "sudo mv runc.amd64 runc";
   "chmod +x runc";
   "sudo mv runc /usr/local/bin/";
   "rm -f containerd-" ++ ContainerdVersion cfg ++ "-linux-amd64.tar.gz"].

Definition k8sWorkerCommands : list string :=
  ["wget -q --show-progress --https-only --timestamping "
     ++ "'https://storage.googleapis.com/kubernetes-release/release/"
     ++ KubernetesVersion cfg ++ "/bin/linux/amd64/kubectl' "
     ++ "'https://storage.googleapis.com/kubernetes-release/release/"
     ++ KubernetesVersion cfg ++ "/bin/linux/amd64/kube-proxy' "
     ++ "'https://storage.googleapis.com/kubernetes-release/release/"
     ++ KubernetesVersion cfg ++ "/bin/linux/amd64/kubelet'";
   "chmod +x kubectl kube-proxy kubelet";
   "sudo mv kubectl kube-proxy kubelet /usr/local/bin/"].

Definition workerStartCommands : list string :=
  ["sudo systemctl daemon-reload";
   "sudo systemctl enable containerd kubelet kube-proxy";
   "sudo systemctl start containerd kubelet kube-proxy"].

Definition setupSingleWorkerNode (ctx : Ctx) (workDir : string) (worker : Node)
  : M W unit :=
  loggerInfo ("Setting up worker node " ++ Name worker ++ "...") ;;
  forM_ depCommands (fun cmd =>
    wrap ("failed to execute dependency command '" ++ cmd ++ "' on "
          ++ Name worker ++ ": ")
      (sshExecuteCommand ssh ctx (IPAddress worker) cmd) ;; ret tt) ;;
  forM_ cniCommands (fun cmd =>
    wrap ("failed to execute CNI command '" ++ cmd ++ "' on "
          ++ Name worker ++ ": ")
      (sshExecuteCommand ssh ctx (IPAddress worker) cmd) ;; ret tt) ;;
  forM_ containerdCommands (fun cmd =>
    wrap ("failed to execute containerd command '" ++ cmd ++ "' on "
          ++ Name worker ++ ": ")
      (sshExecuteCommand ssh ctx (IPAddress worker) cmd) ;; ret tt) ;;
  forM_ k8sWorkerCommands (fun cmd =>
    wrap ("failed to execute kubernetes command '" ++ cmd ++ "' on "
          ++ Name worker ++ ": ")
      (sshExecuteCommand ssh ctx (IPAddress worker) cmd) ;; ret tt) ;;
  forM_ ["ca.pem"; Name worker ++ "-key.pem"; Name worker ++ ".pem";
         Name worker ++ ".kubeconfig"; "kube-proxy.kubeconfig"] (fun file =>
    let localPath := filepathJoin lib workDir file in
    let remotePath :=
      if String.eqb file "kube-proxy.kubeconfig"
      then "/var/lib/kube-proxy/" ++ file
      else "/var/lib/kubelet/" ++ file in
    wrap ("failed to copy " ++ file ++ " to " ++ Name worker ++ ": ")
      (sshCopyFile ssh ctx (IPAddress worker) localPath remotePath)) ;;
  let configs :=
    [("/etc/containerd/config.toml", generateContainerdConfig rnd cfg);
     ("/etc/cni/net.d/10-bridge.conf",
      generateBridgeNetworkConfig rnd cfg (PodCIDR worker));
     ("/etc/cni/net.d/99-loopback.conf",
      generateLoopbackNetworkConfig rnd cfg);
     ("/var/lib/kubelet/kubelet-config.yaml",
      generateKubeletConfig rnd cfg worker);
     ("/var/lib/kube-proxy/kube-proxy-config.yaml",
      generateKubeProxyConfig rnd cfg)] in
  forM_ (mapRange os configs) (fun '(path, content) =>
    wrap ("failed to upload config " ++ path ++ " to " ++ Name worker ++ ": ")
      (sshCopyContent ssh ctx (IPAddress worker) content path)) ;;
  let services :=
    [("containerd", generateContainerdService rnd cfg);
     ("kubelet", generateKubeletService rnd cfg worker);
     ("kube-proxy", generateKubeProxyService rnd cfg)] in
  forM_ (mapRange os services) (fun '(name, content) =>
    let servicePath := "/etc/systemd/system/" ++ name ++ ".service" in
    wrap ("failed to upload " ++ name ++ " service to " ++ Name worker
          ++ ": ")
      (sshCopyContent ssh ctx (IPAddress worker) content servicePath)) ;;
  forM_ workerStartCommands (fun cmd =>
    wrap ("failed to execute start command '" ++ cmd ++ "' on "
          ++ Name worker ++ ": ")
      (sshExecuteCommand ssh ctx (IPAddress worker) cmd) ;; ret tt) ;;
  loggerInfo ("Worker node " ++ Name worker ++ " setup completed").

Definition setupWorkerNodes (ctx : Ctx) (workDir : string) : M W unit :=
  loggerInfo "Setting up worker nodes..." ;;
  forM_ (Workers cfg) (fun worker =>
    wrap ("failed to setup worker " ++ Name worker ++ ": ")
      (setupSingleWorkerNode ctx workDir worker)) ;;
  loggerInfo "All worker nodes setup completed".

(* ------------------------------------------------------------------- *)
(** *** [setup.go]: networking and validation *)

(** [fmt.Sprintf("sudo ip route add %s via %s || true", otherWorker.PodCIDR,
    otherWorker.IPAddress)]. *)
Definition routeCmd (otherWorker : Node) : string :=
  "sudo ip route add " ++ PodCIDR otherWorker ++ " via "
  ++ IPAddress otherWorker ++ " || true".

Definition setupNetworking (ctx : Ctx) : M W unit :=
  loggerInfo "Setting up networking..." ;;
  let controller := Controller cfg in
  forM_ (Workers cfg) (fun worker =>
    forM_ (Workers cfg) (fun otherWorker =>
      if negb (String.eqb (Name worker) (Name otherWorker)) then
        wrap ("failed to add route on " ++ Name worker ++ ": ")
          (sshExecuteCommand ssh ctx (IPAddress worker) (routeCmd otherWorker)) ;;
        ret tt
      else ret tt)) ;;
  let coreDNSManifest := generateCoreDNSManifest rnd cfg in
  let manifestPath := "/tmp/coredns.yaml" in
  wrap "failed to upload CoreDNS manifest: "
    (sshCopyContent ssh ctx (IPAddress controller) coreDNSManifest
       manifestPath) ;;
  let applyCmd :=
    "kubectl apply -f " ++ manifestPath
    ++ " --kubeconfig /var/lib/kubernetes/admin.kubeconfig" in
  wrap "failed to apply CoreDNS manifest: "
    (sshExecuteCommand ssh ctx (IPAddress controller) applyCmd) ;;
  loggerInfo "Networking setup completed".

Definition validateCluster (ctx : Ctx) : M W unit :=
  loggerInfo "Validating cluster..." ;;
  let controller := Controller cfg in
  nodeStatus <- wrap "failed to get node status: "
    (sshExecuteCommand ssh ctx (IPAddress controller)
       "kubectl get nodes --kubeconfig /var/lib/kubernetes/admin.kubeconfig") ;;
  loggerInfo ("Node status: " ++ nodeStatus) ;;
  podStatus <- wrap "failed to get system pods: "
    (sshExecuteCommand ssh ctx (IPAddress controller)
       "kubectl get pods -n kube-system --kubeconfig /var/lib/kubernetes/admin.kubeconfig") ;;
  loggerInfo ("System pods: " ++ podStatus) ;;
  let testApp := generateTestApplicationManifest rnd cfg in
  let testPath := "/tmp/test-app.yaml" in
  wrap "failed to upload test app: "
    (sshCopyContent ssh ctx (IPAddress controller) testApp testPath) ;;
  wrap "failed to apply test app: "
    (sshExecuteCommand ssh ctx (IPAddress controller)
       ("kubectl apply -f " ++ testPath
        ++ " --kubeconfig /var/lib/kubernetes/admin.kubeconfig")) ;;
  Sleep (30 * Second) ;;
  testStatus <- wrap "failed to get test app status: "
    (sshExecuteCommand ssh ctx (IPAddress controller)
       "kubectl get deployment test-deployment --kubeconfig /var/lib/kubernetes/admin.kubeconfig") ;;
  loggerInfo ("Test application status: " ++ testStatus) ;;
  loggerInfo "Cluster validation completed".

(* ------------------------------------------------------------------- *)
(** *** [manager.go]: setup and teardown *)

Definition SetupCluster (fuel : nat) (ctx : Ctx) : M W unit :=
  let totalSteps := 6 in
  ReportProgress 1 totalSteps "Checking Prerequisites" ;;
  wrap "prerequisites check failed: " ValidateK8sPrerequisites ;;
  let workDir := WorkDir cfg in
  ReportProgress 2 totalSteps "Generating Certificates" ;;
  wrap "failed to generate certificates: " (generateCertificates ctx workDir) ;;
  ReportProgress 3 totalSteps "Creating Configurations" ;;
  wrap "failed to create configurations: " (createConfigurations ctx workDir) ;;
  ReportProgress 4 totalSteps "Setting Up Control Plane" ;;
  wrap "failed to setup control plane: " (setupControlPlane fuel ctx workDir) ;;
  ReportProgress 5 totalSteps "Setting Up Worker Nodes" ;;
  wrap "failed to setup worker nodes: " (setupWorkerNodes ctx workDir) ;;
  ReportProgress 6 totalSteps "Setting Up Networking" ;;
  wrap "failed to setup networking: " (setupNetworking ctx) ;;
  ReportProgress 6 totalSteps "Validating Cluster" ;;
  wrap "failed to validate cluster: " (validateCluster ctx).

Definition cleanupCommands : list string :=
  ["sudo systemctl stop etcd kube-apiserver kube-controller-manager kube-scheduler containerd kubelet kube-proxy || true";
   "sudo systemctl disable etcd kube-apiserver kube-controller-manager kube-scheduler containerd kubelet kube-proxy || true";
   "sudo rm -rf /etc/etcd /var/lib/etcd /etc/kubernetes /var/lib/kubernetes /var/lib/kubelet /var/lib/kube-proxy /etc/cni /opt/cni /var/run/kubernetes";
   "sudo rm -f /usr/local/bin/etcd* /usr/local/bin/kube* /usr/local/bin/runc /bin/containerd*";
   "sudo rm -f /etc/systemd/system/etcd.service /etc/systemd/system/kube*.service /etc/systemd/system/containerd.service";
   "sudo systemctl daemon-reload";
   "sudo systemctl reset-failed"].

Definition DestroyCluster (ctx : Ctx) : M W unit :=
  loggerInfo "Destroying cluster..." ;;
  let nodes := ([Controller cfg] ++ Workers cfg)%list in
  forM_ nodes (fun node =>
    loggerInfo ("Cleaning up node: " ++ Name node) ;;
    forM_ cleanupCommands (fun cmd =>
      wrap ("failed to execute cleanup command '" ++ cmd ++ "' on "
            ++ Name node ++ ": ")
        (sshExecuteCommand ssh ctx (IPAddress node) cmd) ;; ret tt)) ;;
  wrap ("failed to remove work directory " ++ WorkDir cfg ++ ": ")
    (osRemoveAll os (WorkDir cfg)) ;;
  loggerInfo "Cluster destroyed successfully".
End Orchestrator.

(* ===================================================================== *)
(** ** [sshclient.go]: the SSH transport *)

Record RealSSHClient := mkRealSSHClient {
  user : string;
  keyPath : string
}.

Section RealSSH.
Context {W : Type}.
Variable os : OS W.
Variable sshlib : SSHLibrary W.
Variable c : RealSSHClient.

Definition sshDial (addr : string) (timeout : Z) : M W unit :=
  fun s =>
    let '(err, dt, w) := Dial sshlib "tcp" addr (user c) timeout (world s) in
    (ofError err, mkSys w (clock s + Z.of_N dt),
     [EvDial "tcp" addr (user c) timeout err]).

Definition clientNewSession : M W nat :=
  fun s =>
    let '((id, err), w) := NewSession sshlib (world s) in
    (match err with None => Ok id | Some e => Err e end,
     mkSys w (clock s), [EvNewSession id err]).

Definition sessionStdinPipe (session : nat) : M W unit :=
  fun s =>
    let '(err, w) := StdinPipe sshlib session (world s) in
    (ofError err, mkSys w (clock s), [EvStdinPipe session err]).

(** [session.Run(cmd)]; on failure the error is paired with what the
    command wrote to standard error. *)
Definition sessionRun (session : nat) (cmd : string) (stdin : option string)
  : M W (string * string * error) :=
  fun s =>
    let '((stdout, stderr, err), dt, w) :=
      Run sshlib session cmd stdin (world s) in
    (Ok (stdout, stderr, err), mkSys w (clock s + Z.of_N dt),
     [EvRun session cmd stdin (clock s) dt stdout err]).

Definition sessionClose (session : nat) (s : Sys W) : Sys W * list Event :=
  (mkSys (SessionClose sshlib session (world s)) (clock s),
   [EvSessionClose session]).

Definition clientClose (s : Sys W) : Sys W * list Event :=
  (mkSys (ClientClose sshlib (world s)) (clock s), [EvClientClose]).

(** [createSSHClient(host)]. *)
Definition createSSHClient (host : string) : M W unit :=
  let host := if negb (Contains host ":") then host ++ ":22" else host in
  key <- wrap ("failed to read SSH key " ++ keyPath c ++ ": ")
           (osReadFile os (keyPath c)) ;;
  match ParsePrivateKey sshlib key with
  | Some e => fail (Errorf ("failed to parse SSH key " ++ keyPath c ++ ": ") e)
  | None => sshDial host (30 * Second)
  end.

Definition RealExecuteCommand (ctx : Ctx) (host command : string)
  : M W string :=
  wrap ("failed to create SSH client for " ++ host ++ ": ")
    (createSSHClient host) ;;
  deferring clientClose (
    session <- wrap ("failed to create SSH session for " ++ host ++ ": ")
                 clientNewSession ;;
    deferring (sessionClose session) (
      r <- sessionRun session command None ;;
      let '(stdout, stderr, err) := r in
      match err with
      | Some e =>
          fail ("failed to execute command '" ++ command ++ "' on " ++ host
                ++ ": " ++ e ++ ", stderr: " ++ stderr)
      | None => ret stdout
      end)).

(** The part shared by [CopyFile] and [CopyContent] once the content is at
    hand: write it through [sudo tee], then [chmod] in a second session. *)
Definition teeAndChmod (what host content remotePath : string) (session : nat)
  : M W unit :=
  wrap ("failed to create stdin pipe for " ++ host ++ ": ")
    (sessionStdinPipe session) ;;
  r <- sessionRun session ("sudo tee " ++ remotePath ++ " > /dev/null")
         (Some content) ;;
  match snd r with
  | Some e =>
      fail (Errorf ("failed to copy " ++ what ++ " to " ++ remotePath
                    ++ " on " ++ host ++ ": ") e)
  | None =>
      permSession <-
        wrap ("failed to create permission session for " ++ host ++ ": ")
          clientNewSession ;;
      deferring (sessionClose permSession) (
        r <- sessionRun permSession ("sudo chmod 644 " ++ remotePath) None ;;
        match snd r with
        | Some e =>
            fail (Errorf ("failed to set permissions for " ++ remotePath
                          ++ " on " ++ host ++ ": ") e)
        | None => ret tt
        end)
  end.

Definition RealCopyFile (ctx : Ctx) (host localPath remotePath : string)
  : M W unit :=
  wrap ("failed to create SSH client for " ++ host ++ ": ")
    (createSSHClient host) ;;
  deferring clientClose (
    session <- wrap ("failed to create SSH session for " ++ host ++ ": ")
                 clientNewSession ;;
    deferring (sessionClose session) (
      fileContent <- wrap ("failed to read local file " ++ localPath ++ ": ")
                       (osReadFile os localPath) ;;
      teeAndChmod "file" host fileContent remotePath session)).

Definition RealCopyContent (ctx : Ctx) (host content remotePath : string)
  : M W unit :=
  wrap ("failed to create SSH client for " ++ host ++ ": ")
    (createSSHClient host) ;;
  deferring clientClose (
    session <- wrap ("failed to create SSH session for " ++ host ++ ": ")
                 clientNewSession ;;
    deferring (sessionClose session) (
      teeAndChmod "content" host content remotePath session)).
End RealSSH.

(** The requirement on cancellation, read on one call of the transport:
    if the context is cancelled at an instant at which a remote command is
    running, the run carries a kill signal and the call is over no later
    than two seconds after that instant. *)
Definition inFlight (t : Z) (e : Event) : Prop :=
  match e with
  | EvRun _ _ _ startedAt took _ _ => startedAt <= t < startedAt + Z.of_N took
  | _ => False
  end.

Definition isKill (e : Event) : Prop :=
  match e with
  | EvSignal _ sig => sig = "KILL"
  | _ => False
  end.

Definition isSignal (e : Event) : Prop :=
  match e with
  | EvSignal _ _ => True
  | _ => False
  end.

Definition killedWithinGrace {W A} (ctx : Ctx)
    (run : Res A * Sys W * list Event) : Prop :=
  forall t, ctx = WithCancel (Some t) ->
    (exists e, In e (trace run) /\ inFlight t e) ->
    (exists e, In e (trace run) /\ isKill e)
    /\ clock (final run) <= t + 2 * Second.

(* ===================================================================== *)
(** ** Reading a trace *)

(** The commands handed to [ExecuteCommand], with their hosts. *)
Definition execCalls (t : list Event) : list (string * string) :=
  flat_map (fun e => match e with
                     | EvExec _ host cmd _ _ => [(host, cmd)]
                     | _ => []
                     end) t.

(** The operations asked of the certificate manager. *)
Inductive PkiOp :=
| IssueCA
| IssueClient (name : string)
| IssueServer (name : string) (hosts : list string).

Definition pkiOps (t : list Event) : list PkiOp :=
  flat_map (fun e => match e with
                     | EvGenerateCA _ _ _ => [IssueCA]
                     | EvGenerateClientCert _ name _ _ => [IssueClient name]
                     | EvGenerateServerCert _ name hosts _ _ =>
                         [IssueServer name hosts]
                     | _ => []
                     end) t.

(** The files written locally: path and content. *)
Definition writes (t : list Event) : list (string * string) :=
  flat_map (fun e => match e with
                     | EvWriteFile path content _ _ => [(path, content)]
                     | _ => []
                     end) t.

(** The phases announced to the progress reporter. *)
Definition phases (t : list Event) : list string :=
  flat_map (fun e => match e with
                     | EvProgress _ _ phase => [phase]
                     | _ => []
                     end) t.

(** An event that creates or changes a local file. *)
Definition touchesLocalFiles (e : Event) : bool :=
  match e with
  | EvGenerateCA _ _ _ | EvGenerateClientCert _ _ _ _
  | EvGenerateServerCert _ _ _ _ _ | EvWriteFile _ _ _ _ | EvMkdirAll _ _ _
  | EvRemoveAll _ _ => true
  | _ => false
  end.

(** The command that starts a control-plane unit. *)
Definition isStartOf (service : string) (e : Event) : Prop :=
  match e with
  | EvExec _ _ cmd _ _ =>
      cmd = "sudo systemctl enable " ++ service ++ " && sudo systemctl start "
            ++ service
  | _ => False
  end.

(** A probe [sudo systemctl is-active <service>] on [host] that returned
    without error and whose trimmed standard output is [active]. *)
Definition isHealthyProbe (host service : string) (e : Event) : Prop :=
  match e with
  | EvExec _ h cmd out None =>
      h = host /\ cmd = "sudo systemctl is-active " ++ service
      /\ TrimSpace out = "active"
  | _ => False
  end.

(** In a trace, every event satisfying [Q] has an earlier event
    satisfying [P]. *)
Definition precededBy (P Q : Event -> Prop) (t : list Event) : Prop :=
  forall pre e post, t = (pre ++ e :: post)%list -> Q e ->
    exists p, In p pre /\ P p.

(** The trace of a health gate: probes of one unit on one host, each
    unhealthy one followed by a sleep of five seconds; it ends with a healthy
    probe and its log line ([true]) or after an unhealthy round ([false]). *)
Inductive pollTrace (ctx : Ctx) (host serviceName : string)
  : bool -> list Event -> Prop :=
| poll_expired : pollTrace ctx host serviceName false []
| poll_healthy out :
    TrimSpace out = "active" ->
    pollTrace ctx host serviceName true
      [EvExec ctx host ("sudo systemctl is-active " ++ serviceName) out None;
       EvInfo ("Service " ++ serviceName ++ " is healthy")]
| poll_again out err b t :
    (err <> None \/ TrimSpace out <> "active") ->
    pollTrace ctx host serviceName b t ->
    pollTrace ctx host serviceName b
      (EvExec ctx host ("sudo systemctl is-active " ++ serviceName) out err
       :: EvSleep (5 * Second) :: t).






(** The fields [LoadClusterConfig] checks. *)
Definition checkedFields (c : ClusterConfig) : Prop :=
  ClusterName c <> "" /\ KubernetesVersion c <> "" /\ EtcdVersion c <> ""
  /\ ContainerdVersion c <> "" /\ CNIVersion c <> "" /\ CoreDNSVersion c <> ""
  /\ PodCIDR_ c <> "" /\ ServiceCIDR c <> "" /\ ClusterDNS c <> ""
  /\ WorkDir c <> "" /\ SSHKey c <> "" /\ SSHUser c <> ""
  /\ IPAddress (Controller c) <> "" /\ Name (Controller c) <> ""
  /\ Workers c <> []
  /\ (forall w, In w (Workers c) ->
        IPAddress w <> "" /\ Name w <> "" /\ PodCIDR w <> "")
  /\ Country (Certificates c) <> "" /\ 0 < ValidityDays (Certificates c).

(** The invariants of the data model that relate nodes to one another. *)
Definition controllerApart (c : ClusterConfig) : Prop :=
  forall w, In w (Workers c) -> IPAddress w <> IPAddress (Controller c).

Definition workerNamesUnique (c : ClusterConfig) : Prop :=
  NoDup (map Name (Workers c)).

(** The encryption configuration as a document: the resources it covers
    and its providers in order; and the text of such a document. *)
Inductive Provider :=
| Aescbc (keys : list (string * string))
| Identity.

Definition renderKey (key : string * string) : string :=
  "            - name: " ++ fst key ++ LF ++
  "              secret: " ++ snd key ++ LF.

Definition renderProvider (p : Provider) : string :=
  match p with
  | Aescbc keys =>
      "      - aescbc:" ++ LF ++ "          keys:" ++ LF
      ++ String.concat "" (map renderKey keys)
  | Identity => "      - identity: {}" ++ LF
  end.

Definition renderEncryptionConfig (resources : list string)
    (providers : list Provider) : string :=
  "kind: EncryptionConfig" ++ LF ++ "apiVersion: v1" ++ LF ++
  "resources:" ++ LF ++ "  - resources:" ++ LF
  ++ String.concat "" (map (fun r => "      - " ++ r ++ LF) resources)
  ++ "    providers:" ++ LF
  ++ String.concat "" (map renderProvider providers).




(* ===================================================================== *)
(** ** Test doubles *)

(** The [MockSSHClient] of the package's tests: canned errors and responses
    by command, [success] otherwise; the world is its list of executed
    commands. *)
Record MockSSHClient := mkMockSSHClient {
  responses : list (string * string);
  errors : list (string * string)
}.

Fixpoint lookup (k : string) (m : list (string * string)) : option string :=
  match m with
  | [] => None
  | (k', v) :: m' => if String.eqb k k' then Some v else lookup k m'
  end.

Definition mockSSH (m : MockSSHClient) : SSHClient (list string) :=
  mkSSHClient (list string)
    (fun _ host command w =>
       let w' := (w ++ [(host ++ ": " ++ command)%string])%list in
       match lookup command (errors m) with
       | Some e => (("", Some e), 0%N, w')
       | None =>
           match lookup command (responses m) with
           | Some r => ((r, None), 0%N, w')
           | None => (("success", None), 0%N, w')
           end
       end)
    (fun _ _ _ _ w => (None, 0%N, w))
    (fun _ _ _ _ w => (None, 0%N, w)).

Definition mockCerts : CertificateManager (list string) :=
  mkCertificateManager (list string)
    (fun _ _ w => (None, w))
    (fun _ _ _ w => (None, w))
    (fun _ _ _ _ w => (None, w)).

(** A local system on which every operation succeeds, the random source
    yields [n] bytes [0x2a], and a configuration file unmarshals to [c]. *)
Definition mockOS (c : ClusterConfig) : OS (list string) :=
  mkOS (list string)
    (fun _ _ w => (None, w))
    (fun _ _ _ w => (None, w))
    (fun _ w => (None, w))
    (fun _ w => (("", None), w))
    (fun n w => ((repeat x2a n, None), w))
    (fun _ => (c, None))
    (fun m => m).

Definition mockLib : Lib :=
  mkLib (fun dir file => dir ++ "/" ++ file) (fun _ => "30s").

Definition mockRenderers : Renderers :=
  mkRenderers (fun _ _ => "") (fun _ => "") (fun _ => "") (fun _ => "")
    (fun _ => "") (fun _ => "") (fun _ _ => "") (fun _ => "") (fun _ _ => "")
    (fun _ => "") (fun _ _ => "") (fun _ => "") (fun _ => "") (fun _ => "").

(** The configuration of the package's tests ([createTestConfig]). *)
Definition testConfig : ClusterConfig :=
  mkClusterConfig "test-cluster" "v1.26.0" "v3.5.9" "1.7.2" "v1.3.0" "1.10.1"
    "10.200.0.0/16" "10.32.0.0/24" "10.32.0.10" "/tmp/test-k8s"
    "~/.ssh/test.pem" "ubuntu"
    (mkNode "controller-0" "10.240.0.10" "controller-0" "")
    [mkNode "worker-0" "10.240.0.20" "worker-0" "10.200.0.0/24";
     mkNode "worker-1" "10.240.0.21" "worker-1" "10.200.1.0/24"]
    (mkCertificateConfig "US" "CA" "SF" "Test" "IT" 365).

(** All four health probes answer [active]. *)
Definition healthyMock : MockSSHClient :=
  mkMockSSHClient
    [("echo 'SSH test'", "SSH test");
     ("sudo systemctl is-active etcd", "active");
     ("sudo systemctl is-active kube-apiserver", "active");
     ("sudo systemctl is-active kube-controller-manager", "active");
     ("sudo systemctl is-active kube-scheduler", "active")]
    [].

(** The SSH probe of the prerequisites is refused. *)
Definition unreachableMock : MockSSHClient :=
  mkMockSSHClient [] [("echo 'SSH test'", "connection refused")].

(** Every probe of etcd fails in the transport. *)
Definition deadProbeMock : MockSSHClient :=
  mkMockSSHClient [] [("sudo systemctl is-active etcd", "connection refused")].

Definition testManager (m : MockSSHClient) (c : ClusterConfig)
  : ClusterManager (list string) :=
  mkClusterManager (list string) c (mockSSH m) mockCerts.

Definition start0 : Sys (list string) := mkSys [] 0.

(** A configuration in which both workers carry the name and the address of
    the controller. *)
Definition cloneConfig : ClusterConfig :=
  mkClusterConfig "test-cluster" "v1.26.0" "v3.5.9" "1.7.2" "v1.3.0" "1.10.1"
    "10.200.0.0/16" "10.32.0.0/24" "10.32.0.10" "/tmp/test-k8s"
    "~/.ssh/test.pem" "ubuntu"
    (mkNode "node" "10.240.0.10" "node" "")
    [mkNode "node" "10.240.0.10" "node" "10.200.0.0/24";
     mkNode "node" "10.240.0.10" "node" "10.200.1.0/24"]
    (mkCertificateConfig "US" "CA" "SF" "Test" "IT" 365).



(** An SSH library on which everything succeeds at once, except that a
    command runs for ten seconds before it answers [done]. *)
Definition slowLibrary : SSHLibrary (list string) :=
  mkSSHLibrary (list string)
    (fun _ => None)
    (fun _ _ _ _ w => (None, 0%N, w))
    (fun w => ((1%nat, None), w))
    (fun _ w => (None, w))
    (fun _ cmd _ w => (("done", "", None), 10000000000%N, (w ++ [cmd])%list))
    (fun _ w => w)
    (fun w => w).

Definition testClient : RealSSHClient := mkRealSSHClient "ubuntu" "~/.ssh/test.pem".

(** A context cancelled one second after the start. *)
Definition cancelledAt1s : Ctx := WithCancel (Some (1 * Second)).

(* ===================================================================== *)
(** ** [helpers.go]: the text of the units, configurations and manifests *)

(** The double quote of the templates. *)
Definition DQ : string := String "034"%char EmptyString.

Module Render.
Definition generateEtcdService (c : ClusterConfig) (controller : Node) : string :=
  unlines
  ["[Unit]";
   "Description=etcd";
   "Documentation=https://github.com/etcd-io/etcd";
   "After=network.target";
   "";
   "[Service]";
   "User=etcd";
   "Group=etcd";
   "Type=notify";
   "ExecStart=/usr/local/bin/etcd \";
   "  --name " ++ Name controller ++ " \";
   "  --cert-file=/etc/etcd/kubernetes.pem \";
   "  --key-file=/etc/etcd/kubernetes-key.pem \";
   "  --peer-cert-file=/etc/etcd/kubernetes.pem \";
   "  --peer-key-file=/etc/etcd/kubernetes-key.pem \";
   "  --trusted-ca-file=/etc/etcd/ca.pem \";
   "  --peer-trusted-ca-file=/etc/etcd/ca.pem \";
   "  --client-cert-auth \";
   "  --data-dir=/var/lib/etcd";
   "Restart=on-failure";
   "RestartSec=5";
   "";
   "[Install]";
   "WantedBy=multi-user.target"].

Definition generateContainerdConfig (c : ClusterConfig) : string :=
  unlines
  ["version = 2";
   "[plugins]";
   "  [plugins." ++ DQ ++ "io.containerd.grpc.v1.cri" ++ DQ ++ "]";
   "    [plugins." ++ DQ ++ "io.containerd.grpc.v1.cri" ++ DQ ++ ".containerd]";
   "      [plugins." ++ DQ ++ "io.containerd.grpc.v1.cri" ++ DQ ++ ".containerd.runtimes]";
   "        [plugins." ++ DQ ++ "io.containerd.grpc.v1.cri" ++ DQ ++ ".containerd.runtimes.runc]";
   "          runtime_type = " ++ DQ ++ "io.containerd.runc.v2" ++ DQ;
   "          [plugins." ++ DQ ++ "io.containerd.grpc.v1.cri" ++ DQ ++ ".containerd.runtimes.runc.options]";
   "            SystemdCgroup = true"].

Definition generateAPIServerService (c : ClusterConfig) : string :=
  unlines
  ["[Unit]";
   "Description=Kubernetes API Server";
   "Documentation=https://kubernetes.io/docs/reference/command-line-tools-reference/kube-apiserver/";
   "After=network.target";
   "";
   "[Service]";
   "ExecStart=/usr/local/bin/kube-apiserver \";
   "  --advertise-address=" ++ IPAddress (Controller c) ++ " \";
   "  --allow-privileged=true \";
   "  --apiserver-count=1 \";
   "  --authorization-mode=Node,RBAC \";
   "  --bind-address=0.0.0.0 \";
   "  --client-ca-file=/var/lib/kubernetes/ca.pem \";
   "  --enable-admission-plugins=NodeRestriction \";
   "  --etcd-cafile=/var/lib/kubernetes/ca.pem \";
   "  --etcd-certfile=/var/lib/kubernetes/kubernetes.pem \";
   "  --etcd-keyfile=/var/lib/kubernetes/kubernetes-key.pem \";
   "  --etcd-servers=https://" ++ IPAddress (Controller c) ++ ":2379 \";
   "  --encryption-provider-config=/var/lib/kubernetes/encryption-config.yaml \";
   "  --kubelet-certificate-authority=/var/lib/kubernetes/ca.pem \";
   "  --kubelet-client-certificate=/var/lib/kubernetes/kubernetes.pem \";
   "  --kubelet-client-key=/var/lib/kubernetes/kubernetes-key.pem \";
   "  --service-account-key-file=/var/lib/kubernetes/service-account.pem \";
   "  --service-cluster-ip-range=" ++ ServiceCIDR c ++ " \";
   "  --service-node-port-range=30000-32767 \";
   "  --tls-cert-file=/var/lib/kubernetes/kubernetes.pem \";
   "  --tls-private-key-file=/var/lib/kubernetes/kubernetes-key.pem";
   "Restart=on-failure";
   "RestartSec=5";
   "";
   "[Install]";
   "WantedBy=multi-user.target"].

Definition generateControllerManagerService (c : ClusterConfig) : string :=
  unlines
  ["[Unit]";
   "Description=Kubernetes Controller Manager";
   "Documentation=https://kubernetes.io/docs/reference/command-line-tools-reference/kube-controller-manager/";
   "After=network.target";
   "";
   "[Service]";
   "ExecStart=/usr/local/bin/kube-controller-manager \";
   "  --bind-address=0.0.0.0 \";
   "  --cluster-cidr=" ++ PodCIDR_ c ++ " \";
   "  --leader-elect=true \";
   "  --service-account-private-key-file=/var/lib/kubernetes/service-account-key.pem \";
   "  --service-cluster-ip-range=" ++ ServiceCIDR c ++ " \";
   "  --use-service-account-credentials=true \";
   "  --v=2 \";
   "  --kubeconfig=/var/lib/kubernetes/kube-controller-manager.kubeconfig";
   "Restart=on-failure";
   "RestartSec=5";
   "";
   "[Install]";
   "WantedBy=multi-user.target"].

Definition generateSchedulerService (c : ClusterConfig) : string :=
  unlines
  ["[Unit]";
   "Description=Kubernetes Scheduler";
   "Documentation=https://kubernetes.io/docs/reference/command-line-tools-reference/kube-scheduler/";
   "After=network.target";
   "";
   "[Service]";
   "ExecStart=/usr/local/bin/kube-scheduler \";
   "  --bind-address=0.0.0.0 \";
   "  --leader-elect=true \";
   "  --v=2 \";
   "  --kubeconfig=/var/lib/kubernetes/kube-scheduler.kubeconfig";
   "Restart=on-failure";
   "RestartSec=5";
   "";
   "[Install]";
   "WantedBy=multi-user.target"].

Definition generateContainerdService (c : ClusterConfig) : string :=
  unlines
  ["[Unit]";
   "Description=containerd container runtime";
   "Documentation=https://containerd.io";
   "After=network.target";
   "";
   "[Service]";
   "ExecStart=/bin/containerd";
   "Restart=on-failure";
   "RestartSec=5";
   "Delegate=yes";
   "KillMode=process";
   "OOMScoreAdjust=-999";
   "LimitNOFILE=1048576";
   "LimitNPROC=infinity";
   "LimitCORE=infinity";
   "";
   "[Install]";
   "WantedBy=multi-user.target"].

Definition generateKubeletService (c : ClusterConfig) (worker : Node) : string :=
  unlines
  ["[Unit]";
   "Description=Kubernetes Kubelet";
   "Documentation=https://kubernetes.io/docs/reference/command-line-tools-reference/kubelet/";
   "After=containerd.service";
   "Requires=containerd.service";
   "";
   "[Service]";
   "ExecStart=/usr/local/bin/kubelet \";
   "  --config=/var/lib/kubelet/kubelet-config.yaml \";
   "  --container-runtime-endpoint=unix:///var/run/containerd/containerd.sock \";
   "  --image-pull-progress-deadline=2m \";
   "  --kubeconfig=/var/lib/kubelet/" ++ Name worker ++ ".kubeconfig \";
   "  --network-plugin=cni \";
   "  --register-node=true \";
   "  --v=2";
   "Restart=on-failure";
   "RestartSec=5";
   "";
   "[Install]";
   "WantedBy=multi-user.target"].

Definition generateKubeProxyService (c : ClusterConfig) : string :=
  unlines
  ["[Unit]";
   "Description=Kubernetes Kube Proxy";
   "Documentation=https://kubernetes.io/docs/reference/command-line-tools-reference/kube-proxy/";
   "After=network.target";
   "";
   "[Service]";
   "ExecStart=/usr/local/bin/kube-proxy \";
   "  --config=/var/lib/kube-proxy/kube-proxy-config.yaml";
   "Restart=on-failure";
   "RestartSec=5";
   "";
   "[Install]";
   "WantedBy=multi-user.target"].

Definition generateBridgeNetworkConfig (c : ClusterConfig) (podCIDR : string) : string :=
  unlines
  ["{";
   "  " ++ DQ ++ "cniVersion" ++ DQ ++ ": " ++ DQ ++ "0.4.0" ++ DQ ++ ",";
   "  " ++ DQ ++ "name" ++ DQ ++ ": " ++ DQ ++ "bridge" ++ DQ ++ ",";
   "  " ++ DQ ++ "type" ++ DQ ++ ": " ++ DQ ++ "bridge" ++ DQ ++ ",";
   "  " ++ DQ ++ "bridge" ++ DQ ++ ": " ++ DQ ++ "cni0" ++ DQ ++ ",";
   "  " ++ DQ ++ "isGateway" ++ DQ ++ ": true,";
   "  " ++ DQ ++ "ipMasq" ++ DQ ++ ": true,";
   "  " ++ DQ ++ "ipam" ++ DQ ++ ": {";
   "    " ++ DQ ++ "type" ++ DQ ++ ": " ++ DQ ++ "host-local" ++ DQ ++ ",";
   "    " ++ DQ ++ "ranges" ++ DQ ++ ": [";
   "      [{" ++ DQ ++ "subnet" ++ DQ ++ ": " ++ DQ ++ podCIDR ++ DQ ++ "}]";
   "    ],";
   "    " ++ DQ ++ "routes" ++ DQ ++ ": [{" ++ DQ ++ "dst" ++ DQ ++ ": " ++ DQ ++ "0.0.0.0/0" ++ DQ ++ "}]";
   "  }";
   "}"].

Definition generateLoopbackNetworkConfig (c : ClusterConfig) : string :=
  unlines
  ["{";
   "  " ++ DQ ++ "cniVersion" ++ DQ ++ ": " ++ DQ ++ "0.4.0" ++ DQ ++ ",";
   "  " ++ DQ ++ "name" ++ DQ ++ ": " ++ DQ ++ "loopback" ++ DQ ++ ",";
   "  " ++ DQ ++ "type" ++ DQ ++ ": " ++ DQ ++ "loopback" ++ DQ;
   "}"].

Definition generateKubeletConfig (c : ClusterConfig) (worker : Node) : string :=
  unlines
  ["apiVersion: kubelet.config.k8s.io/v1beta1";
   "kind: KubeletConfiguration";
   "address: " ++ IPAddress worker;
   "authentication:";
   "  anonymous:";
   "    enabled: false";
   "  webhook:";
   "    enabled: true";
   "authorization:";
   "  mode: Webhook";
   "clusterDNS:";
   "- " ++ ClusterDNS c;
   "clusterDomain: cluster.local";
   "podCIDR: " ++ PodCIDR worker;
   "resolvConf: /etc/resolv.conf"].

Definition generateKubeProxyConfig (c : ClusterConfig) : string :=
  unlines
  ["apiVersion: kubeproxy.config.k8s.io/v1alpha1";
   "kind: KubeProxyConfiguration";
   "clientConnection:";
   "  kubeconfig: /var/lib/kube-proxy/kube-proxy.kubeconfig";
   "mode: iptables";
   "clusterCIDR: " ++ PodCIDR_ c].

Definition generateCoreDNSManifest (c : ClusterConfig) : string :=
  unlines
  ["apiVersion: v1";
   "kind: ServiceAccount";
   "metadata:";
   "  name: coredns";
   "  namespace: kube-system";
   "---";
   "apiVersion: rbac.authorization.k8s.io/v1";
   "kind: ClusterRole";
   "metadata:";
   "  name: coredns";
   "rules:";
   "- apiGroups: [" ++ DQ ++ DQ ++ "]";
   "  resources: [" ++ DQ ++ "endpoints" ++ DQ ++ ", " ++ DQ ++ "services" ++ DQ ++ ", " ++ DQ ++ "pods" ++ DQ ++ ", " ++ DQ ++ "namespaces" ++ DQ ++ "]";
   "  verbs: [" ++ DQ ++ "list" ++ DQ ++ ", " ++ DQ ++ "watch" ++ DQ ++ "]";
   "---";
   "apiVersion: rbac.authorization.k8s.io/v1";
   "kind: ClusterRoleBinding";
   "metadata:";
   "  name: coredns";
   "roleRef:";
   "  apiGroup: rbac.authorization.k8s.io";
   "  kind: ClusterRole";
   "  name: coredns";
   "subjects:";
   "- kind: ServiceAccount";
   "  name: coredns";
   "  namespace: kube-system";
   "---";
   "apiVersion: apps/v1";
   "kind: Deployment";
   "metadata:";
   "  name: coredns";
   "  namespace: kube-system";
   "  labels:";
   "    k8s-app: kube-dns";
   "spec:";
   "  replicas: 2";
   "  selector:";
   "    matchLabels:";
   "      k8s-app: kube-dns";
   "  template:";
   "    metadata:";
   "      labels:";
   "        k8s-app: kube-dns";
   "    spec:";
   "      serviceAccountName: coredns";
   "      containers:";
   "      - name: coredns";
   "        image: coredns/coredns:" ++ CoreDNSVersion c;
   "        args:";
   "        - -conf";
   "        - /etc/coredns/Corefile";
   "        volumeMounts:";
   "        - name: config-volume";
   "          mountPath: /etc/coredns";
   "      volumes:";
   "      - name: config-volume";
   "        configMap:";
   "          name: coredns";
   "---";
   "apiVersion: v1";
   "kind: ConfigMap";
   "metadata:";
   "  name: coredns";
   "  namespace: kube-system";
   "data:";
   "  Corefile: |";
   "    .:53 {";
   "        errors";
   "        health";
   "        kubernetes cluster.local in-addr.arpa ip6.arpa {";
   "          pods insecure";
   "          fallthrough in-addr.arpa ip6.arpa";
   "        }";
   "        prometheus :9153";
   "        forward . /etc/resolv.conf";
   "        cache 30";
   "        loop";
   "        reload";
   "        loadbalance";
   "    }";
   "---";
   "apiVersion: v1";
   "kind: Service";
   "metadata:";
   "  name: kube-dns";
   "  namespace: kube-system";
   "  labels:";
   "    k8s-app: kube-dns";
   "  annotations:";
   "    prometheus.io/port: " ++ DQ ++ "9153" ++ DQ;
   "    prometheus.io/scrape: " ++ DQ ++ "true" ++ DQ;
   "spec:";
   "  clusterIP: " ++ ClusterDNS c;
   "  ports:";
   "  - name: dns";
   "    port: 53";
   "    protocol: UDP";
   "  - name: dns-tcp";
   "    port: 53";
   "    protocol: TCP";
   "  - name: metrics";
   "    port: 9153";
   "    protocol: TCP";
   "  selector:";
   "    k8s-app: kube-dns"].

Definition generateTestApplicationManifest (c : ClusterConfig) : string :=
  unlines
  ["apiVersion: apps/v1";
   "kind: Deployment";
   "metadata:";
   "  name: test-deployment";
   "spec:";
   "  replicas: 2";
   "  selector:";
   "    matchLabels:";
   "      app: test-app";
   "  template:";
   "    metadata:";
   "      labels:";
   "        app: test-app";
   "    spec:";
   "      containers:";
   "      - name: nginx";
   "        image: nginx:1.14.2";
   "        ports:";
   "        - containerPort: 80";
   "---";
   "apiVersion: v1";
   "kind: Service";
   "metadata:";
   "  name: test-service";
   "spec:";
   "  ports:";
   "  - port: 80";
   "    targetPort: 80";
   "    protocol: TCP";
   "  selector:";
   "    app: test-app"].
End Render.

(** The renderers of [helpers.go], as the [ClusterManager] calls them. *)
Definition helpers : Renderers :=
  mkRenderers Render.generateEtcdService Render.generateContainerdConfig
    Render.generateAPIServerService Render.generateControllerManagerService
    Render.generateSchedulerService Render.generateContainerdService
    Render.generateKubeletService Render.generateKubeProxyService
    Render.generateBridgeNetworkConfig Render.generateLoopbackNetworkConfig
    Render.generateKubeletConfig Render.generateKubeProxyConfig
    Render.generateCoreDNSManifest Render.generateTestApplicationManifest.

(* ===================================================================== *)
(** ** [manager.go]: the status query *)

Record ClusterStatus := mkClusterStatus {
  Nodes : string;
  PodStatus : string;
  TestStatus : string
}.

Section Status.
Context {W : Type}.
Variable cm : ClusterManager W.

(** [GetClusterStatus(ctx)]: the Go function returns the status gathered so
    far together with the error. *)
Definition GetClusterStatus (ctx : Ctx) : M W (ClusterStatus * error) :=
  let status := mkClusterStatus "" "" "" in
  let controller := Controller (config cm) in
  r <- try (sshExecuteCommand (sshClient cm) ctx (IPAddress controller)
              "kubectl get nodes --kubeconfig /var/lib/kubernetes/admin.kubeconfig") ;;
  match r with
  | inr e => ret (status, Some (Errorf "failed to get node status: " e))
  | inl nodeStatus =>
      let status := mkClusterStatus nodeStatus (PodStatus status)
                      (TestStatus status) in
      r <- try (sshExecuteCommand (sshClient cm) ctx (IPAddress controller)
                  "kubectl get pods -n kube-system --kubeconfig /var/lib/kubernetes/admin.kubeconfig") ;;
      match r with
      | inr e => ret (status, Some (Errorf "failed to get system pods: " e))
      | inl podStatus =>
          let status := mkClusterStatus (Nodes status) podStatus
                          (TestStatus status) in
          r <- try (sshExecuteCommand (sshClient cm) ctx (IPAddress controller)
                      "kubectl get deployment test-deployment --kubeconfig /var/lib/kubernetes/admin.kubeconfig") ;;
          match r with
          | inr e =>
              ret (status, Some (Errorf "failed to get test app status: " e))
          | inl testStatus =>
              ret (mkClusterStatus (Nodes status) (PodStatus status) testStatus,
                   None)
          end
      end
  end.
End Status.

(* ===================================================================== *)
(** ** More readings of a trace *)

(** The standard output of the commands that returned without error. *)
Definition outputs (t : list Event) : list string :=
  flat_map (fun e => match e with
                     | EvExec _ _ _ out None => [out]
                     | _ => []
                     end) t.

(** The announcements to the progress reporter: step, total, phase. *)
Definition progress (t : list Event) : list (Z * Z * string) :=
  flat_map (fun e => match e with
                     | EvProgress step total phase => [(step, total, phase)]
                     | _ => []
                     end) t.

(** What [SetupCluster] announces when every phase succeeds. *)
Definition allProgress : list (Z * Z * string) :=
  [(1, 6, "Checking Prerequisites"); (2, 6, "Generating Certificates");
   (3, 6, "Creating Configurations"); (4, 6, "Setting Up Control Plane");
   (5, 6, "Setting Up Worker Nodes"); (6, 6, "Setting Up Networking");
   (6, 6, "Validating Cluster")].

(** The files sent to remote hosts: host and remote path. *)
Definition uploads (t : list Event) : list (string * string) :=
  flat_map (fun e => match e with
                     | EvCopyFile _ host _ remotePath _ => [(host, remotePath)]
                     | EvCopyContent _ host _ remotePath _ => [(host, remotePath)]
                     | _ => []
                     end) t.

(** The directories removed locally. *)
Definition removals (t : list Event) : list string :=
  flat_map (fun e => match e with
                     | EvRemoveAll path _ => [path]
                     | _ => []
                     end) t.

(** The host a call of the transport goes to, and the context it carries. *)
Definition transportHost (e : Event) : option string :=
  match e with
  | EvExec _ host _ _ _ | EvCopyFile _ host _ _ _ | EvCopyContent _ host _ _ _ =>
      Some host
  | _ => None
  end.

Definition transportCtx (e : Event) : option Ctx :=
  match e with
  | EvExec ctx _ _ _ _ | EvCopyFile ctx _ _ _ _ | EvCopyContent ctx _ _ _ _ =>
      Some ctx
  | _ => None
  end.

(** The event of a call that returned an error. *)
Definition failed (e : Event) : bool :=
  match e with
  | EvExec _ _ _ _ (Some _) | EvCopyFile _ _ _ _ (Some _)
  | EvCopyContent _ _ _ _ (Some _) | EvGenerateCA _ _ (Some _)
  | EvGenerateClientCert _ _ _ (Some _)
  | EvGenerateServerCert _ _ _ _ (Some _) | EvMkdirAll _ _ (Some _)
  | EvWriteFile _ _ _ (Some _) | EvRemoveAll _ (Some _)
  | EvReadFile _ (Some _) | EvRandRead _ _ (Some _) | EvDial _ _ _ _ (Some _)
  | EvNewSession _ (Some _) | EvStdinPipe _ (Some _)
  | EvRun _ _ _ _ _ _ (Some _) => true
  | _ => false
  end.

(** A run that stops at its first failed call: no call fails in a run that
    returns [nil]; a run that returns an error ends with the one call that
    failed; and the run does return. *)
Definition stopsAtFirstFailure {W A} (run : Res A * Sys W * list Event) : Prop :=
  match result run with
  | Ok _ => forallb (fun e => negb (failed e)) (trace run) = true
  | Err _ =>
      exists before e,
        trace run = (before ++ [e])%list /\ failed e = true
        /\ forallb (fun e => negb (failed e)) before = true
  | OutOfFuel => False
  end.

(** The connections dialled: network, address, user, time-out. *)
Definition dials (t : list Event) : list (string * string * string * Z) :=
  flat_map (fun e => match e with
                     | EvDial network addr user timeout _ =>
                         [(network, addr, user, timeout)]
                     | _ => []
                     end) t.

(** The address [createSSHClient] dials for [host]. *)
Definition dialAddr (host : string) : string :=
  if Contains host ":" then host else host ++ ":22".

(** The sessions opened without error, the sessions closed, and the number
    of times the connection is closed. *)
Definition openedSessions (t : list Event) : list nat :=
  flat_map (fun e => match e with
                     | EvNewSession id None => [id]
                     | _ => []
                     end) t.

Definition closedSessions (t : list Event) : list nat :=
  flat_map (fun e => match e with
                     | EvSessionClose id => [id]
                     | _ => []
                     end) t.

Definition clientCloses (t : list Event) : nat :=
  length (flat_map (fun e => match e with
                             | EvClientClose => [tt]
                             | _ => []
                             end) t).

Definition dialled (t : list Event) : bool :=
  existsb (fun e => match e with
                    | EvDial _ _ _ _ None => true
                    | _ => false
                    end) t.

(** The commands run in sessions: command, standard input, error. *)
Definition sessionRuns (t : list Event)
  : list (string * option string * error) :=
  flat_map (fun e => match e with
                     | EvRun _ cmd stdin _ _ _ err => [(cmd, stdin, err)]
                     | _ => []
                     end) t.

(** The names under which [generateCertificates] asks for key pairs. *)
Definition issuedNames (t : list Event) : list string :=
  flat_map (fun e => match e with
                     | EvGenerateClientCert _ name _ _ => [name]
                     | EvGenerateServerCert _ name _ _ _ => [name]
                     | _ => []
                     end) t.

Definition reservedNames : list string :=
  ["admin"; "kube-controller-manager"; "kube-proxy"; "kube-scheduler";
   "service-account"; "kubernetes"].

(** A call of the transport, if [e] is one, goes to [ip]. *)
Definition targets (ip : string) (e : Event) : Prop :=
  match transportHost e with
  | Some host => host = ip
  | None => True
  end.

(** A call of the transport, if [e] is one, carries [ctx]; the probe of the
    prerequisites carries [context.Background()]. *)
Definition carries (ctx : Ctx) (e : Event) : Prop :=
  match e with
  | EvExec c _ cmd _ _ => c = ctx \/ (c = Background /\ cmd = "echo 'SSH test'")
  | EvCopyFile c _ _ _ _ | EvCopyContent c _ _ _ _ => c = ctx
  | _ => True
  end.

Definition notProgress (e : Event) : Prop :=
  match e with
  | EvProgress _ _ _ => False
  | _ => True
  end.

Definition notDial (e : Event) : Prop :=
  match e with
  | EvDial _ _ _ _ _ => False
  | _ => True
  end.

(** The three queries of [GetClusterStatus] and of [validateCluster]. *)
Definition statusCommands (c : ClusterConfig) : list (string * string) :=
  [(IPAddress (Controller c),
    "kubectl get nodes --kubeconfig /var/lib/kubernetes/admin.kubeconfig");
   (IPAddress (Controller c),
    "kubectl get pods -n kube-system --kubeconfig /var/lib/kubernetes/admin.kubeconfig");
   (IPAddress (Controller c),
    "kubectl get deployment test-deployment --kubeconfig /var/lib/kubernetes/admin.kubeconfig")].

(** Files under [/var/lib/kubernetes] that the units and commands of the
    control plane name. *)
Definition namedOnController : list string :=
  ["/var/lib/kubernetes/ca.pem"; "/var/lib/kubernetes/kubernetes.pem";
   "/var/lib/kubernetes/kubernetes-key.pem";
   "/var/lib/kubernetes/admin.kubeconfig"].

Definition sendsNoneOf (paths : list string) (e : Event) : Prop :=
  match e with
  | EvCopyFile _ _ _ remotePath _ | EvCopyContent _ _ _ remotePath _ =>
      ~ In remotePath paths
  | _ => True
  end.

(** A trace that leaks nothing: the sessions opened are closed, the last
    opened first; the connection is closed once if it was established, and
    then as the last thing that happens; and never otherwise. *)
Definition released (t : list Event) : Prop :=
  closedSessions t = rev (openedSessions t)
  /\ clientCloses t = (if dialled t then 1 else 0)%nat
  /\ (dialled t = true -> last t (EvInfo "") = EvClientClose).

(** The commands of an upload of [content] to [remotePath], against its
    result: [sudo tee] fed with the content, then [sudo chmod 644] in a
    session of its own; the second is run only if the first returned
    without error (and not even then if its session cannot be opened), and
    the upload succeeds only if both did. *)
Definition uploadRuns (content remotePath : string) (r : Res unit)
    (runs : list (string * option string * error)) : Prop :=
  let tee := "sudo tee " ++ remotePath ++ " > /dev/null" in
  let chmod := "sudo chmod 644 " ++ remotePath in
  match r with
  | Ok _ => runs = [(tee, Some content, None); (chmod, None, None)]
  | Err _ =>
      runs = []
      \/ (exists err, runs = [(tee, Some content, err)])
      \/ (exists e, runs = [(tee, Some content, None); (chmod, None, Some e)])
  | OutOfFuel => False
  end.

(** The phases of [SetupCluster], each with the prefix its error gets. *)
Definition setupStages : list ((Z * Z * string) * string) :=
  [((1, 6, "Checking Prerequisites"), "prerequisites check failed: ");
   ((2, 6, "Generating Certificates"), "failed to generate certificates: ");
   ((3, 6, "Creating Configurations"), "failed to create configurations: ");
   ((4, 6, "Setting Up Control Plane"), "failed to setup control plane: ");
   ((5, 6, "Setting Up Worker Nodes"), "failed to setup worker nodes: ");
   ((6, 6, "Setting Up Networking"), "failed to setup networking: ");
   ((6, 6, "Validating Cluster"), "failed to validate cluster: ")].

(** A run that returned an error stopped in the [k]-th stage: the stages up
    to it were announced and the message carries its prefix. *)
Definition failsInStage {W} (stages : list ((Z * Z * string) * string))
    (run : Res unit * Sys W * list Event) : Prop :=
  match result run with
  | Err msg =>
      exists k stage e,
        nth_error stages k = Some stage
        /\ progress (trace run) = map fst (firstn (S k) stages)
        /\ msg = Errorf (snd stage) e
  | _ => True
  end.

(** [range] over a map visits the entries of the map, each of them. *)
Definition rangesOverEntries {W} (os : OS W) : Prop :=
  forall m x, In x (mapRange os m) <-> In x m.

(* ===================================================================== *)
(** ** Notions used in the proofs *)

(** Every event of every run of [m] satisfies [P]. *)
Definition always {W A} (P : Event -> Prop) (m : M W A) : Prop :=
  forall s, Forall P (trace (m s)).

(** A successful run of [m] contains an event satisfying [P]. *)
Definition gates {W A} (P : Event -> Prop) (m : M W A) : Prop :=
  forall s a, result (m s) = Ok a -> Exists P (trace (m s)).

(** No run of [m] stops for lack of fuel. *)
Definition finishes {W A} (m : M W A) : Prop :=
  forall s, result (m s) <> OutOfFuel.

(** The body of the loop of [ValidateK8sPrerequisites]. *)
Definition sshProbe {W} (cm : ClusterManager W) (node : Node) : M W unit :=
  wrap ("SSH connection to " ++ Name node ++ " failed: ")
    (sshExecuteCommand (sshClient cm) Background (IPAddress node)
       "echo 'SSH test'") ;;
  loggerInfo ("SSH connection verified: " ++ Name node).

(** Events that touch neither the local file system nor the PKI. *)
Definition remoteOnly (e : Event) : Prop :=
  match e with
  | EvExec _ _ _ _ _ | EvInfo _ => True
  | _ => False
  end.

(** Which of the seven cleanup commands end in [|| true]. *)
Definition guardedCleanup (cmd : string) : bool :=
  HasPrefix cmd "sudo systemctl stop " || HasPrefix cmd "sudo systemctl disable ".



(* ===================================================================== *)
(** ** Reasoning about runs *)

Section Runs.
Context {W : Type}.
Implicit Types (s : Sys W) (t : list Event).

Lemma bind_inv {A B} (m : M W A) (f : A -> M W B) s b s' t :
  bind m f s = (Ok b, s', t) ->
  exists a s1 t1 t2,
    m s = (Ok a, s1, t1) /\ f a s1 = (Ok b, s', t2) /\ t = (t1 ++ t2)%list.
Proof.
  unfold bind. destruct (m s) as [[[a|e|] s1] t1]; try discriminate.
  destruct (f a s1) as [[r s2] t2] eqn:E. intros [= -> -> <-]. eauto 10.
Qed.

Lemma wrap_inv {A} prefix (m : M W A) s a s' t :
  wrap prefix m s = (Ok a, s', t) -> m s = (Ok a, s', t).
Proof.
  unfold wrap. destruct (m s) as [[[x|e|] s1] t1]; congruence.
Qed.

Lemma bind_trace {A B} (m : M W A) (f : A -> M W B) s :
  trace (bind m f s) =
  (trace (m s) ++ match result (m s) with
                  | Ok a => trace (f a (final (m s)))
                  | _ => []
                  end)%list.
Proof.
  unfold bind, trace, result, final.
  destruct (m s) as [[[a|e|] s1] t1]; cbn; try (now rewrite app_nil_r).
  now destruct (f a s1) as [[r s2] t2].
Qed.

Lemma wrap_trace {A} prefix (m : M W A) s :
  trace (wrap prefix m s) = trace (m s).
Proof.
  unfold wrap, trace. now destruct (m s) as [[[a|e|] s1] t1].
Qed.

Lemma wrap_result_ok {A} prefix (m : M W A) s a :
  result (wrap prefix m s) = Ok a <-> result (m s) = Ok a.
Proof.
  unfold wrap, result. destruct (m s) as [[[x|e|] s1] t1]; cbn;
    split; congruence.
Qed.

Lemma bind_ok_eq {A B} (m : M W A) (f : A -> M W B) s a s1 t1 :
  m s = (Ok a, s1, t1) ->
  bind m f s
  = (result (f a s1), final (f a s1), (t1 ++ trace (f a s1))%list).
Proof.
  intros H. unfold bind. rewrite H. now destruct (f a s1) as [[r s2] t2].
Qed.

Lemma bind_err_eq {A B} (m : M W A) (f : A -> M W B) s e s1 t1 :
  m s = (Err e, s1, t1) -> bind m f s = (Err e, s1, t1).
Proof. intros H. unfold bind. now rewrite H. Qed.

Lemma wrap_err_eq {A} prefix (m : M W A) s e s1 t1 :
  m s = (Err e, s1, t1) -> wrap prefix m s = (Err (Errorf prefix e), s1, t1).
Proof. intros H. unfold wrap. now rewrite H. Qed.

Lemma emit_bind_eq {B} e (f : unit -> M W B) s :
  bind (emit e) f s = (result (f tt s), final (f tt s), e :: trace (f tt s)).
Proof. now rewrite (bind_ok_eq (emit e) f s tt s [e]). Qed.

Lemma always_ret {A} P (a : A) : always (W:=W) P (ret a).
Proof. intros s. constructor. Qed.

Lemma always_fail {A} P e : always P (@fail W A e).
Proof. intros s. constructor. Qed.

Lemma always_emit P e : P e -> always (W:=W) P (emit e).
Proof. intros H s. cbn. auto. Qed.

Lemma always_bind {A B} P (m : M W A) (f : A -> M W B) :
  always P m -> (forall a, always P (f a)) -> always P (bind m f).
Proof.
  intros Hm Hf s. rewrite bind_trace. apply Forall_app. split; [apply Hm|].
  destruct (result (m s)); auto. apply Hf.
Qed.

Lemma always_wrap {A} P prefix (m : M W A) :
  always P m -> always P (wrap prefix m).
Proof. intros Hm s. rewrite wrap_trace. apply Hm. Qed.

Lemma always_forM {A} P (xs : list A) (f : A -> M W unit) :
  (forall x, In x xs -> always P (f x)) -> always P (forM_ xs f).
Proof.
  induction xs as [|x xs IH]; intros H; cbn [forM_].
  - apply always_ret.
  - apply always_bind; [apply H; now left|].
    intros _. apply IH. intros y Hy. apply H. now right.
Qed.

Lemma always_exec P (c : SSHClient W) ctx host cmd :
  (forall out err, P (EvExec ctx host cmd out err)) ->
  always P (sshExecuteCommand c ctx host cmd).
Proof.
  intros H s. unfold sshExecuteCommand, trace.
  destruct (ExecuteCommand c ctx host cmd (world s)) as [[[out err] dt] w].
  cbn. auto.
Qed.

Lemma always_copyFile P (c : SSHClient W) ctx host l r :
  (forall err, P (EvCopyFile ctx host l r err)) ->
  always P (sshCopyFile c ctx host l r).
Proof.
  intros H s. unfold sshCopyFile, trace.
  destruct (CopyFile c ctx host l r (world s)) as [[err dt] w]. cbn. auto.
Qed.

Lemma always_copyContent P (c : SSHClient W) ctx host l r :
  (forall err, P (EvCopyContent ctx host l r err)) ->
  always P (sshCopyContent c ctx host l r).
Proof.
  intros H s. unfold sshCopyContent, trace.
  destruct (CopyContent c ctx host l r (world s)) as [[err dt] w]. cbn. auto.
Qed.

Lemma always_removeAll P (o : OS W) path :
  (forall err, P (EvRemoveAll path err)) -> always P (osRemoveAll o path).
Proof.
  intros H s. unfold osRemoveAll, trace.
  destruct (RemoveAll o path (world s)) as [err w]. cbn. auto.
Qed.

(** A successful loop, read through a projection of the trace that
    distributes over concatenation. *)
Lemma forM_project {A B} (proj : list Event -> list B) (h : A -> list B)
    (xs : list A) (f : A -> M W unit) :
  proj [] = [] ->
  (forall t1 t2, proj (t1 ++ t2)%list = (proj t1 ++ proj t2)%list) ->
  (forall x s s' t, In x xs -> f x s = (Ok tt, s', t) -> proj t = h x) ->
  forall s s' t, forM_ xs f s = (Ok tt, s', t) -> proj t = flat_map h xs.
Proof.
  intros Hnil Happ. induction xs as [|x xs IH]; intros Hf s s' t; cbn [forM_].
  - unfold ret. now intros [= <- <-].
  - intros H. apply bind_inv in H as ([] & s1 & t1 & t2 & H1 & H2 & ->).
    rewrite Happ. cbn [flat_map]. f_equal.
    + eapply Hf; [now left | eassumption].
    + eapply IH; [|eassumption]. intros y u u' v Hy. apply Hf. now right.
Qed.
End Runs.

Lemma execCalls_app t1 t2 :
  execCalls (t1 ++ t2) = (execCalls t1 ++ execCalls t2)%list.
Proof. apply flat_map_app. Qed.

Lemma pkiOps_app t1 t2 : pkiOps (t1 ++ t2) = (pkiOps t1 ++ pkiOps t2)%list.
Proof. apply flat_map_app. Qed.


Lemma phases_app t1 t2 : phases (t1 ++ t2) = (phases t1 ++ phases t2)%list.
Proof. apply flat_map_app. Qed.

(** What a successful call of each interface method leaves in the trace. *)
Section CallsInv.
Context {W : Type}.
Implicit Types (s : Sys W) (t : list Event).

Lemma emit_inv e s (a : unit) s' t :
  emit e s = (Ok a, s', t) -> s' = s /\ t = [e].
Proof. unfold emit. now intros [= _ <- <-]. Qed.

Lemma certGenerateCA_inv (c : CertificateManager W) wd cc s a s' t :
  certGenerateCA c wd cc s = (Ok a, s', t) -> t = [EvGenerateCA wd cc None].
Proof.
  unfold certGenerateCA. destruct (GenerateCA c wd cc (world s)) as [[e|] w];
    cbn; now intros [= _ _ <-].
Qed.

Lemma certGenerateClientCert_inv (c : CertificateManager W) wd n cc s a s' t :
  certGenerateClientCert c wd n cc s = (Ok a, s', t) ->
  t = [EvGenerateClientCert wd n cc None].
Proof.
  unfold certGenerateClientCert.
  destruct (GenerateClientCert c wd n cc (world s)) as [[e|] w];
    cbn; now intros [= _ _ <-].
Qed.

Lemma certGenerateServerCert_inv (c : CertificateManager W) wd n hs cc
    s a s' t :
  certGenerateServerCert c wd n hs cc s = (Ok a, s', t) ->
  t = [EvGenerateServerCert wd n hs cc None].
Proof.
  unfold certGenerateServerCert.
  destruct (GenerateServerCert c wd n hs cc (world s)) as [[e|] w];
    cbn; now intros [= _ _ <-].
Qed.

Lemma osWriteFile_inv (o : OS W) path content perm s a s' t :
  osWriteFile o path content perm s = (Ok a, s', t) ->
  t = [EvWriteFile path content perm None].
Proof.
  unfold osWriteFile.
  destruct (WriteFile o path content perm (world s)) as [[e|] w];
    cbn; now intros [= _ _ <-].
Qed.

Lemma randRead_inv (o : OS W) buf s key s' t :
  randRead o buf s = (Ok key, s', t) ->
  exists got, key = fillBuffer buf got /\ t = [EvRandRead (length buf) got None].
Proof.
  unfold randRead.
  destruct (RandRead o (length buf) (world s)) as [[got [e|]] w];
    cbn; [discriminate|]. intros [= <- _ <-]. eauto.
Qed.

Lemma sshExecuteCommand_inv (c : SSHClient W) ctx host cmd s out s' t :
  sshExecuteCommand c ctx host cmd s = (Ok out, s', t) ->
  t = [EvExec ctx host cmd out None].
Proof.
  unfold sshExecuteCommand.
  destruct (ExecuteCommand c ctx host cmd (world s)) as [[[o [e|]] dt] w];
    cbn; [discriminate|]. now intros [= <- _ <-].
Qed.

Lemma sshCopyContent_inv (c : SSHClient W) ctx host content path s a s' t :
  sshCopyContent c ctx host content path s = (Ok a, s', t) ->
  t = [EvCopyContent ctx host content path None].
Proof.
  unfold sshCopyContent.
  destruct (CopyContent c ctx host content path (world s)) as [[[e|] dt] w];
    cbn; now intros [= _ _ <-].
Qed.
End CallsInv.

Ltac head_of t :=
  lazymatch t with
  | ?f _ => head_of f
  | _ => t
  end.

(** Splits a successful run of a sequence into the runs of its steps. *)
Ltac step_inv H :=
  let a := fresh "a" in
  let s1 := fresh "s" in
  let t1 := fresh "t" in
  let t2 := fresh "t" in
  let H1 := fresh "Hfst" in
  apply bind_inv in H as (a & s1 & t1 & t2 & H1 & H & ->);
  match type of a with
  | unit => destruct a
  | _ => idtac
  end.

Ltac call_inv H :=
  first
    [ apply wrap_inv in H
    | apply emit_inv in H as [_ ->]
    | apply certGenerateCA_inv in H as ->
    | apply certGenerateClientCert_inv in H as ->
    | apply certGenerateServerCert_inv in H as ->
    | apply osWriteFile_inv in H as ->
    | apply sshExecuteCommand_inv in H as ->
    | apply sshCopyContent_inv in H as -> ].

(* ===================================================================== *)
(** ** The PKI phase *)

(** C1.  When [generateCertificates] succeeds, the certificate manager was
    asked, in this order, for the CA, for client certificates named admin,
    kube-controller-manager, kube-proxy, kube-scheduler, service-account and
    then one per configured worker in the order of the configuration, and
    last for the server certificate [kubernetes] whose host list is
    127.0.0.1, 10.32.0.1, the controller's IP address, the controller's
    hostname, kubernetes, kubernetes.default, kubernetes.default.svc,
    kubernetes.default.svc.cluster, kubernetes.default.svc.cluster.local;
    and for nothing else. *)
Theorem generateCertificates_issues {W} (cm : ClusterManager W) ctx workDir s
    (Hok : result (generateCertificates cm ctx workDir s) = Ok tt) :
  pkiOps (trace (generateCertificates cm ctx workDir s)) =
  ([IssueCA; IssueClient "admin"; IssueClient "kube-controller-manager";
    IssueClient "kube-proxy"; IssueClient "kube-scheduler";
    IssueClient "service-account"]
   ++ map (fun worker => IssueClient (Name worker)) (Workers (config cm))
   ++ [IssueServer "kubernetes"
         ["127.0.0.1"; "10.32.0.1"; IPAddress (Controller (config cm));
          Hostname (Controller (config cm)); "kubernetes";
          "kubernetes.default"; "kubernetes.default.svc";
          "kubernetes.default.svc.cluster";
          "kubernetes.default.svc.cluster.local"]])%list.
Proof.
  destruct (generateCertificates cm ctx workDir s) as [[r s'] t] eqn:E.
  cbn in Hok. subst r. cbn [trace snd].
  unfold generateCertificates, loggerInfo in E.
  step_inv E. call_inv Hfst.
  step_inv E. call_inv Hfst. call_inv Hfst.
  step_inv E. step_inv E. call_inv Hfst0. call_inv Hfst0. call_inv E.
  rewrite !pkiOps_app. cbn [pkiOps flat_map app].
  eapply (forM_project pkiOps (fun n => [IssueClient n])) in Hfst;
    [| reflexivity | apply pkiOps_app |].
  - rewrite Hfst. unfold clientCerts. rewrite flat_map_app.
    assert (Hw : flat_map (fun n => [IssueClient n])
                   (map Name (Workers (config cm)))
                 = map (fun worker => IssueClient (Name worker))
                     (Workers (config cm))).
    { induction (Workers (config cm)) as [|w ws IH]; cbn; [reflexivity|].
      now rewrite IH. }
    rewrite Hw. reflexivity.
  - intros x u u' v _ H. call_inv H. call_inv H. reflexivity.
Qed.

(* ===================================================================== *)
(** ** The prerequisites phase *)

Section Prereq.
Context {W : Type}.
Variable os : OS W.
Variable cm : ClusterManager W.

Lemma sshProbe_cases node s :
  (exists s' t, sshProbe cm node s = (Ok tt, s', t) /\ Forall remoteOnly t
      /\ exists out dt w,
           ExecuteCommand (sshClient cm) Background (IPAddress node)
             "echo 'SSH test'" (world s) = ((out, None), dt, w))
  \/ (exists e s' t, sshProbe cm node s = (Err e, s', t) /\ Forall remoteOnly t).
Proof.
  unfold sshProbe, bind, wrap, sshExecuteCommand, loggerInfo, emit.
  destruct (ExecuteCommand (sshClient cm) Background (IPAddress node)
              "echo 'SSH test'" (world s)) as [[[out [e|]] dt] w].
  - right. do 3 eexists. split; [reflexivity|]. repeat constructor.
  - left. do 2 eexists. split; [reflexivity|]. split; [repeat constructor|].
    eauto.
Qed.

Lemma sshProbes_fail node nodes s :
  In node nodes ->
  (forall ctx w,
      snd (fst (fst (ExecuteCommand (sshClient cm) ctx (IPAddress node)
                       "echo 'SSH test'" w))) <> None) ->
  exists e s' t,
    forM_ nodes (sshProbe cm) s = (Err e, s', t) /\ Forall remoteOnly t.
Proof.
  intros Hin Hfail. revert s.
  induction nodes as [|x xs IH]; intros s; [contradiction|].
  cbn [forM_]. unfold bind.
  destruct (sshProbe_cases x s)
    as [(s1 & t1 & -> & Ht1 & out & dt & w & Hexec)
       | (e & s1 & t1 & -> & Ht1)].
  - destruct Hin as [-> | Hin].
    + exfalso. apply (Hfail Background (world s)). now rewrite Hexec.
    + destruct (IH Hin s1) as (e & s2 & t2 & -> & Ht2).
      do 3 eexists. split; [reflexivity|]. now apply Forall_app.
  - eauto.
Qed.

Lemma ValidateK8sPrerequisites_fails node s :
  In node (Controller (config cm) :: Workers (config cm)) ->
  (forall ctx w,
      snd (fst (fst (ExecuteCommand (sshClient cm) ctx (IPAddress node)
                       "echo 'SSH test'" w))) <> None) ->
  exists e s' t,
    ValidateK8sPrerequisites os cm s = (Err e, s', t) /\ Forall remoteOnly t.
Proof.
  intros Hin Hfail. unfold ValidateK8sPrerequisites, loggerInfo.
  unfold bind at 1. cbn [emit].
  change (forM_ ([Controller (config cm)] ++ Workers (config cm))%list _)
    with (forM_ (Controller (config cm) :: Workers (config cm)) (sshProbe cm)).
  unfold bind at 1.
  destruct (sshProbes_fail node _ s Hin Hfail) as (e & s' & t & -> & Ht).
  do 3 eexists. split; [reflexivity|]. constructor; [exact I | exact Ht].
Qed.
End Prereq.

Lemma remoteOnly_quiet (t : list Event) :
  Forall remoteOnly t ->
  pkiOps t = [] /\ writes t = [] /\ forallb (fun e => negb (touchesLocalFiles e)) t = true.
Proof.
  induction 1 as [|e t He _ (IH1 & IH2 & IH3)]; [now cbn|].
  destruct e; try contradiction; cbn; auto.
Qed.

(** C6.  If the transport answers the probe [echo 'SSH test'] with an error
    on some node of the fleet (the controller or a worker), [SetupCluster]
    returns an error, wrapped as a failure of the prerequisites check; the
    only phase announced is the first one; the certificate manager is never
    called and no local file or directory is created or changed. *)
Theorem SetupCluster_unreachable {W} (os : OS W) lib rnd (cm : ClusterManager W)
    fuel ctx s node
    (Hnode : In node (Controller (config cm) :: Workers (config cm)))
    (Hfail : forall ctx' w,
        snd (fst (fst (ExecuteCommand (sshClient cm) ctx' (IPAddress node)
                         "echo 'SSH test'" w))) <> None) :
  let run := SetupCluster os lib rnd cm fuel ctx s in
  (exists e, result run = Err (Errorf "prerequisites check failed: " e))
  /\ phases (trace run) = ["Checking Prerequisites"]
  /\ pkiOps (trace run) = []
  /\ writes (trace run) = []
  /\ forallb (fun e => negb (touchesLocalFiles e)) (trace run) = true.
Proof.
  intros run. subst run.
  destruct (ValidateK8sPrerequisites_fails os cm node s Hnode Hfail)
    as (e & s' & t & Hrun & Ht).
  unfold SetupCluster, ReportProgress. rewrite emit_bind_eq.
  rewrite (bind_err_eq _ _ _ _ _ _
             (wrap_err_eq "prerequisites check failed: " _ _ _ _ _ Hrun)).
  cbn [result final trace fst snd].
  destruct (remoteOnly_quiet t Ht) as (Hp & Hw & Hq).
  split; [eauto|]. cbn. repeat split; try assumption.
  clear -Ht. f_equal. induction Ht as [|x t Hx _ IH]; [reflexivity|].
  destruct x; try contradiction; cbn; auto.
Qed.

(* ===================================================================== *)
(** ** Teardown *)

Lemma always_execCalls {W A} (P : string * string -> Prop) (m : M W A) s :
  always (fun e => match e with
                   | EvExec _ host cmd _ _ => P (host, cmd)
                   | _ => True
                   end) m ->
  Forall P (execCalls (trace (m s))).
Proof.
  intros H. specialize (H s). induction H as [|e t He _ IH]; [constructor|].
  destruct e; cbn; auto.
Qed.

Lemma cleanupCommands_suffix cmd :
  In cmd cleanupCommands -> HasSuffix cmd "|| true" = guardedCleanup cmd.
Proof.
  unfold cleanupCommands. cbn [In].
  intros [<-|[<-|[<-|[<-|[<-|[<-|[<-|[]]]]]]]]; vm_compute; reflexivity.
Qed.

(** C5, as the code has it.  Every command [DestroyCluster] hands to the
    transport, on every node, is one of the seven cleanup commands, and such a
    command ends in [|| true] exactly when it is the [systemctl stop] or the
    [systemctl disable] command; the three [rm] commands, [daemon-reload] and
    [reset-failed] carry no suffix. *)
Theorem DestroyCluster_guards {W} (os : OS W) (cm : ClusterManager W) ctx s :
  Forall (fun call =>
            In (snd call) cleanupCommands
            /\ HasSuffix (snd call) "|| true" = guardedCleanup (snd call))
    (execCalls (trace (DestroyCluster os cm ctx s)))
  /\ filter (fun cmd => HasSuffix cmd "|| true") cleanupCommands
     = firstn 2 cleanupCommands
  /\ length cleanupCommands = 7%nat.
Proof.
  split; [|split; reflexivity].
  apply always_execCalls. unfold DestroyCluster, loggerInfo.
  apply always_bind; [now apply always_emit|]. intros _.
  apply always_bind.
  - apply always_forM. intros node _.
    apply always_bind; [now apply always_emit|]. intros _.
    apply always_forM. intros cmd Hcmd.
    apply always_bind; [|intros; apply always_ret].
    apply always_wrap, always_exec. intros out err. cbn [snd].
    split; [assumption | now apply cleanupCommands_suffix].
  - intros _. apply always_bind.
    + apply always_wrap, always_removeAll. now intros.
    + intros _. now apply always_emit.
Qed.

(** C5, as stated, fails on the test configuration: the teardown hands
    [sudo systemctl daemon-reload] to the controller, without the suffix. *)
Lemma DestroyCluster_unguarded_command :
  ~ (forall host cmd,
        In (host, cmd)
          (execCalls
             (trace (DestroyCluster (mockOS testConfig)
                       (testManager healthyMock testConfig) Background start0))) ->
        HasSuffix cmd "|| true" = true).
Proof.
  intros H.
  specialize (H "10.240.0.10" "sudo systemctl daemon-reload").
  assert (Hc : HasSuffix "sudo systemctl daemon-reload" "|| true" = true).
  { apply H. vm_compute. tauto. }
  vm_compute in Hc. discriminate Hc.
Qed.

(* ===================================================================== *)
(** ** Loading the configuration *)

Lemma isEmpty_false s : isEmpty s = false -> s <> "".
Proof. destruct s; [discriminate | discriminate]. Qed.

Lemma isEmpty_true s : isEmpty s = true -> s = "".
Proof. destruct s; [reflexivity | discriminate]. Qed.

Lemma incompleteWorker_none ws :
  incompleteWorker ws = None ->
  forall w, In w ws -> IPAddress w <> "" /\ Name w <> "" /\ PodCIDR w <> "".
Proof.
  induction ws as [|x ws IH]; cbn [incompleteWorker In]; [contradiction|].
  destruct (isEmpty (IPAddress x)) eqn:E1; [discriminate|].
  destruct (isEmpty (Name x)) eqn:E2; [discriminate|].
  destruct (isEmpty (PodCIDR x)) eqn:E3; [discriminate|]. cbn [orb].
  intros H w [<- | Hw]; [|now apply IH].
  auto using isEmpty_false.
Qed.

Lemma validateConfig_none c : validateConfig c = None -> checkedFields c.
Proof.
  unfold validateConfig, checkedFields.
  repeat match goal with
         | |- context [if isEmpty ?x then _ else _] =>
             let E := fresh "E" in
             destruct (isEmpty x) eqn:E;
             [discriminate | apply isEmpty_false in E]
         end.
  destruct (isEmpty (IPAddress (Controller c))) eqn:Ec1; [discriminate|].
  destruct (isEmpty (Name (Controller c))) eqn:Ec2; [discriminate|].
  cbn [orb].
  destruct (Workers c) as [|w ws] eqn:Ew; [discriminate|]. cbn [length Nat.eqb].
  destruct (incompleteWorker (w :: ws)) eqn:Ei; [discriminate|].
  destruct (isEmpty (Country (Certificates c))) eqn:Ec3; [discriminate|].
  cbn [orb].
  destruct (ValidityDays (Certificates c) <=? 0)%Z eqn:Ev; [discriminate|].
  intros _. apply isEmpty_false in Ec1, Ec2, Ec3. apply Z.leb_gt in Ev.
  repeat (split; [assumption|]).
  split; [discriminate|]. split; [now apply incompleteWorker_none|]. now split.
Qed.

(** C9, as the code has it.  When the file is read and unmarshalled without
    error: a configuration with an empty [cluster_name] is returned with the
    error [cluster_name is required]; and if [LoadClusterConfig] returns no
    error, the fields it checks hold: the twelve top-level strings, the
    controller's IP address and name, and the certificate country are
    non-empty, there is at least one worker, every worker has a non-empty IP
    address, name and pod CIDR, and the validity is positive.  (Nothing is
    said about the controller's address against the workers' or about the
    uniqueness of worker names: the loader does not compare nodes.) *)
Theorem LoadClusterConfig_checks {W} (os : OS W) configPath w data w1 c
    (Hread : ReadFile os configPath w = ((data, None), w1))
    (Hyaml : yamlUnmarshal os data = (c, None)) :
  (ClusterName c = "" ->
   fst (LoadClusterConfig os configPath w) = (c, Some "cluster_name is required"))
  /\ (snd (fst (LoadClusterConfig os configPath w)) = None ->
      fst (fst (LoadClusterConfig os configPath w)) = c /\ checkedFields c).
Proof.
  unfold LoadClusterConfig. rewrite Hread, Hyaml. split.
  - intros Hname. unfold validateConfig. rewrite Hname. reflexivity.
  - destruct (validateConfig c) as [e|] eqn:Ev; [discriminate|].
    intros _. split; [|now apply validateConfig_none].
    now destruct (MkdirAll os (WorkDir c) 493 w1) as [[e|] w2].
Qed.

(** C9, as stated, fails: the loader accepts a configuration whose two
    workers share one name and carry the controller's IP address. *)
Lemma LoadClusterConfig_accepts_clones :
  let loaded := LoadClusterConfig (mockOS cloneConfig) "cluster.yaml" [] in
  snd (fst loaded) = None
  /\ ~ controllerApart (fst (fst loaded))
  /\ ~ workerNamesUnique (fst (fst loaded)).
Proof.
  cbv zeta. split; [reflexivity|]. split.
  - intros Hapart.
    apply (Hapart (mkNode "node" "10.240.0.10" "node" "10.200.0.0/24")).
    + vm_compute. tauto.
    + reflexivity.
  - intros Hunique. unfold workerNamesUnique in Hunique. cbn in Hunique.
    apply NoDup_cons_iff in Hunique as [Hnot _]. apply Hnot. now left.
Qed.

(* ===================================================================== *)
(** ** Base64: decoding undoes encoding *)

Module Base64Facts.
Import Base64.

Lemma decodeChar_encodeChar (x : sextet) : decodeChar (encodeChar x) = Some x.
Proof.
  destruct x as [[[[[x5 x4] x3] x2] x1] x0].
  destruct x5, x4, x3, x2, x1, x0; vm_compute; reflexivity.
Qed.

Lemma encodeChar_not_pad (x : sextet) : Ascii.eqb (encodeChar x) pad = false.
Proof.
  destruct x as [[[[[x5 x4] x3] x2] x1] x0].
  destruct x5, x4, x3, x2, x1, x0; vm_compute; reflexivity.
Qed.

Lemma ofBits_bits (b : byte) : ofBits (bits b) = b.
Proof.
  unfold bits, ofBits.
  destruct (Byte.to_bits b) as (b0 & b1 & b2 & b3 & b4 & b5 & b6 & b7) eqn:E.
  rewrite <- E. apply Byte.of_bits_to_bits.
Qed.

Lemma list_ind3 {A} (P : list A -> Prop) :
  P [] -> (forall a, P [a]) -> (forall a b, P [a; b]) ->
  (forall a b c l, P l -> P (a :: b :: c :: l)) ->
  forall l, P l.
Proof.
  intros H0 H1 H2 H3. fix IH 1.
  intros [|a [|b [|c l]]].
  - exact H0.
  - apply H1.
  - apply H2.
  - apply H3, IH.
Qed.

Ltac expose_bits a :=
  let E := fresh "E" in
  pose proof (ofBits_bits a) as E;
  destruct (bits a) as [[[[[[[? ?] ?] ?] ?] ?] ?] ?].

Lemma DecodeString_EncodeToString (src : list byte) :
  DecodeString (EncodeToString src) = Some src.
Proof.
  induction src as [|a|a b|a b c l IH] using list_ind3.
  - reflexivity.
  - cbn [EncodeToString]. expose_bits a. cbn [DecodeString].
    rewrite !decodeChar_encodeChar. cbn -[ofBits]. now rewrite E.
  - cbn [EncodeToString]. expose_bits a. expose_bits b. cbn [DecodeString].
    rewrite !decodeChar_encodeChar, encodeChar_not_pad. cbn -[ofBits].
    now rewrite E, E0.
  - cbn [EncodeToString]. expose_bits a. expose_bits b. expose_bits c.
    cbn [DecodeString].
    rewrite !decodeChar_encodeChar, !encodeChar_not_pad, IH. cbn -[ofBits].
    now rewrite E, E0, E1.
Qed.

Lemma length_EncodeToString (src : list byte) :
  String.length (EncodeToString src) = (4 * ((length src + 2) / 3))%nat.
Proof.
  induction src as [|a|a b|a b c l IH] using list_ind3.
  - reflexivity.
  - cbn [EncodeToString]. now destruct (bits a) as [[[[[[[? ?] ?] ?] ?] ?] ?] ?].
  - cbn [EncodeToString]. destruct (bits a) as [[[[[[[? ?] ?] ?] ?] ?] ?] ?].
    now destruct (bits b) as [[[[[[[? ?] ?] ?] ?] ?] ?] ?].
  - cbn [EncodeToString]. destruct (bits a) as [[[[[[[? ?] ?] ?] ?] ?] ?] ?].
    destruct (bits b) as [[[[[[[? ?] ?] ?] ?] ?] ?] ?].
    destruct (bits c) as [[[[[[[? ?] ?] ?] ?] ?] ?] ?].
    cbn [String.length length]. rewrite IH.
    replace (S (S (S (length l))) + 2)%nat with (1 * 3 + (length l + 2))%nat
      by lia.
    rewrite Nat.div_add_l by lia. lia.
Qed.
End Base64Facts.

Lemma length_fillBuffer (buf got : list byte) :
  length (fillBuffer buf got) = length buf.
Proof.
  unfold fillBuffer. rewrite length_firstn, length_app, length_skipn. lia.
Qed.

(* ===================================================================== *)
(** ** The configuration phase *)

Lemma append_assoc (a b c : string) : (a ++ b) ++ c = a ++ (b ++ c).
Proof. induction a as [|x a IH]; cbn; [reflexivity | now rewrite IH]. Qed.

Lemma encryptionConfigText_document (encodedKey : string) :
  encryptionConfigText encodedKey
  = renderEncryptionConfig ["secrets"] [Aescbc [("key1", encodedKey)]; Identity].
Proof.
  unfold encryptionConfigText, renderEncryptionConfig, renderProvider, renderKey.
  cbn [map String.concat fst snd]. rewrite !append_assoc. reflexivity.
Qed.

Lemma generateEncryptionConfig_run {W} (os : OS W) lib workDir s s' t :
  generateEncryptionConfig os lib workDir s = (Ok tt, s', t) ->
  exists got,
    t = [EvRandRead 32 got None;
         EvWriteFile (filepathJoin lib workDir "encryption-config.yaml")
           (encryptionConfigText
              (Base64.EncodeToString (fillBuffer (makeBytes 32) got)))
           420 None].
Proof.
  intros E. unfold generateEncryptionConfig, writeFile in E.
  step_inv E. call_inv Hfst. apply randRead_inv in Hfst as (got & -> & ->).
  call_inv E. now exists got.
Qed.

(** C8.  When [generateEncryptionConfig] succeeds it has read the random
    source once, into a buffer of 32 bytes, and written one file: the
    encryption configuration for the resource [secrets] whose providers are,
    in this order, [aescbc] with the single key [key1] and [identity].  The
    secret of that key is the base64 text of the 32-byte buffer: it is 44
    characters long and decodes to those 32 bytes. *)
Theorem generateEncryptionConfig_renders {W} (os : OS W) lib workDir s
    (Hok : result (generateEncryptionConfig os lib workDir s) = Ok tt) :
  exists got key secret,
    trace (generateEncryptionConfig os lib workDir s)
    = [EvRandRead 32 got None;
       EvWriteFile (filepathJoin lib workDir "encryption-config.yaml")
         (renderEncryptionConfig ["secrets"]
            [Aescbc [("key1", secret)]; Identity])
         420 None]
    /\ key = fillBuffer (makeBytes 32) got
    /\ length key = 32%nat
    /\ secret = Base64.EncodeToString key
    /\ String.length secret = 44%nat
    /\ Base64.DecodeString secret = Some key.
Proof.
  destruct (generateEncryptionConfig os lib workDir s) as [[r s'] t] eqn:E.
  cbn in Hok. subst r. cbn [trace snd].
  apply generateEncryptionConfig_run in E as (got & ->).
  exists got, (fillBuffer (makeBytes 32) got),
    (Base64.EncodeToString (fillBuffer (makeBytes 32) got)).
  rewrite encryptionConfigText_document.
  assert (Hlen : length (fillBuffer (makeBytes 32) got) = 32%nat)
    by (rewrite length_fillBuffer; reflexivity).
  repeat split; try assumption.
  - rewrite Base64Facts.length_EncodeToString, Hlen. reflexivity.
  - apply Base64Facts.DecodeString_EncodeToString.
Qed.







(* ===================================================================== *)
(** ** The networking phase *)

Section Pairs.
Context {A : Type}.
Variable key : A -> string.







Variable dec : forall a b : A, {a = b} + {a <> b}.



End Pairs.








(* ===================================================================== *)
(** ** The health gate *)

Section Gate.
Context {W : Type}.
Variable lib : Lib.
Variable cm : ClusterManager W.
Implicit Types (s : Sys W).

Lemma pollTrace_healthy ctx host serviceName t :
  pollTrace ctx host serviceName true t ->
  Exists (isHealthyProbe host serviceName) t.
Proof.
  remember true as b eqn:Eb. induction 1 as [|out Hout|out err b t Hbad Ht IH].
  - discriminate.
  - left. cbn. auto.
  - right. right. auto.
Qed.

Lemma pollTrace_events (P : Event -> Prop) ctx host serviceName b t :
  (forall out err,
      P (EvExec ctx host ("sudo systemctl is-active " ++ serviceName) out err)) ->
  P (EvSleep (5 * Second)) ->
  P (EvInfo ("Service " ++ serviceName ++ " is healthy")) ->
  pollTrace ctx host serviceName b t -> Forall P t.
Proof.
  intros Hexec Hsleep Hinfo. induction 1; repeat constructor; auto.
Qed.
(** One turn of the loop of [waitForService]. *)
Lemma waitLoop_eq fuel ctx host serviceName timeout deadline s :
  waitLoop lib cm fuel ctx host serviceName timeout deadline s
  = if (clock s <? deadline)%Z then
      match fuel with
      | O => (OutOfFuel, s, [])
      | S fuel' =>
          let '((out, err), dt, w) :=
            ExecuteCommand (sshClient cm) ctx host
              ("sudo systemctl is-active " ++ serviceName) (world s) in
          let probe :=
            EvExec ctx host ("sudo systemctl is-active " ++ serviceName) out err in
          let healthy :=
            match err with
            | None => String.eqb (TrimSpace out) "active"
            | Some _ => false
            end in
          if healthy then
            (Ok tt, mkSys w (clock s + Z.of_N dt),
             [probe; EvInfo ("Service " ++ serviceName ++ " is healthy")])
          else
            let rest :=
              waitLoop lib cm fuel' ctx host serviceName timeout deadline
                (mkSys w (clock s + Z.of_N dt + 5 * Second)) in
            (result rest, final rest,
             probe :: EvSleep (5 * Second) :: trace rest)
      end
    else (Err (unhealthyError lib serviceName timeout), s, []).
Proof.
  destruct fuel as [|fuel'];
    (cbn [waitLoop]; unfold bind at 1; unfold Now at 1;
     destruct (clock s <? deadline)%Z; [|reflexivity]); [reflexivity|].
  unfold bind at 1, try at 1, sshExecuteCommand at 1, isActiveCmd.
  destruct (ExecuteCommand (sshClient cm) ctx host
              ("sudo systemctl is-active " ++ serviceName) (world s))
    as [[[out [e|]] dt] w]; cbn [world clock].
  - unfold bind, Sleep. cbn [world clock].
    now destruct (waitLoop lib cm fuel' ctx host serviceName timeout deadline _)
      as [[r s3] t3].
  - destruct (String.eqb (TrimSpace out) "active"); [reflexivity|].
    unfold bind, Sleep. cbn [world clock].
    now destruct (waitLoop lib cm fuel' ctx host serviceName timeout deadline _)
      as [[r s3] t3].
Qed.

(** What a run of the loop can be: healthy, timed out once the deadline is
    reached, or out of fuel, which needs a deadline more than five seconds
    per unit of fuel away. *)
Lemma waitLoop_outcome fuel ctx host serviceName timeout deadline s :
  let run := waitLoop lib cm fuel ctx host serviceName timeout deadline s in
  clock s <= clock (final run)
  /\ ((result run = Ok tt /\ pollTrace ctx host serviceName true (trace run))
      \/ (result run = Err (unhealthyError lib serviceName timeout)
          /\ pollTrace ctx host serviceName false (trace run)
          /\ deadline <= clock (final run))
      \/ (result run = OutOfFuel
          /\ pollTrace ctx host serviceName false (trace run)
          /\ 5 * Second * Z.of_nat fuel < deadline - clock s)).
Proof.
  cbv zeta. revert s. induction fuel as [|fuel IH]; intros s;
    rewrite waitLoop_eq; destruct (Z.ltb_spec (clock s) deadline) as [Hlt|Hge];
    cbn [result final trace fst snd].
  - split; [lia|]. right. right. repeat split; [constructor | lia].
  - split; [lia|]. right. left. repeat split; [constructor | lia].
  - destruct (ExecuteCommand (sshClient cm) ctx host
                ("sudo systemctl is-active " ++ serviceName) (world s))
      as [[[out err] dt] w].
    set (healthy := match err with
                    | None => String.eqb (TrimSpace out) "active"
                    | Some _ => false
                    end).
    destruct healthy eqn:Eh; subst healthy; cbn [result final trace fst snd clock].
    + split; [lia|]. left. split; [reflexivity|].
      destruct err; [discriminate|]. apply String.eqb_eq in Eh.
      now constructor.
    + specialize (IH (mkSys w (clock s + Z.of_N dt + 5 * Second))).
      cbn [clock] in IH. destruct IH as [Hmono IH].
      assert (Hsec : 0 < Second) by reflexivity.
      split; [lia|].
      assert (Hbad : err <> None \/ TrimSpace out <> "active").
      { destruct err; [left; discriminate|]. right.
        now apply String.eqb_neq. }
      destruct IH as [[Hr Hp] | [[Hr [Hp Hd]] | [Hr [Hp Hf]]]].
      * left. split; [exact Hr | now constructor].
      * right. left. repeat split; [exact Hr | now constructor | exact Hd].
      * right. right. repeat split; [exact Hr | now constructor | lia].
  - split; [lia|]. right. left. repeat split; [constructor | lia].
Qed.

Lemma waitForService_eq fuel ctx host serviceName timeout s :
  waitForService lib cm fuel ctx host serviceName timeout s
  = waitLoop lib cm fuel ctx host serviceName timeout (clock s + timeout) s.
Proof.
  unfold waitForService, bind, Now.
  now destruct (waitLoop lib cm fuel ctx host serviceName timeout _ s)
    as [[r s1] t1].
Qed.

Lemma waitForService_outcome fuel ctx host serviceName timeout s :
  timeout <= 5 * Second * Z.of_nat fuel ->
  let run := waitForService lib cm fuel ctx host serviceName timeout s in
  (result run = Ok tt /\ pollTrace ctx host serviceName true (trace run))
  \/ (result run = Err (unhealthyError lib serviceName timeout)
      /\ pollTrace ctx host serviceName false (trace run)
      /\ clock s + timeout <= clock (final run)).
Proof.
  intros Hfuel. cbv zeta. rewrite waitForService_eq.
  destruct (waitLoop_outcome fuel ctx host serviceName timeout
              (clock s + timeout) s) as [_ [H | [H | [_ [_ H]]]]]; auto. lia.
Qed.

Lemma waitForService_always (P : Event -> Prop) fuel ctx host serviceName
    timeout :
  (forall out err,
      P (EvExec ctx host ("sudo systemctl is-active " ++ serviceName) out err)) ->
  P (EvSleep (5 * Second)) ->
  P (EvInfo ("Service " ++ serviceName ++ " is healthy")) ->
  always P (waitForService lib cm fuel ctx host serviceName timeout).
Proof.
  intros Hexec Hsleep Hinfo s. rewrite waitForService_eq.
  destruct (waitLoop_outcome fuel ctx host serviceName timeout
              (clock s + timeout) s) as [_ [[_ H] | [[_ [H _]] | [_ [H _]]]]];
    eapply pollTrace_events; eauto.
Qed.

Lemma waitForService_gate fuel ctx host serviceName timeout s :
  result (waitForService lib cm fuel ctx host serviceName timeout s) = Ok tt ->
  Exists (isHealthyProbe host serviceName)
    (trace (waitForService lib cm fuel ctx host serviceName timeout s)).
Proof.
  rewrite waitForService_eq. intros Hok.
  destruct (waitLoop_outcome fuel ctx host serviceName timeout
              (clock s + timeout) s) as [_ [[_ H] | [[E _] | [E _]]]];
    [now apply (pollTrace_healthy ctx host) | congruence | congruence].
Qed.

End Gate.


(** C10.  With fuel for its deadline, [waitForService] returns [nil] or the
    time-out error of the unit, and the latter only once the clock has
    reached the deadline set at its start: no error of the transport is
    returned.  A probe that the transport fails, made before the deadline, is
    followed by a sleep of five seconds and by the rest of the loop, exactly as
    an unhealthy answer is. *)
Theorem waitForService_swallows_transport_errors {W} lib (cm : ClusterManager W)
    fuel ctx host serviceName timeout s
    (Hfuel : timeout <= 5 * Second * Z.of_nat fuel) :
  let run := waitForService lib cm fuel ctx host serviceName timeout s in
  (result run = Ok tt
   \/ (result run = Err (unhealthyError lib serviceName timeout)
       /\ clock s + timeout <= clock (final run)))
  /\ forall fuel' deadline s1 out e dt w,
      clock s1 < deadline ->
      ExecuteCommand (sshClient cm) ctx host
        ("sudo systemctl is-active " ++ serviceName) (world s1)
      = ((out, Some e), dt, w) ->
      let rest :=
        waitLoop lib cm fuel' ctx host serviceName timeout deadline
          (mkSys w (clock s1 + Z.of_N dt + 5 * Second)) in
      waitLoop lib cm (S fuel') ctx host serviceName timeout deadline s1
      = (result rest, final rest,
         EvExec ctx host ("sudo systemctl is-active " ++ serviceName) out (Some e)
         :: EvSleep (5 * Second) :: trace rest).
Proof.
  cbv zeta. split.
  - destruct (waitForService_outcome lib cm fuel ctx host serviceName timeout s
                Hfuel) as [[H _] | [H [_ Hd]]]; auto.
  - intros fuel' deadline s1 out e dt w Hlt Hexec.
    rewrite waitLoop_eq, Hexec.
    destruct (Z.ltb_spec (clock s1) deadline) as [_|Hge]; [reflexivity | lia].
Qed.

(* ===================================================================== *)
(** ** The control plane: units start behind their gates *)

Section Gated.
Context {W : Type}.
Variables P Q : Event -> Prop.
Implicit Types (s : Sys W) (t : list Event).

Lemma precededBy_quiet t : Forall (fun e => ~ Q e) t -> precededBy P Q t.
Proof.
  intros H pre e post -> Hq. apply Forall_app in H as [_ H].
  apply Forall_cons_iff in H as [H _]. contradiction.
Qed.

Lemma precededBy_app_quiet t1 t2 :
  Forall (fun e => ~ Q e) t1 -> precededBy P Q t2 -> precededBy P Q (t1 ++ t2).
Proof.
  intros H1 H2 pre e post Heq Hq.
  apply app_eq_app in Heq as [l [[-> Hl] | [-> Hl]]].
  - destruct l as [|x l].
    + cbn in Hl. destruct (H2 [] e post (eq_sym Hl) Hq) as (p & [] & _).
    + injection Hl as <- ->. exfalso.
      apply Forall_app in H1 as [_ H1].
      apply Forall_cons_iff in H1 as [H1 _]. contradiction.
  - destruct (H2 l e post Hl Hq) as (p & Hp & HP).
    exists p. split; [apply in_or_app; now right | exact HP].
Qed.

Lemma precededBy_app_gate t1 t2 :
  Forall (fun e => ~ Q e) t1 -> Exists P t1 -> precededBy P Q (t1 ++ t2).
Proof.
  intros H1 HP pre e post Heq Hq.
  apply Exists_exists in HP as (p & Hp & HP).
  apply app_eq_app in Heq as [l [[-> Hl] | [-> Hl]]].
  - destruct l as [|x l].
    + rewrite app_nil_r in Hp. eauto.
    + injection Hl as <- ->. exfalso.
      apply Forall_app in H1 as [_ H1].
      apply Forall_cons_iff in H1 as [H1 _]. contradiction.
  - exists p. split; [apply in_or_app; now left | exact HP].
Qed.

Lemma gates_wrap {A} prefix (m : M W A) : gates P m -> gates P (wrap prefix m).
Proof.
  intros H s a Hok. rewrite wrap_trace. apply (H s a).
  now apply wrap_result_ok in Hok.
Qed.

Lemma gates_bind_r {A B} (m : M W A) (f : A -> M W B) :
  (forall a, gates P (f a)) -> gates P (bind m f).
Proof.
  intros H s b Hok. rewrite bind_trace. apply Exists_app. right.
  unfold bind, result in *.
  destruct (m s) as [[[a|e|] s1] t1]; cbn in *; try discriminate.
  apply (H a s1 b). unfold result.
  now destruct (f a s1) as [[r s2] t2].
Qed.

Lemma gated_bind_quiet {A B} (m : M W A) (f : A -> M W B) :
  always (fun e => ~ Q e) m ->
  (forall a s, precededBy P Q (trace (f a s))) ->
  forall s, precededBy P Q (trace (bind m f s)).
Proof.
  intros Hm Hf s. rewrite bind_trace.
  apply precededBy_app_quiet; [apply Hm|].
  destruct (result (m s)); [apply Hf | |]; now apply precededBy_quiet.
Qed.

Lemma precededBy_app_then_quiet t1 t2 :
  precededBy P Q t1 -> Forall (fun e => ~ Q e) t2 -> precededBy P Q (t1 ++ t2).
Proof.
  intros H1 H2 pre e post Heq Hq.
  apply app_eq_app in Heq as [l [[-> Hl] | [-> Hl]]].
  - destruct l as [|x l].
    + cbn in Hl. subst t2. apply Forall_cons_iff in H2 as [H2 _].
      contradiction.
    + injection Hl as <- ->. now apply (H1 pre e l).
  - exfalso. rewrite Hl in H2. apply Forall_app in H2 as [_ H2].
    apply Forall_cons_iff in H2 as [H2 _]. contradiction.
Qed.

Lemma gated_bind_then_quiet {A B} (m : M W A) (f : A -> M W B) :
  (forall s, precededBy P Q (trace (m s))) ->
  (forall a, always (fun e => ~ Q e) (f a)) ->
  forall s, precededBy P Q (trace (bind m f s)).
Proof.
  intros Hm Hf s. rewrite bind_trace.
  apply precededBy_app_then_quiet; [apply Hm|].
  destruct (result (m s)); [apply Hf | constructor | constructor].
Qed.

Lemma gated_bind_gate {A B} (m : M W A) (f : A -> M W B) :
  always (fun e => ~ Q e) m -> gates P m ->
  forall s, precededBy P Q (trace (bind m f s)).
Proof.
  intros Hm Hg s. rewrite bind_trace.
  destruct (result (m s)) as [a|e|] eqn:E.
  - apply precededBy_app_gate; [apply Hm | now apply (Hg s a)].
  - rewrite app_nil_r. apply precededBy_quiet, Hm.
  - rewrite app_nil_r. apply precededBy_quiet, Hm.
Qed.
End Gated.

(** Splits a membership in a list written out into its cases. *)
Ltac cases_in H :=
  cbn [In] in H;
  repeat match type of H with
         | _ \/ _ => destruct H as [H | H]
         end;
  [subst .. | contradiction].

(** Discharges [always (fun e => ~ isStartOf unit e) m] for the steps of the
    control-plane setup: no step before a gate issues the start command of
    the unit behind it. *)
Ltac not_a_start :=
  cbn [isStartOf]; try tauto;
  let H := fresh in intros H; cbn in H; discriminate H.

Ltac quiet :=
  lazymatch goal with
  | |- always _ (bind _ _) => apply always_bind; [quiet | intros ?; quiet]
  | |- always _ (wrap _ _) => apply always_wrap; quiet
  | |- always _ (ret _) => apply always_ret
  | |- always _ (loggerInfo _) => apply always_emit; not_a_start
  | |- always _ (emit _) => apply always_emit; not_a_start
  | |- always _ (sshExecuteCommand _ _ _ _) =>
      apply always_exec; intros ? ?; not_a_start
  | |- always _ (sshCopyFile _ _ _ _ _) =>
      apply always_copyFile; intros ?; not_a_start
  | |- always _ (sshCopyContent _ _ _ _ _) =>
      apply always_copyContent; intros ?; not_a_start
  | |- always _ (waitForService _ _ _ _ _ _ _) =>
      apply waitForService_always; [intros ? ? | | ]; not_a_start
  | |- always _ (forM_ (mapRange _ _) _) =>
      apply always_forM; intros [? ?] _; quiet
  | |- always _ (forM_ _ _) =>
      let x := fresh "x" in
      let Hx := fresh "Hx" in
      apply always_forM; intros x Hx;
      unfold etcdCommands, k8sCommands in Hx; cases_in Hx; quiet
  end.

(** C2.  In every run of [setupControlPlane], whatever the transport
    answers: the command that starts kube-apiserver is issued only after a
    probe [sudo systemctl is-active etcd] on the controller that returned
    without error with trimmed output [active]; likewise kube-controller-manager starts only
    after such a probe of kube-apiserver, and kube-scheduler only after such a
    probe of kube-controller-manager.  With fuel for its deadline, a run of
    [waitForService] is a sequence of probes of the unit, each unhealthy one
    followed by a sleep of five seconds, that ends either with a healthy probe
    and the result [nil], or with the error that names the unit and the
    time-out, once the clock has reached the deadline. *)
Theorem setupControlPlane_gated {W} (os : OS W) lib rnd (cm : ClusterManager W)
    fuel ctx workDir s host serviceName timeout
    (Hfuel : timeout <= 5 * Second * Z.of_nat fuel) :
  let t := trace (setupControlPlane os lib rnd cm fuel ctx workDir s) in
  let wait := waitForService lib cm fuel ctx host serviceName timeout s in
  let controller := IPAddress (Controller (config cm)) in
  precededBy (isHealthyProbe controller "etcd") (isStartOf "kube-apiserver") t
  /\ precededBy (isHealthyProbe controller "kube-apiserver")
       (isStartOf "kube-controller-manager") t
  /\ precededBy (isHealthyProbe controller "kube-controller-manager")
       (isStartOf "kube-scheduler") t
  /\ ((result wait = Ok tt /\ pollTrace ctx host serviceName true (trace wait))
      \/ (result wait
          = Err ("service " ++ serviceName ++ " did not become healthy within "
                 ++ durationString lib timeout)
          /\ pollTrace ctx host serviceName false (trace wait)
          /\ clock s + timeout <= clock (final wait))).
Proof.
  cbv zeta. repeat split.
  - unfold setupControlPlane. cbv zeta.
    do 8 (apply gated_bind_quiet; [quiet | intros ? ?]).
    apply gated_bind_gate; [quiet|].
    apply gates_wrap. intros u []. apply waitForService_gate.
  - unfold setupControlPlane. cbv zeta.
    do 10 (apply gated_bind_quiet; [quiet | intros ? ?]).
    apply gated_bind_gate; [quiet|].
    apply gates_wrap. intros u []. apply waitForService_gate.
  - unfold setupControlPlane. cbv zeta.
    do 11 (apply gated_bind_quiet; [quiet | intros ? ?]).
    apply gated_bind_then_quiet; [|intros ?; quiet].
    cbn [forM_]. apply gated_bind_gate; [quiet|].
    apply gates_bind_r. intros _.
    apply gates_wrap. intros u []. apply waitForService_gate.
  - apply (waitForService_outcome lib cm fuel ctx host serviceName timeout s
             Hfuel).
Qed.

(* ===================================================================== *)
(** ** The transport and its context *)

Section Transport.
Context {W : Type}.
Variable os : OS W.
Variable sshlib : SSHLibrary W.
Variable c : RealSSHClient.
Variable P : Event -> Prop.
Hypothesis P_readFile : forall path err, P (EvReadFile path err).
Hypothesis P_dial : forall n a u t err, P (EvDial n a u t err).
Hypothesis P_newSession : forall id err, P (EvNewSession id err).
Hypothesis P_stdinPipe : forall id err, P (EvStdinPipe id err).
Hypothesis P_run : forall id cmd stdin t0 dt out err,
    P (EvRun id cmd stdin t0 dt out err).
Hypothesis P_sessionClose : forall id, P (EvSessionClose id).
Hypothesis P_clientClose : P EvClientClose.

Lemma always_deferring {A} cleanup (body : M W A) :
  always P body -> (forall s, Forall P (snd (cleanup s))) ->
  always P (deferring cleanup body).
Proof.
  intros Hb Hc s. unfold deferring, trace. specialize (Hb s).
  destruct (body s) as [[r s1] t1]. specialize (Hc s1).
  destruct (cleanup s1) as [s2 t2]. cbn in *. now apply Forall_app.
Qed.

Lemma always_createSSHClient host : always P (createSSHClient os sshlib c host).
Proof.
  unfold createSSHClient. apply always_bind.
  - apply always_wrap. intros s. unfold osReadFile, trace.
    destruct (ReadFile os (keyPath c) (world s)) as [[data err] w]. cbn. auto.
  - intros key. destruct (ParsePrivateKey sshlib key); [apply always_fail|].
    intros s. unfold sshDial, trace.
    destruct (Dial sshlib _ _ _ _ (world s)) as [[err dt] w]. cbn. auto.
Qed.

Lemma always_clientNewSession : always P (clientNewSession sshlib).
Proof.
  intros s. unfold clientNewSession, trace.
  destruct (NewSession sshlib (world s)) as [[id err] w]. cbn. auto.
Qed.

Lemma always_sessionRun id cmd stdin : always P (sessionRun sshlib id cmd stdin).
Proof.
  intros s. unfold sessionRun, trace.
  destruct (Run sshlib id cmd stdin (world s)) as [[[[out errout] err] dt] w].
  cbn. auto.
Qed.

Lemma always_teeAndChmod what host content remotePath session :
  always P (teeAndChmod sshlib what host content remotePath session).
Proof.
  unfold teeAndChmod. apply always_bind.
  - apply always_wrap. intros s. unfold sessionStdinPipe, trace.
    destruct (StdinPipe sshlib session (world s)) as [err w]. cbn. auto.
  - intros _. apply always_bind; [apply always_sessionRun|].
    intros r. destruct (snd r); [apply always_fail|].
    apply always_bind; [apply always_wrap, always_clientNewSession|].
    intros perm. apply always_deferring.
    + apply always_bind; [apply always_sessionRun|].
      intros r'. destruct (snd r'); [apply always_fail | apply always_ret].
    + intros s. cbn. auto.
Qed.

Lemma always_RealExecuteCommand ctx host command :
  always P (RealExecuteCommand os sshlib c ctx host command).
Proof.
  unfold RealExecuteCommand. apply always_bind.
  - apply always_wrap, always_createSSHClient.
  - intros _. apply always_deferring; [|intros s; cbn; auto].
    apply always_bind; [apply always_wrap, always_clientNewSession|].
    intros session. apply always_deferring; [|intros s; cbn; auto].
    apply always_bind; [apply always_sessionRun|].
    intros [[out errout] [e|]]; [apply always_fail | apply always_ret].
Qed.

Lemma always_RealCopyFile ctx host localPath remotePath :
  always P (RealCopyFile os sshlib c ctx host localPath remotePath).
Proof.
  unfold RealCopyFile. apply always_bind.
  - apply always_wrap, always_createSSHClient.
  - intros _. apply always_deferring; [|intros s; cbn; auto].
    apply always_bind; [apply always_wrap, always_clientNewSession|].
    intros session. apply always_deferring; [|intros s; cbn; auto].
    apply always_bind.
    + apply always_wrap. intros s. unfold osReadFile, trace.
      destruct (ReadFile os localPath (world s)) as [[data err] w]. cbn. auto.
    + intros fileContent. apply always_teeAndChmod.
Qed.

Lemma always_RealCopyContent ctx host content remotePath :
  always P (RealCopyContent os sshlib c ctx host content remotePath).
Proof.
  unfold RealCopyContent. apply always_bind.
  - apply always_wrap, always_createSSHClient.
  - intros _. apply always_deferring; [|intros s; cbn; auto].
    apply always_bind; [apply always_wrap, always_clientNewSession|].
    intros session. apply always_deferring; [|intros s; cbn; auto].
    apply always_teeAndChmod.
Qed.
End Transport.

(** C3, as the code has it.  [ExecuteCommand], [CopyFile] and [CopyContent]
    take a context and never consult it: with any two contexts a call does
    the same operations on the SSH library, takes the same time and returns
    the same result; and no call ever sends a signal to a remote process. *)
Theorem transport_ignores_context {W} (os : OS W) sshlib c ctx ctx'
    host command localPath content remotePath s :
  RealExecuteCommand os sshlib c ctx host command s
  = RealExecuteCommand os sshlib c ctx' host command s
  /\ RealCopyFile os sshlib c ctx host localPath remotePath s
     = RealCopyFile os sshlib c ctx' host localPath remotePath s
  /\ RealCopyContent os sshlib c ctx host content remotePath s
     = RealCopyContent os sshlib c ctx' host content remotePath s
  /\ Forall (fun e => ~ isSignal e)
       (trace (RealExecuteCommand os sshlib c ctx host command s)
        ++ trace (RealCopyFile os sshlib c ctx host localPath remotePath s)
        ++ trace (RealCopyContent os sshlib c ctx host content remotePath s)).
Proof.
  repeat split; try reflexivity.
  repeat (apply Forall_app; split).
  - apply always_RealExecuteCommand; cbn; auto.
  - apply always_RealCopyFile; cbn; auto.
  - apply always_RealCopyContent; cbn; auto.
Qed.

(** C3, as stated, fails: with a context cancelled after one second and a
    remote command that runs for ten, [ExecuteCommand] sends no kill signal
    and returns the command's output when the command is over, nine seconds
    after the cancellation. *)
Lemma ExecuteCommand_outlives_cancellation :
  let run := RealExecuteCommand (mockOS testConfig) slowLibrary testClient
               cancelledAt1s "10.240.0.20" "sleep 10" start0 in
  result run = Ok "done"
  /\ clock (final run) = 10 * Second
  /\ ~ killedWithinGrace cancelledAt1s run.
Proof.
  cbv zeta. split; [reflexivity|]. split; [reflexivity|].
  intros H. unfold killedWithinGrace in H.
  specialize (H (1 * Second) eq_refl).
  destruct H as [_ Hclock].
  - exists (EvRun 1 "sleep 10" None 0 10000000000 "done" None).
    split; [vm_compute; tauto | cbn [inFlight]; unfold Second; lia].
  - vm_compute in Hclock. apply Hclock. reflexivity.
Qed.


(* ===================================================================== *)
(** ** The theorems at work on the test configuration *)

Lemma generateCertificates_issues_witness :
  let run := generateCertificates (testManager healthyMock testConfig)
               Background "/tmp/test-k8s" start0 in
  result run = Ok tt
  /\ pkiOps (trace run)
     = [IssueCA; IssueClient "admin"; IssueClient "kube-controller-manager";
        IssueClient "kube-proxy"; IssueClient "kube-scheduler";
        IssueClient "service-account"; IssueClient "worker-0";
        IssueClient "worker-1";
        IssueServer "kubernetes"
          ["127.0.0.1"; "10.32.0.1"; "10.240.0.10"; "controller-0";
           "kubernetes"; "kubernetes.default"; "kubernetes.default.svc";
           "kubernetes.default.svc.cluster";
           "kubernetes.default.svc.cluster.local"]].
Proof.
  cbv zeta. split; [reflexivity|].
  apply (generateCertificates_issues (testManager healthyMock testConfig)
           Background "/tmp/test-k8s" start0).
  reflexivity.
Defined.

Lemma SetupCluster_unreachable_witness :
  let run := SetupCluster (mockOS testConfig) mockLib mockRenderers
               (testManager unreachableMock testConfig) 12 Background start0 in
  phases (trace run) = ["Checking Prerequisites"] /\ pkiOps (trace run) = [].
Proof.
  cbv zeta.
  destruct (SetupCluster_unreachable (mockOS testConfig) mockLib mockRenderers
              (testManager unreachableMock testConfig) 12 Background start0
              (mkNode "worker-1" "10.240.0.21" "worker-1" "10.200.1.0/24"))
    as (_ & Hphases & Hpki & _).
  - cbn. tauto.
  - intros ctx' w. cbn. discriminate.
  - split; assumption.
Defined.

Lemma LoadClusterConfig_checks_witness :
  checkedFields testConfig
  /\ fst (LoadClusterConfig (mockOS zeroConfig) "cluster.yaml" [])
     = (zeroConfig, Some "cluster_name is required").
Proof.
  split.
  - apply (LoadClusterConfig_checks (mockOS testConfig) "cluster.yaml" [] "" []
             testConfig eq_refl eq_refl).
    reflexivity.
  - apply (LoadClusterConfig_checks (mockOS zeroConfig) "cluster.yaml" [] "" []
             zeroConfig eq_refl eq_refl).
    reflexivity.
Defined.

Lemma generateEncryptionConfig_renders_witness :
  let run := generateEncryptionConfig (mockOS testConfig) mockLib
               "/tmp/test-k8s" start0 in
  result run = Ok tt
  /\ exists got key secret,
      trace run
      = [EvRandRead 32 got None;
         EvWriteFile "/tmp/test-k8s/encryption-config.yaml"
           (renderEncryptionConfig ["secrets"]
              [Aescbc [("key1", secret)]; Identity])
           420 None]
      /\ key = fillBuffer (makeBytes 32) got
      /\ length key = 32%nat
      /\ secret = Base64.EncodeToString key
      /\ String.length secret = 44%nat
      /\ Base64.DecodeString secret = Some key.
Proof.
  cbv zeta. split; [reflexivity|].
  apply (generateEncryptionConfig_renders (mockOS testConfig) mockLib
           "/tmp/test-k8s" start0).
  reflexivity.
Defined.



Lemma setupControlPlane_gated_witness :
  let run := setupControlPlane (mockOS testConfig) mockLib mockRenderers
               (testManager healthyMock testConfig) 12 Background
               "/tmp/test-k8s" start0 in
  result run = Ok tt
  /\ precededBy (isHealthyProbe "10.240.0.10" "etcd")
       (isStartOf "kube-apiserver") (trace run).
Proof.
  cbv zeta. split; [reflexivity|].
  apply (setupControlPlane_gated (mockOS testConfig) mockLib mockRenderers
           (testManager healthyMock testConfig) 12 Background "/tmp/test-k8s"
           start0 "10.240.0.10" "etcd" (30 * Second)).
  unfold Second. lia.
Defined.

Lemma waitForService_swallows_transport_errors_witness :
  let run := waitForService mockLib (testManager deadProbeMock testConfig) 6
               Background "10.240.0.10" "etcd" (30 * Second) start0 in
  result run = Ok tt
  \/ (result run = Err (unhealthyError mockLib "etcd" (30 * Second))
      /\ clock start0 + 30 * Second <= clock (final run)).
Proof.
  cbv zeta.
  apply (waitForService_swallows_transport_errors mockLib
           (testManager deadProbeMock testConfig) 6 Background "10.240.0.10"
           "etcd" (30 * Second) start0).
  unfold Second. lia.
Defined.


(* ===================================================================== *)
(** ** Enough fuel: the model of the setup never stops short *)

Section Fuel.
Context {W : Type}.
Implicit Types (s : Sys W).

Lemma finishes_bind {A B} (m : M W A) (f : A -> M W B) :
  finishes m -> (forall a, finishes (f a)) -> finishes (bind m f).
Proof.
  intros Hm Hf s. specialize (Hm s). unfold bind, result in *.
  destruct (m s) as [[[a|e|] s1] t1]; cbn in *; try congruence.
  specialize (Hf a s1). unfold result in Hf.
  now destruct (f a s1) as [[r s2] t2].
Qed.

Lemma finishes_wrap {A} prefix (m : M W A) : finishes m -> finishes (wrap prefix m).
Proof.
  intros Hm s. specialize (Hm s). unfold wrap, result in *.
  destruct (m s) as [[[a|e|] s1] t1]; cbn in *; congruence.
Qed.

Lemma finishes_forM {A} (xs : list A) (f : A -> M W unit) :
  (forall x, finishes (f x)) -> finishes (forM_ xs f).
Proof.
  intros Hf. induction xs as [|x xs IH]; cbn [forM_].
  - intros s. discriminate.
  - apply finishes_bind; auto.
Qed.

Lemma finishes_ret {A} (a : A) : finishes (W:=W) (ret a).
Proof. intros s. discriminate. Qed.

Lemma finishes_emit e : finishes (W:=W) (emit e).
Proof. intros s. discriminate. Qed.

Lemma finishes_Sleep d : finishes (W:=W) (Sleep d).
Proof. intros s. discriminate. Qed.

Lemma finishes_exec (c : SSHClient W) ctx host cmd :
  finishes (sshExecuteCommand c ctx host cmd).
Proof.
  intros s. unfold sshExecuteCommand, result.
  now destruct (ExecuteCommand c ctx host cmd (world s)) as [[[o [e|]] dt] w].
Qed.

Lemma finishes_copyFile (c : SSHClient W) ctx host l r :
  finishes (sshCopyFile c ctx host l r).
Proof.
  intros s. unfold sshCopyFile, result.
  now destruct (CopyFile c ctx host l r (world s)) as [[[e|] dt] w].
Qed.

Lemma finishes_copyContent (c : SSHClient W) ctx host l r :
  finishes (sshCopyContent c ctx host l r).
Proof.
  intros s. unfold sshCopyContent, result.
  now destruct (CopyContent c ctx host l r (world s)) as [[[e|] dt] w].
Qed.

Lemma finishes_generateCA (c : CertificateManager W) wd cc :
  finishes (certGenerateCA c wd cc).
Proof.
  intros s. unfold certGenerateCA, result.
  now destruct (GenerateCA c wd cc (world s)) as [[e|] w].
Qed.

Lemma finishes_generateClientCert (c : CertificateManager W) wd n cc :
  finishes (certGenerateClientCert c wd n cc).
Proof.
  intros s. unfold certGenerateClientCert, result.
  now destruct (GenerateClientCert c wd n cc (world s)) as [[e|] w].
Qed.

Lemma finishes_generateServerCert (c : CertificateManager W) wd n hs cc :
  finishes (certGenerateServerCert c wd n hs cc).
Proof.
  intros s. unfold certGenerateServerCert, result.
  now destruct (GenerateServerCert c wd n hs cc (world s)) as [[e|] w].
Qed.

Lemma finishes_mkdirAll (o : OS W) path perm : finishes (osMkdirAll o path perm).
Proof.
  intros s. unfold osMkdirAll, result.
  now destruct (MkdirAll o path perm (world s)) as [[e|] w].
Qed.

Lemma finishes_writeFile (o : OS W) path content perm :
  finishes (osWriteFile o path content perm).
Proof.
  intros s. unfold osWriteFile, result.
  now destruct (WriteFile o path content perm (world s)) as [[e|] w].
Qed.

Lemma finishes_randRead (o : OS W) buf : finishes (randRead o buf).
Proof.
  intros s. unfold randRead, result.
  now destruct (RandRead o (length buf) (world s)) as [[got [e|]] w].
Qed.

Lemma finishes_waitForService lib (cm : ClusterManager W) fuel ctx host
    serviceName timeout :
  timeout <= 5 * Second * Z.of_nat fuel ->
  finishes (waitForService lib cm fuel ctx host serviceName timeout).
Proof.
  intros Hfuel s.
  destruct (waitForService_outcome lib cm fuel ctx host serviceName timeout s
              Hfuel) as [[H _] | [H _]]; congruence.
Qed.
End Fuel.

Ltac finish :=
  lazymatch goal with
  | |- finishes (bind _ _) => apply finishes_bind; [finish | intros ?; finish]
  | |- finishes (wrap _ _) => apply finishes_wrap; finish
  | |- finishes (forM_ (mapRange _ _) _) =>
      apply finishes_forM; intros [? ?]; finish
  | |- finishes (forM_ _ _) => apply finishes_forM; intros ?; finish
  | |- finishes (if ?b then _ else _) => destruct b; finish
  | |- finishes (waitForService _ _ _ _ _ _ _) =>
      apply finishes_waitForService; unfold Second in *; lia
  | |- finishes ?m =>
      first
        [ apply finishes_ret | apply finishes_emit | apply finishes_Sleep
        | apply finishes_exec | apply finishes_copyFile
        | apply finishes_copyContent | apply finishes_generateCA
        | apply finishes_generateClientCert | apply finishes_generateServerCert
        | apply finishes_mkdirAll | apply finishes_writeFile
        | apply finishes_randRead
        | let h := head_of m in unfold h; cbv zeta; finish ]
  end.

(** With fuel for the longest deadline of the control plane (sixty seconds:
    twelve turns of five), every run of [SetupCluster] ends with [nil] or an
    error. *)
Lemma SetupCluster_finishes {W} (os : OS W) lib rnd (cm : ClusterManager W)
    fuel ctx :
  (12 <= fuel)%nat -> finishes (SetupCluster os lib rnd cm fuel ctx).
Proof.
  intros Hfuel. unfold SetupCluster, ReportProgress, loggerInfo. cbv zeta.
  finish.
Qed.

(* ===================================================================== *)
(** ** More of the package: what every run shows *)

Section MoreRuns.
Context {W : Type}.
Implicit Types (s : Sys W) (t : list Event).

Lemma bind_result {A B} (m : M W A) (f : A -> M W B) s :
  result (bind m f s)
  = match result (m s) with
    | Ok a => result (f a (final (m s)))
    | Err e => Err e
    | OutOfFuel => OutOfFuel
    end.
Proof.
  unfold bind, result, final. destruct (m s) as [[[a|e|] s1] t1]; cbn; auto.
  now destruct (f a s1) as [[r s2] t2].
Qed.

Lemma wrap_result {A} prefix (m : M W A) s :
  result (wrap prefix m s)
  = match result (m s) with
    | Err e => Err (Errorf prefix e)
    | r => r
    end.
Proof. unfold wrap, result. now destruct (m s) as [[[a|e|] s1] t1]. Qed.

Lemma always_Sleep P d : P (EvSleep d) -> always (W:=W) P (Sleep d).
Proof. intros H s. cbn. auto. Qed.

Lemma always_generateCA P (c : CertificateManager W) wd cc :
  (forall err, P (EvGenerateCA wd cc err)) -> always P (certGenerateCA c wd cc).
Proof.
  intros H s. unfold certGenerateCA, trace.
  destruct (GenerateCA c wd cc (world s)) as [err w]. cbn. auto.
Qed.

Lemma always_generateClientCert P (c : CertificateManager W) wd n cc :
  (forall err, P (EvGenerateClientCert wd n cc err)) ->
  always P (certGenerateClientCert c wd n cc).
Proof.
  intros H s. unfold certGenerateClientCert, trace.
  destruct (GenerateClientCert c wd n cc (world s)) as [err w]. cbn. auto.
Qed.

Lemma always_generateServerCert P (c : CertificateManager W) wd n hs cc :
  (forall err, P (EvGenerateServerCert wd n hs cc err)) ->
  always P (certGenerateServerCert c wd n hs cc).
Proof.
  intros H s. unfold certGenerateServerCert, trace.
  destruct (GenerateServerCert c wd n hs cc (world s)) as [err w]. cbn. auto.
Qed.

Lemma always_mkdirAll P (o : OS W) path perm :
  (forall err, P (EvMkdirAll path perm err)) -> always P (osMkdirAll o path perm).
Proof.
  intros H s. unfold osMkdirAll, trace.
  destruct (MkdirAll o path perm (world s)) as [err w]. cbn. auto.
Qed.

Lemma always_osWriteFile P (o : OS W) path content perm :
  (forall err, P (EvWriteFile path content perm err)) ->
  always P (osWriteFile o path content perm).
Proof.
  intros H s. unfold osWriteFile, trace.
  destruct (WriteFile o path content perm (world s)) as [err w]. cbn. auto.
Qed.

Lemma always_randRead P (o : OS W) buf :
  (forall got err, P (EvRandRead (length buf) got err)) ->
  always P (randRead o buf).
Proof.
  intros H s. unfold randRead, trace.
  destruct (RandRead o (length buf) (world s)) as [[got err] w]. cbn. auto.
Qed.
End MoreRuns.

(** Walks through an orchestration and leaves, for every event it can
    record, the goal that the event satisfies the predicate. *)
Ltac walk leaf :=
  cbv beta iota zeta;
  lazymatch goal with
  | |- always _ (bind _ _) => apply always_bind; [walk leaf | intros ?; walk leaf]
  | |- always _ (wrap _ _) => apply always_wrap; walk leaf
  | |- always _ (ret _) => apply always_ret
  | |- always _ (fail _) => apply always_fail
  | |- always _ (emit _) => apply always_emit; leaf
  | |- always _ (loggerInfo _) => apply always_emit; leaf
  | |- always _ (ReportProgress _ _ _) => apply always_emit; leaf
  | |- always _ (Sleep _) => apply always_Sleep; leaf
  | |- always _ (sshExecuteCommand _ _ _ _) =>
      apply always_exec; intros ? ?; leaf
  | |- always _ (sshCopyFile _ _ _ _ _) =>
      apply always_copyFile; intros ?; leaf
  | |- always _ (sshCopyContent _ _ _ _ _) =>
      apply always_copyContent; intros ?; leaf
  | |- always _ (certGenerateCA _ _ _) =>
      apply always_generateCA; intros ?; leaf
  | |- always _ (certGenerateClientCert _ _ _ _) =>
      apply always_generateClientCert; intros ?; leaf
  | |- always _ (certGenerateServerCert _ _ _ _ _) =>
      apply always_generateServerCert; intros ?; leaf
  | |- always _ (osMkdirAll _ _ _) => apply always_mkdirAll; intros ?; leaf
  | |- always _ (osWriteFile _ _ _ _) =>
      apply always_osWriteFile; intros ?; leaf
  | |- always _ (osRemoveAll _ _) => apply always_removeAll; intros ?; leaf
  | |- always _ (randRead _ _) => apply always_randRead; intros ? ?; leaf
  | |- always _ (waitForService _ _ _ _ _ _ _) =>
      apply waitForService_always; [intros ? ? | | ]; leaf
  | |- always _ (forM_ (mapRange _ _) _) =>
      apply always_forM; intros [? ?] ?; walk leaf
  | |- always _ (forM_ _ _) => apply always_forM; intros ? ?; walk leaf
  | |- always _ (if ?b then _ else _) => destruct b; walk leaf
  | |- always _ ?m => let h := head_of m in unfold h; walk leaf
  end.

(* ===================================================================== *)
(** ** The loader accepts exactly the configurations that pass its checks *)

Lemma isEmpty_nonempty (x : string) : x <> "" -> isEmpty x = false.
Proof. now destruct x. Qed.

Lemma incompleteWorker_complete ws :
  (forall w, In w ws -> IPAddress w <> "" /\ Name w <> "" /\ PodCIDR w <> "") ->
  incompleteWorker ws = None.
Proof.
  induction ws as [|x ws IH]; intros H; cbn [incompleteWorker]; [reflexivity|].
  destruct (H x (or_introl eq_refl)) as (Hip & Hname & Hcidr).
  rewrite (isEmpty_nonempty _ Hip), (isEmpty_nonempty _ Hname),
    (isEmpty_nonempty _ Hcidr). cbn.
  apply IH. intros w Hw. apply H. now right.
Qed.

Lemma validateConfig_complete c : checkedFields c -> validateConfig c = None.
Proof.
  intros (H1 & H2 & H3 & H4 & H5 & H6 & H7 & H8 & H9 & H10 & H11 & H12 & H13
          & H14 & H15 & H16 & H17 & H18).
  unfold validateConfig.
  rewrite ?isEmpty_nonempty by assumption.
  cbn [orb].
  destruct (Workers c) as [|w ws] eqn:Ew; [congruence|]. cbn [length Nat.eqb].
  rewrite (incompleteWorker_complete _ H16). cbn [orb].
  destruct (Z.leb_spec (ValidityDays (Certificates c)) 0); [lia | reflexivity].
Qed.

(** X1.  [LoadClusterConfig] returns no error exactly when the file is read
    and unmarshalled without error, the configuration passes every check of
    the loader, and the work directory can be created. *)
Theorem LoadClusterConfig_accepts {W} (os : OS W) configPath w :
  snd (fst (LoadClusterConfig os configPath w)) = None
  <-> exists data w1 c,
        ReadFile os configPath w = ((data, None), w1)
        /\ yamlUnmarshal os data = (c, None)
        /\ checkedFields c
        /\ fst (MkdirAll os (WorkDir c) 493 w1) = None.
Proof.
  unfold LoadClusterConfig.
  destruct (ReadFile os configPath w) as [[data [e|]] w1] eqn:Er.
  { split; [discriminate|]. intros (d & w' & c & [=] & _). }
  destruct (yamlUnmarshal os data) as [c [e|]] eqn:Ey.
  { split; [discriminate|]. intros (d & w' & c' & [= <- <-] & H & _).
    rewrite Ey in H. discriminate. }
  destruct (validateConfig c) as [e|] eqn:Ev.
  { split; [discriminate|]. intros (d & w' & c' & [= <- <-] & H & Hc & _).
    rewrite Ey in H. injection H as <-.
    apply validateConfig_complete in Hc. congruence. }
  destruct (MkdirAll os (WorkDir c) 493 w1) as [[e|] w2] eqn:Em.
  { split; [discriminate|]. intros (d & w' & c' & [= <- <-] & H & _ & Hm).
    rewrite Ey in H. injection H as <-. rewrite Em in Hm. discriminate. }
  split; [|reflexivity]. intros _. exists data, w1, c.
  split; [reflexivity|]. split; [exact Ey|].
  split; [now apply validateConfig_none | now rewrite Em].
Qed.

(* ===================================================================== *)
(** ** The status query *)

(** X2.  [GetClusterStatus] runs its three queries on the controller, in
    order, and stops at the first that fails: the commands issued are the
    first [k + 1] of the three when [k < 3] of them succeeded, and all three
    otherwise.  The status returned holds the output of each query that
    succeeded and the empty string for the others, and the error is [nil]
    exactly when all three succeeded.  The call always returns. *)
Theorem GetClusterStatus_collects {W} (cm : ClusterManager W) ctx s :
  let run := GetClusterStatus cm ctx s in
  let outs := outputs (trace run) in
  exists status err,
    result run = Ok (status, err)
    /\ execCalls (trace run)
       = firstn (Nat.min 3 (S (length outs))) (statusCommands (config cm))
    /\ Nodes status = nth 0 outs ""
    /\ PodStatus status = nth 1 outs ""
    /\ TestStatus status = nth 2 outs ""
    /\ (err = None <-> length outs = 3%nat).
Proof.
  cbv zeta. unfold GetClusterStatus, statusCommands, bind, try, ret,
    sshExecuteCommand.
  destruct (ExecuteCommand (sshClient cm) ctx _ _ (world s))
    as [[[out1 [e1|]] dt1] w1]; cbn.
  { eexists _, _. repeat split; try reflexivity; discriminate. }
  destruct (ExecuteCommand (sshClient cm) ctx _ _ w1)
    as [[[out2 [e2|]] dt2] w2]; cbn.
  { eexists _, _. repeat split; try reflexivity; discriminate. }
  destruct (ExecuteCommand (sshClient cm) ctx _ _ w2)
    as [[[out3 [e3|]] dt3] w3]; cbn.
  { eexists _, _. repeat split; try reflexivity; discriminate. }
  eexists _, _. repeat split; reflexivity.
Qed.

(* ===================================================================== *)
(** ** The phases of [SetupCluster] *)

Lemma progress_app t1 t2 :
  progress (t1 ++ t2) = (progress t1 ++ progress t2)%list.
Proof. apply flat_map_app. Qed.

Lemma progress_silent t : Forall notProgress t -> progress t = [].
Proof.
  induction 1 as [|e t He _ IH]; [reflexivity|].
  cbn. unfold progress in IH. rewrite IH. now destruct e.
Qed.

Section Phases.
Context {W : Type}.
Variable os : OS W.
Variable lib : Lib.
Variable rnd : Renderers.
Variable cm : ClusterManager W.

Lemma silent_ValidateK8sPrerequisites :
  always notProgress (ValidateK8sPrerequisites os cm).
Proof. walk ltac:(exact I). Qed.

Lemma silent_generateCertificates ctx workDir :
  always notProgress (generateCertificates cm ctx workDir).
Proof. walk ltac:(exact I). Qed.

Lemma silent_createConfigurations ctx workDir :
  always notProgress (createConfigurations os lib cm ctx workDir).
Proof. walk ltac:(exact I). Qed.

Lemma silent_setupControlPlane fuel ctx workDir :
  always notProgress (setupControlPlane os lib rnd cm fuel ctx workDir).
Proof. walk ltac:(exact I). Qed.

Lemma silent_setupWorkerNodes ctx workDir :
  always notProgress (setupWorkerNodes os lib rnd cm ctx workDir).
Proof. walk ltac:(exact I). Qed.

Lemma silent_setupNetworking ctx : always notProgress (setupNetworking rnd cm ctx).
Proof. walk ltac:(exact I). Qed.

Lemma silent_validateCluster ctx : always notProgress (validateCluster rnd cm ctx).
Proof. walk ltac:(exact I). Qed.

(** A phase announced and run, followed by the rest of the setup. *)
Lemma progress_phase step total phase prefix (m k : M W unit) rest s :
  always notProgress m ->
  (forall s',
      exists tl, rest = (progress (trace (k s')) ++ tl)%list
                 /\ (result (k s') = Ok tt -> tl = [])) ->
  let run := bind (emit (EvProgress step total phase))
               (fun _ => bind (wrap prefix m) (fun _ => k)) s in
  exists tl, ((step, total, phase) :: rest = progress (trace run) ++ tl)%list
             /\ (result run = Ok tt -> tl = []).
Proof.
  intros Hm Hk. cbv zeta. rewrite emit_bind_eq.
  cbn [result trace fst snd progress flat_map app].
  fold (progress (trace (bind (wrap prefix m) (fun _ => k) s))).
  rewrite bind_trace, bind_result, progress_app, wrap_trace.
  rewrite (progress_silent _ (Hm s)). cbn [app].
  destruct (result (wrap prefix m s)) as [[]|e|].
  - destruct (Hk (final (wrap prefix m s))) as (tl & -> & Htl).
    exists tl. split; [reflexivity | exact Htl].
  - exists rest. split; [reflexivity | discriminate].
  - exists rest. split; [reflexivity | discriminate].
Qed.

Lemma progress_last step total phase prefix (m : M W unit) s :
  always notProgress m ->
  let run := bind (emit (EvProgress step total phase))
               (fun _ => wrap prefix m) s in
  exists tl, ([(step, total, phase)] = progress (trace run) ++ tl)%list
             /\ (result run = Ok tt -> tl = []).
Proof.
  intros Hm. cbv zeta. rewrite emit_bind_eq.
  cbn [result trace fst snd progress flat_map app].
  fold (progress (trace (wrap prefix m s))).
  rewrite wrap_trace, (progress_silent _ (Hm s)).
  exists []. split; reflexivity.
Qed.
End Phases.

(** X3.  The phases [SetupCluster] announces to the progress reporter are
    an initial part of: 1/6 Checking Prerequisites, 2/6 Generating
    Certificates, 3/6 Creating Configurations, 4/6 Setting Up Control Plane,
    5/6 Setting Up Worker Nodes, 6/6 Setting Up Networking, 6/6 Validating
    Cluster -- seven announcements over six steps, the last two sharing step
    6.  The first is always announced, and a run that returns [nil] has
    announced all seven. *)
Theorem SetupCluster_progress {W} (os : OS W) lib rnd (cm : ClusterManager W)
    fuel ctx s :
  let run := SetupCluster os lib rnd cm fuel ctx s in
  exists announced later,
    progress (trace run) = (1, 6, "Checking Prerequisites") :: announced
    /\ allProgress = (progress (trace run) ++ later)%list
    /\ (result run = Ok tt -> later = []).
Proof.
  cbv zeta.
  assert (H : exists tl,
             allProgress
             = (progress (trace (SetupCluster os lib rnd cm fuel ctx s)) ++ tl)%list
             /\ (result (SetupCluster os lib rnd cm fuel ctx s) = Ok tt
                 -> tl = [])).
  { unfold SetupCluster, ReportProgress, allProgress. cbv zeta.
    apply progress_phase; [apply silent_ValidateK8sPrerequisites|]. intros s1.
    apply progress_phase; [apply silent_generateCertificates|]. intros s2.
    apply progress_phase; [apply silent_createConfigurations|]. intros s3.
    apply progress_phase; [apply silent_setupControlPlane|]. intros s4.
    apply progress_phase; [apply silent_setupWorkerNodes|]. intros s5.
    apply progress_phase; [apply silent_setupNetworking|]. intros s6.
    apply progress_last. apply silent_validateCluster. }
  destruct H as (tl & Hall & Hok).
  assert (Hhead : exists announced,
             progress (trace (SetupCluster os lib rnd cm fuel ctx s))
             = (1, 6, "Checking Prerequisites") :: announced).
  { unfold SetupCluster, ReportProgress. cbv zeta. rewrite emit_bind_eq.
    cbn [trace snd progress flat_map app]. eauto. }
  destruct Hhead as (announced & Hhead).
  exists announced, tl. auto.
Qed.

(* ===================================================================== *)
(** ** Which context and which host a call gets *)

Ltac carried :=
  cbv beta iota delta [carries targets transportHost]; auto.

(** X4.  [SetupCluster] hands the caller's context to every command and
    every upload of every phase, with one exception: the SSH probes of the
    prerequisites check run under [context.Background()], so cancelling the
    caller's context never reaches them. *)
Theorem SetupCluster_contexts {W} (os : OS W) lib rnd (cm : ClusterManager W)
    fuel ctx s :
  Forall (carries ctx) (trace (SetupCluster os lib rnd cm fuel ctx s))
  /\ Forall (fun e => match transportCtx e with
                      | Some c => c = Background
                      | None => True
                      end)
       (trace (ValidateK8sPrerequisites os cm s)).
Proof.
  split.
  - revert s. change (always (carries ctx) (SetupCluster os lib rnd cm fuel ctx)).
    walk carried.
  - revert s.
    change (always (fun e => match transportCtx e with
                             | Some c => c = Background
                             | None => True
                             end) (ValidateK8sPrerequisites os cm)).
    walk ltac:(cbv beta iota delta [transportCtx]; auto).
Qed.

(** X8.  Whatever the configuration, [setupControlPlane] talks to no host
    but the controller's IP address, [setupSingleWorkerNode] to none but the
    IP address of the worker it is given, and [DestroyCluster] only to the
    addresses of the configured nodes. *)
Theorem setup_targets {W} (os : OS W) lib rnd (cm : ClusterManager W)
    fuel ctx workDir worker s :
  Forall (targets (IPAddress (Controller (config cm))))
    (trace (setupControlPlane os lib rnd cm fuel ctx workDir s))
  /\ Forall (targets (IPAddress worker))
       (trace (setupSingleWorkerNode os lib rnd cm ctx workDir worker s))
  /\ Forall (fun e => exists node,
                 In node (Controller (config cm) :: Workers (config cm))
                 /\ targets (IPAddress node) e)
       (trace (DestroyCluster os cm ctx s)).
Proof.
  split; [|split]; revert s.
  - change (always (targets (IPAddress (Controller (config cm))))
              (setupControlPlane os lib rnd cm fuel ctx workDir)).
    walk carried.
  - change (always (targets (IPAddress worker))
              (setupSingleWorkerNode os lib rnd cm ctx workDir worker)).
    walk carried.
  - change (always (fun e => exists node,
                        In node (Controller (config cm) :: Workers (config cm))
                        /\ targets (IPAddress node) e)
              (DestroyCluster os cm ctx)).
    walk ltac:(first [ exists (Controller (config cm)); split;
                         [now left | exact I]
                     | eexists; split; [eassumption | reflexivity] ]).
Qed.

(* ===================================================================== *)
(** ** How long the health gate polls *)

Section Polling.
Context {W : Type}.
Variable lib : Lib.
Variable cm : ClusterManager W.

Lemma waitLoop_probes fuel ctx host serviceName timeout deadline (s : Sys W) :
  let n := Z.of_nat (length (execCalls
             (trace (waitLoop lib cm fuel ctx host serviceName timeout
                       deadline s)))) in
  n = 0 \/ clock s + 5 * Second * (n - 1) < deadline.
Proof.
  cbv zeta. revert s. induction fuel as [|fuel IH]; intros s;
    rewrite waitLoop_eq; destruct (Z.ltb_spec (clock s) deadline) as [Hlt|Hge];
    cbn [trace snd execCalls flat_map length]; auto.
  destruct (ExecuteCommand (sshClient cm) ctx host
              ("sudo systemctl is-active " ++ serviceName) (world s))
    as [[[out err] dt] w].
  cbv zeta.
  destruct (match err with
            | None => String.eqb (TrimSpace out) "active"
            | Some _ => false
            end).
  - right. cbn. lia.
  - right. specialize (IH (mkSys w (clock s + Z.of_N dt + 5 * Second))).
    unfold execCalls in *. cbn [trace snd flat_map app length clock] in *.
    unfold Second in *. lia.
Qed.
End Polling.

(** X5.  [waitForService] probes at most once every five seconds and only
    before its deadline: if it issued [n > 0] probes then [5 s * (n - 1)] is
    less than the time-out, whatever the transport answers and however long
    it takes.  With a time-out that is not positive it issues no probe and
    returns the time-out error at once. *)
Theorem waitForService_probes {W} lib (cm : ClusterManager W) fuel ctx host
    serviceName timeout s :
  let run := waitForService lib cm fuel ctx host serviceName timeout s in
  let n := Z.of_nat (length (execCalls (trace run))) in
  (n = 0 \/ 5 * Second * (n - 1) < timeout)
  /\ (timeout <= 0 ->
      run = (Err (unhealthyError lib serviceName timeout), s, [])).
Proof.
  cbv zeta. rewrite waitForService_eq. split.
  - pose proof (waitLoop_probes lib cm fuel ctx host serviceName timeout
                  (clock s + timeout) s) as H. cbv zeta in H. lia.
  - intros Hneg. rewrite waitLoop_eq.
    destruct (Z.ltb_spec (clock s) (clock s + timeout)); [lia | reflexivity].
Qed.

(* ===================================================================== *)
(** ** Runs that stop at the first failure *)

Section FailFast.
Context {W : Type}.
Implicit Types (s : Sys W).

Lemma stops_ret {A} (a : A) s : stopsAtFirstFailure (ret a s).
Proof. reflexivity. Qed.

Lemma stops_emit e s : failed e = false -> stopsAtFirstFailure (emit e s).
Proof. intros H. unfold stopsAtFirstFailure. cbn. now rewrite H. Qed.

Lemma stops_Sleep d s : stopsAtFirstFailure (Sleep (W:=W) d s).
Proof. reflexivity. Qed.

Lemma stops_bind {A B} (m : M W A) (f : A -> M W B) :
  (forall s, stopsAtFirstFailure (m s)) ->
  (forall a s, stopsAtFirstFailure (f a s)) ->
  forall s, stopsAtFirstFailure (bind m f s).
Proof.
  intros Hm Hf s. specialize (Hm s). unfold stopsAtFirstFailure in *.
  rewrite bind_result, bind_trace.
  destruct (result (m s)) as [a|e|]; [|now rewrite app_nil_r | exact Hm].
  specialize (Hf a (final (m s))).
  destruct (result (f a (final (m s)))) as [b|e|]; [| |exact Hf].
  - rewrite forallb_app, Hm, Hf. reflexivity.
  - destruct Hf as (before & e' & -> & Hfail & Hbefore).
    exists (trace (m s) ++ before)%list, e'.
    rewrite app_assoc, forallb_app, Hm, Hbefore. auto.
Qed.

Lemma stops_wrap {A} prefix (m : M W A) :
  (forall s, stopsAtFirstFailure (m s)) ->
  forall s, stopsAtFirstFailure (wrap prefix m s).
Proof.
  intros Hm s. specialize (Hm s). unfold stopsAtFirstFailure in *.
  rewrite wrap_result, wrap_trace. now destruct (result (m s)).
Qed.

Lemma stops_forM {A} (xs : list A) (f : A -> M W unit) :
  (forall x s, stopsAtFirstFailure (f x s)) ->
  forall s, stopsAtFirstFailure (forM_ xs f s).
Proof.
  intros Hf. induction xs as [|x xs IH]; cbn [forM_].
  - apply stops_ret.
  - apply stops_bind; [apply Hf | intros _; apply IH].
Qed.

Ltac one_call :=
  unfold stopsAtFirstFailure, result, trace; cbn;
  first [ reflexivity
        | eexists [], _; split; [reflexivity | split; reflexivity] ].

Lemma stops_exec (c : SSHClient W) ctx host cmd s :
  stopsAtFirstFailure (sshExecuteCommand c ctx host cmd s).
Proof.
  unfold sshExecuteCommand.
  destruct (ExecuteCommand c ctx host cmd (world s)) as [[[out [e|]] dt] w];
    one_call.
Qed.

Lemma stops_copyFile (c : SSHClient W) ctx host l r s :
  stopsAtFirstFailure (sshCopyFile c ctx host l r s).
Proof.
  unfold sshCopyFile.
  destruct (CopyFile c ctx host l r (world s)) as [[[e|] dt] w]; one_call.
Qed.

Lemma stops_copyContent (c : SSHClient W) ctx host l r s :
  stopsAtFirstFailure (sshCopyContent c ctx host l r s).
Proof.
  unfold sshCopyContent.
  destruct (CopyContent c ctx host l r (world s)) as [[[e|] dt] w]; one_call.
Qed.

Lemma stops_generateCA (c : CertificateManager W) wd cc s :
  stopsAtFirstFailure (certGenerateCA c wd cc s).
Proof.
  unfold certGenerateCA.
  destruct (GenerateCA c wd cc (world s)) as [[e|] w]; one_call.
Qed.

Lemma stops_generateClientCert (c : CertificateManager W) wd n cc s :
  stopsAtFirstFailure (certGenerateClientCert c wd n cc s).
Proof.
  unfold certGenerateClientCert.
  destruct (GenerateClientCert c wd n cc (world s)) as [[e|] w]; one_call.
Qed.

Lemma stops_generateServerCert (c : CertificateManager W) wd n hs cc s :
  stopsAtFirstFailure (certGenerateServerCert c wd n hs cc s).
Proof.
  unfold certGenerateServerCert.
  destruct (GenerateServerCert c wd n hs cc (world s)) as [[e|] w]; one_call.
Qed.

Lemma stops_mkdirAll (o : OS W) path perm s :
  stopsAtFirstFailure (osMkdirAll o path perm s).
Proof.
  unfold osMkdirAll.
  destruct (MkdirAll o path perm (world s)) as [[e|] w]; one_call.
Qed.

Lemma stops_osWriteFile (o : OS W) path content perm s :
  stopsAtFirstFailure (osWriteFile o path content perm s).
Proof.
  unfold osWriteFile.
  destruct (WriteFile o path content perm (world s)) as [[e|] w]; one_call.
Qed.

Lemma stops_removeAll (o : OS W) path s :
  stopsAtFirstFailure (osRemoveAll o path s).
Proof.
  unfold osRemoveAll.
  destruct (RemoveAll o path (world s)) as [[e|] w]; one_call.
Qed.

Lemma stops_randRead (o : OS W) buf s : stopsAtFirstFailure (randRead o buf s).
Proof.
  unfold randRead.
  destruct (RandRead o (length buf) (world s)) as [[got [e|]] w]; one_call.
Qed.
End FailFast.

Ltac stops :=
  cbv beta iota zeta;
  lazymatch goal with
  | |- forall s, stopsAtFirstFailure (bind _ _ s) =>
      apply stops_bind; [stops | intros ?; stops]
  | |- forall s, stopsAtFirstFailure (wrap _ _ s) => apply stops_wrap; stops
  | |- forall s, stopsAtFirstFailure (forM_ (mapRange _ _) _ s) =>
      apply stops_forM; intros [? ?]; stops
  | |- forall s, stopsAtFirstFailure (forM_ _ _ s) =>
      apply stops_forM; intros ?; stops
  | |- forall s, stopsAtFirstFailure ((if ?b then _ else _) s) =>
      destruct b; stops
  | |- forall s, stopsAtFirstFailure (?m s) =>
      first
        [ apply stops_ret | intros ?; apply stops_emit; reflexivity
        | apply stops_Sleep | apply stops_exec | apply stops_copyFile
        | apply stops_copyContent | apply stops_generateCA
        | apply stops_generateClientCert | apply stops_generateServerCert
        | apply stops_mkdirAll | apply stops_osWriteFile | apply stops_removeAll
        | apply stops_randRead
        | let h := head_of m in unfold h; stops ]
  end.

(** X6.  [DestroyCluster] is not best-effort: no call fails in a run that
    returns [nil]; a run that returns an error ends with the one call that
    failed, so the commands after it, the nodes after it and the removal of
    the work directory are skipped; and it always returns. *)
Theorem DestroyCluster_stops {W} (os : OS W) (cm : ClusterManager W) ctx s :
  stopsAtFirstFailure (DestroyCluster os cm ctx s).
Proof. revert s. stops. Qed.

(** X7.  The prerequisites check and the phases that generate certificates,
    create configurations, set up the workers, set up networking and
    validate the cluster each stop at the first call that fails (a command,
    an upload, a certificate request, a local write or the random source):
    nothing fails in a run that returns [nil], and a run that returns an
    error ends with the one failed call. *)
Theorem phases_stop {W} (os : OS W) lib rnd (cm : ClusterManager W) ctx
    workDir s :
  stopsAtFirstFailure (ValidateK8sPrerequisites os cm s)
  /\ stopsAtFirstFailure (generateCertificates cm ctx workDir s)
  /\ stopsAtFirstFailure (createConfigurations os lib cm ctx workDir s)
  /\ stopsAtFirstFailure (setupWorkerNodes os lib rnd cm ctx workDir s)
  /\ stopsAtFirstFailure (setupNetworking rnd cm ctx s)
  /\ stopsAtFirstFailure (validateCluster rnd cm ctx s).
Proof. repeat split; revert s; stops. Qed.

(* ===================================================================== *)
(** ** The order of the teardown *)

Lemma flat_map_single {A B} (f : A -> B) (l : list A) :
  flat_map (fun x => [f x]) l = map f l.
Proof. induction l as [|x l IH]; cbn; [reflexivity | now rewrite IH]. Qed.

Lemma project_nil {B} (g : Event -> list B) t :
  Forall (fun e => g e = []) t -> flat_map g t = [].
Proof.
  induction 1 as [|e t He _ IH]; [reflexivity|]. cbn. now rewrite He, IH.
Qed.

Lemma removals_app t1 t2 :
  removals (t1 ++ t2) = (removals t1 ++ removals t2)%list.
Proof. apply flat_map_app. Qed.

Section Teardown.
Context {W : Type}.
Variable cm : ClusterManager W.

Lemma cleanup_run ctx (nodes : list Node) (s s' : Sys W) t :
  forM_ nodes (fun node =>
    loggerInfo ("Cleaning up node: " ++ Name node) ;;
    forM_ cleanupCommands (fun cmd =>
      wrap ("failed to execute cleanup command '" ++ cmd ++ "' on "
            ++ Name node ++ ": ")
        (sshExecuteCommand (sshClient cm) ctx (IPAddress node) cmd) ;; ret tt))
    s = (Ok tt, s', t) ->
  execCalls t
  = flat_map (fun node => map (pair (IPAddress node)) cleanupCommands) nodes.
Proof.
  intros H.
  eapply (forM_project execCalls) in H;
    [exact H | reflexivity | apply execCalls_app |].
  intros node u u' v _ Hn. cbv beta in Hn. unfold loggerInfo in Hn.
  step_inv Hn. call_inv Hfst. rewrite execCalls_app.
  change (execCalls [EvInfo _]) with (@nil (string * string)). cbn [app].
  rewrite <- flat_map_single.
  eapply (forM_project execCalls) in Hn;
    [exact Hn | reflexivity | apply execCalls_app |].
  intros cmd x x' y _ Hc. cbv beta in Hc.
  step_inv Hc. call_inv Hfst. call_inv Hfst.
  unfold ret in Hc. injection Hc as _ <-. reflexivity.
Qed.

Lemma cleanup_keeps_workdir ctx (nodes : list Node) (s : Sys W) :
  removals (trace (forM_ nodes (fun node =>
    loggerInfo ("Cleaning up node: " ++ Name node) ;;
    forM_ cleanupCommands (fun cmd =>
      wrap ("failed to execute cleanup command '" ++ cmd ++ "' on "
            ++ Name node ++ ": ")
        (sshExecuteCommand (sshClient cm) ctx (IPAddress node) cmd) ;; ret tt))
    s)) = [].
Proof.
  apply project_nil. revert s.
  match goal with
  | |- forall s, Forall ?P (trace (?m s)) => change (always P m)
  end.
  walk ltac:(reflexivity).
Qed.
End Teardown.

(** X9.  [DestroyCluster] removes the work directory at most once, and only
    after all seven cleanup commands have returned without error on the
    controller and then on every worker, in the order of the configuration:
    a run in which the removal is attempted has issued exactly those
    commands, and a run that returns [nil] has attempted it. *)
Theorem DestroyCluster_sequence {W} (os : OS W) (cm : ClusterManager W) ctx s :
  let run := DestroyCluster os cm ctx s in
  let nodes := Controller (config cm) :: Workers (config cm) in
  (removals (trace run) = []
   \/ (removals (trace run) = [WorkDir (config cm)]
       /\ execCalls (trace run)
          = flat_map (fun node => map (pair (IPAddress node)) cleanupCommands)
              nodes))
  /\ (result run = Ok tt -> removals (trace run) = [WorkDir (config cm)]).
Proof.
  cbv zeta. unfold DestroyCluster.
  change (loggerInfo "Destroying cluster...")
    with (emit (W:=W) (EvInfo "Destroying cluster...")).
  rewrite emit_bind_eq.
  cbn [result trace fst snd].
  change (removals (EvInfo "Destroying cluster..." :: ?t)) with (removals t).
  change (execCalls (EvInfo "Destroying cluster..." :: ?t)) with (execCalls t).
  rewrite bind_trace, bind_result, removals_app, execCalls_app.
  rewrite cleanup_keeps_workdir. cbn [app].
  match goal with
  | |- context [result (forM_ ?l ?f s)] =>
      destruct (forM_ l f s) as [[[[]|e|] s1] tm] eqn:E
  end; cbn [result final trace fst snd];
    [|split; [now left | discriminate] | split; [now left | discriminate]].
  apply cleanup_run in E. cbn [app] in E. rewrite E.
  unfold bind, wrap, osRemoveAll, loggerInfo, emit.
  destruct (RemoveAll os (WorkDir (config cm)) (world s1)) as [[e|] w];
    cbn; rewrite app_nil_r; split; auto.
Qed.

(* ===================================================================== *)
(** ** The SSH client: connections, sessions and uploads *)

Lemma HasPrefix_refl_app p x : HasPrefix (p ++ x) p = true.
Proof.
  induction p as [|a p IH]; [now destruct x|]. cbn. now rewrite Ascii.eqb_refl.
Qed.

Lemma Contains_app s a sub : Contains s sub = true -> Contains (a ++ s) sub = true.
Proof.
  intros H. induction a as [|ch a IH]; [exact H|].
  cbn [append Contains]. rewrite IH. now destruct (HasPrefix _ _).
Qed.

Lemma dialAddr_port host : Contains (dialAddr host) ":" = true.
Proof.
  unfold dialAddr. destruct (Contains host ":") eqn:E; [exact E|].
  now apply Contains_app.
Qed.

(** Takes the calls of the SSH library apart, one answer at a time. *)
Ltac answers :=
  repeat match goal with
         | |- context [ReadFile ?o ?p ?w] =>
             destruct (ReadFile o p w) as [[? [?|]] ?]
         | |- context [ParsePrivateKey ?l ?k] =>
             destruct (ParsePrivateKey l k) as [?|]
         | |- context [Dial ?l ?n ?a ?u ?t ?w] =>
             destruct (Dial l n a u t w) as [[[?|] ?] ?]
         | |- context [NewSession ?l ?w] =>
             destruct (NewSession l w) as [[? [?|]] ?]
         | |- context [StdinPipe ?l ?i ?w] =>
             destruct (StdinPipe l i w) as [[?|] ?]
         | |- context [Run ?l ?i ?c ?x ?w] =>
             destruct (Run l i c x w) as [[[[? ?] [?|]] ?] ?]
         | _ => progress cbn
         end.

Ltac open_transport :=
  unfold RealExecuteCommand, RealCopyFile, RealCopyContent, teeAndChmod,
    createSSHClient, bind, wrap, deferring, fail, ret, osReadFile, sshDial,
    clientNewSession, sessionStdinPipe, sessionRun, sessionClose, clientClose,
    ofError, dialAddr.

(** X10.  A call of [ExecuteCommand], [CopyFile] or [CopyContent] dials at
    most once: when the private key is read and parsed, one TCP connection
    as the configured user with a time-out of thirty seconds; and no
    connection at all when the key cannot be read or parsed.  The address
    dialled is the host as given when the host contains a colon, and the
    host followed by [:22] otherwise.  So the address always contains a
    colon; it need not name a port: a bare IPv6 address such as [::1] is
    dialled as it is. *)
Theorem transport_dials {W} (os : OS W) sshlib c ctx host command localPath
    content remotePath s :
  let expected :=
    match ReadFile os (keyPath c) (world s) with
    | ((key, None), _) =>
        match ParsePrivateKey sshlib key with
        | None => [("tcp", dialAddr host, user c, 30 * Second)]
        | Some _ => []
        end
    | _ => []
    end in
  dials (trace (RealExecuteCommand os sshlib c ctx host command s)) = expected
  /\ dials (trace (RealCopyFile os sshlib c ctx host localPath remotePath s))
     = expected
  /\ dials (trace (RealCopyContent os sshlib c ctx host content remotePath s))
     = expected
  /\ (Contains host ":" = true -> dialAddr host = host)
  /\ (Contains host ":" = false -> dialAddr host = host ++ ":22")
  /\ Contains (dialAddr host) ":" = true
  /\ dialAddr "::1" = "::1".
Proof.
  cbv zeta. split; [|split; [|split]].
  1-3: open_transport; destruct (Contains host ":"); answers; reflexivity.
  split; [|split; [|split]].
  - unfold dialAddr. now intros ->.
  - unfold dialAddr. now intros ->.
  - apply dialAddr_port.
  - reflexivity.
Qed.

(** X11.  A call of [ExecuteCommand], [CopyFile] or [CopyContent] leaks
    nothing, whether it succeeds or fails and wherever it fails: every
    session that was opened is closed, the connection is closed exactly once
    if it was established, as the last operation of the call, and is not
    touched otherwise. *)
Theorem transport_releases {W} (os : OS W) sshlib c ctx host command localPath
    content remotePath s :
  released (trace (RealExecuteCommand os sshlib c ctx host command s))
  /\ released (trace (RealCopyFile os sshlib c ctx host localPath remotePath s))
  /\ released (trace (RealCopyContent os sshlib c ctx host content remotePath s)).
Proof.
  unfold released. split; [|split]; open_transport; answers;
    (split; [reflexivity | split; [reflexivity | ]]);
    first [discriminate | reflexivity].
Qed.

(** X12.  [CopyContent] and [CopyFile] upload through [sudo tee <path> >
    /dev/null] fed with the content on standard input, then [sudo chmod 644
    <path>] in a second session.  A call that returns [nil] has run both
    without error and nothing else.  A call that returns an error has run
    nothing, or the [tee] alone (it failed, or the session for the [chmod]
    could not be opened), or both with the [chmod] failing; so the [chmod]
    is never run after a failed [tee].  For [CopyFile] the content is what
    was read from the local file. *)
Theorem uploads_tee_then_chmod {W} (os : OS W) sshlib c ctx host localPath
    content remotePath s :
  (let run := RealCopyContent os sshlib c ctx host content remotePath s in
   uploadRuns content remotePath (result run) (sessionRuns (trace run)))
  /\ (let run := RealCopyFile os sshlib c ctx host localPath remotePath s in
      exists fileContent,
        uploadRuns fileContent remotePath (result run) (sessionRuns (trace run))
        /\ (sessionRuns (trace run) <> [] ->
            exists w w', ReadFile os localPath w = ((fileContent, None), w'))).
Proof.
  cbv zeta. unfold uploadRuns. split.
  - open_transport; answers; eauto.
  - open_transport.
    destruct (ReadFile os (keyPath c) (world s)) as [[key [e|]] w0]; cbn;
      [exists ""; split; [now left | congruence]|].
    destruct (ParsePrivateKey sshlib key) as [e|]; cbn;
      [exists ""; split; [now left | congruence]|].
    destruct (Dial sshlib _ _ _ _ w0) as [[[e|] dt] w1]; cbn;
      [exists ""; split; [now left | congruence]|].
    destruct (NewSession sshlib w1) as [[id [e|]] w2]; cbn;
      [exists ""; split; [now left | congruence]|].
    destruct (ReadFile os localPath w2) as [[data [e|]] w3] eqn:Er; cbn;
      [exists ""; split; [now left | congruence]|].
    exists data. split; [|intros _; eauto].
    answers; eauto.
Qed.

(* ===================================================================== *)
(** ** What the control plane is told to read, and what it is sent *)

Lemma HasPrefix_app s x p : HasPrefix s p = true -> HasPrefix (s ++ x) p = true.
Proof.
  revert p. induction s as [|a s IH]; intros [|b p]; cbn; try discriminate.
  - now destruct x.
  - reflexivity.
  - destruct (Ascii.eqb b a); [apply IH | discriminate].
Qed.

Lemma Contains_app_l s x sub :
  Contains s sub = true -> Contains (s ++ x) sub = true.
Proof.
  induction s as [|a s IH]; cbn [Contains append].
  - destruct (HasPrefix "" sub) eqn:E; [|discriminate]. intros _.
    destruct sub; [|discriminate]. now destruct x.
  - destruct (HasPrefix (String a s) sub) eqn:E.
    + intros _. apply (HasPrefix_app _ x) in E. cbn [append] in E. now rewrite E.
    + intros H. rewrite (IH H).
      destruct (HasPrefix (String a (s ++ x)) sub); reflexivity.
Qed.

Lemma Contains_unlines ls line sub :
  In line ls -> Contains line sub = true -> Contains (unlines ls) sub = true.
Proof.
  intros Hin Hc. induction ls as [|l ls IH]; [contradiction|].
  cbn [unlines]. destruct Hin as [<-|Hin].
  - now apply Contains_app_l.
  - apply Contains_app, Contains_app, IH, Hin.
Qed.

(** Finds the line of a template that names a path. *)
Ltac in_template line :=
  apply (Contains_unlines _ line);
  [ cbn [In]; repeat first [ left; reflexivity | right ]
  | vm_compute; reflexivity ].

Ltac not_named :=
  cbv beta iota delta [sendsNoneOf namedOnController];
  try exact I;
  let H := fresh in
  cbn [In]; intros H; decompose [or] H; clear H;
  first [ contradiction | discriminate ].

Ltac split_in H :=
  cbn [In] in H;
  repeat match type of H with
         | _ \/ _ => destruct H as [H | H]
         end;
  first [ contradiction | injection H as <- <- | subst ].

(** X13.  The unit of the API server, as [helpers.go] renders it, names
    [/var/lib/kubernetes/ca.pem], [kubernetes.pem] and [kubernetes-key.pem],
    and the three queries of the validation name
    [/var/lib/kubernetes/admin.kubeconfig]; yet no run of [SetupCluster]
    uploads anything to one of these four paths: [setupControlPlane] sends
    the CA and the server key pair to [/etc/etcd] only. *)
Theorem SetupCluster_never_sends {W} (os : OS W) lib (cm : ClusterManager W)
    fuel ctx s
    (Hrange : rangesOverEntries os) :
  Forall (sendsNoneOf namedOnController)
    (trace (SetupCluster os lib helpers cm fuel ctx s))
  /\ Forall (fun path =>
               Contains (generateAPIServerService helpers (config cm)) path
               = true)
       (firstn 3 namedOnController)
  /\ Forall (fun call =>
               Contains (snd call) "/var/lib/kubernetes/admin.kubeconfig" = true)
       (statusCommands (config cm)).
Proof.
  split; [|split].
  - revert s.
    change (always (sendsNoneOf namedOnController)
              (SetupCluster os lib helpers cm fuel ctx)).
    walk ltac:(repeat match goal with
                      | H : In _ (mapRange os _) |- _ =>
                          apply (proj1 (Hrange _ _)) in H; split_in H
                      | H : In _ (_ :: _) |- _ => split_in H
                      end;
               try match goal with
                   | |- context [String.eqb ?a ?b] => destruct (String.eqb a b)
                   end;
               not_named).
  - cbn [firstn namedOnController helpers generateAPIServerService].
    unfold Render.generateAPIServerService.
    repeat constructor.
    + in_template "  --client-ca-file=/var/lib/kubernetes/ca.pem \".
    + in_template "  --tls-cert-file=/var/lib/kubernetes/kubernetes.pem \".
    + in_template "  --tls-private-key-file=/var/lib/kubernetes/kubernetes-key.pem".
  - unfold statusCommands. repeat constructor.
Qed.

(* ===================================================================== *)
(** ** The names of the key pairs *)

Lemma issuedNames_app t1 t2 :
  issuedNames (t1 ++ t2) = (issuedNames t1 ++ issuedNames t2)%list.
Proof. apply flat_map_app. Qed.

Lemma NoDup_app_split {A} (l1 l2 : list A) :
  NoDup (l1 ++ l2)
  <-> NoDup l1 /\ NoDup l2 /\ (forall a, In a l1 -> ~ In a l2).
Proof.
  induction l1 as [|x l1 IH]; cbn [app].
  - split; [intros H; repeat split; [constructor | exact H | now intros]|].
    now intros (_ & H & _).
  - rewrite !NoDup_cons_iff, IH, in_app_iff. split.
    + intros (Hx & H1 & H2 & H3). repeat split; try tauto.
      intros a [<-|Ha]; [tauto | now apply H3].
    + intros ((Hx & H1) & H2 & H3). repeat split; try tauto.
      * intros [Hin|Hin]; [tauto | apply (H3 x); [now left | exact Hin]].
      * intros a Ha. apply H3. now right.
Qed.

Lemma generateCertificates_run {W} (cm : ClusterManager W) ctx workDir
    (s s' : Sys W) t :
  generateCertificates cm ctx workDir s = (Ok tt, s', t) ->
  issuedNames t = (clientCerts cm ++ ["kubernetes"])%list.
Proof.
  intros E. unfold generateCertificates, loggerInfo in E.
  step_inv E. call_inv Hfst.
  step_inv E. call_inv Hfst. call_inv Hfst.
  step_inv E. step_inv E. call_inv Hfst0. call_inv Hfst0. call_inv E.
  rewrite !issuedNames_app. cbn [issuedNames flat_map app].
  eapply (forM_project issuedNames (fun n => [n])) in Hfst;
    [| reflexivity | apply issuedNames_app |].
  - rewrite Hfst, flat_map_single, map_id. reflexivity.
  - intros x u u' v _ H. call_inv H. call_inv H. reflexivity.
Qed.

(** X15.  A successful [generateCertificates] asks for key pairs under the
    five fixed client names, then the names of the workers, then
    [kubernetes].  Each name is asked for once -- so that no key pair
    replaces another in the work directory -- exactly when the workers have
    distinct names and none of them is named admin, kube-controller-manager,
    kube-proxy, kube-scheduler, service-account or kubernetes. *)
Theorem generateCertificates_names {W} (cm : ClusterManager W) ctx workDir s
    (Hok : result (generateCertificates cm ctx workDir s) = Ok tt) :
  let names := issuedNames (trace (generateCertificates cm ctx workDir s)) in
  names = (clientCerts cm ++ ["kubernetes"])%list
  /\ (NoDup names
      <-> workerNamesUnique (config cm)
          /\ forall w, In w (Workers (config cm)) ->
               ~ In (Name w) reservedNames).
Proof.
  cbv zeta.
  destruct (generateCertificates cm ctx workDir s) as [[r s'] t] eqn:E.
  cbn in Hok. subst r. cbn [trace snd].
  apply generateCertificates_run in E. split; [exact E|]. rewrite E.
  unfold clientCerts, workerNamesUnique, reservedNames.
  rewrite <- app_assoc, !NoDup_app_split.
  assert (Hfive : NoDup ["admin"; "kube-controller-manager"; "kube-proxy";
                         "kube-scheduler"; "service-account"]).
  { repeat constructor; cbn [In]; intros H; decompose [or] H;
      first [contradiction | discriminate]. }
  split.
  - intros (_ & (Hws & _ & Hk) & Hdis). split; [exact Hws|].
    intros w Hw Hin.
    assert (Hn : In (Name w) (map Name (Workers (config cm))))
      by now apply in_map.
    cbn [In] in Hin.
    destruct Hin as [H|[H|[H|[H|[H|[H|[]]]]]]];
      try (apply (Hdis (Name w));
           [rewrite <- H; cbn [In]; tauto | apply in_or_app; now left]).
    apply (Hk (Name w) Hn). now left.
  - intros (Hws & Hres). split; [exact Hfive|]. split.
    + split; [exact Hws|]. split; [repeat constructor; now intros []|].
      intros a Ha [<-|[]]. apply in_map_iff in Ha as (w & Hw & Hin).
      apply (Hres w Hin). rewrite Hw. cbn [In]. tauto.
    + intros a Ha Hin. apply in_app_or in Hin as [Hin|[<-|[]]].
      * apply in_map_iff in Hin as (w & Hw & Hin).
        apply (Hres w Hin). rewrite Hw. cbn [In] in Ha |- *. tauto.
      * cbn [In] in Ha. decompose [or] Ha; first [contradiction | discriminate].
Qed.

(* ===================================================================== *)
(** ** What a worker is told to read, and what it is sent *)

Section Sends.
Context {W : Type}.
Variable P : Event -> Prop.
Implicit Types (s : Sys W).

Lemma gates_bind_l {A B} (m : M W A) (f : A -> M W B) :
  gates P m -> gates P (bind m f).
Proof.
  intros H s b Hok. rewrite bind_trace. apply Exists_app. left.
  rewrite bind_result in Hok.
  destruct (result (m s)) as [a|e|] eqn:E; try discriminate.
  now apply (H s a).
Qed.

Lemma gates_forM {A} (x : A) (xs : list A) (f : A -> M W unit) :
  In x xs -> gates P (f x) -> gates P (forM_ xs f).
Proof.
  intros Hin Hx. induction xs as [|y xs IH]; [contradiction|].
  cbn [forM_]. destruct Hin as [->|Hin].
  - now apply gates_bind_l.
  - apply gates_bind_r. intros _. now apply IH.
Qed.

Lemma gates_copyFile (c : SSHClient W) ctx host l r :
  P (EvCopyFile ctx host l r None) -> gates P (sshCopyFile c ctx host l r).
Proof.
  intros H s a. unfold sshCopyFile, result, trace.
  destruct (CopyFile c ctx host l r (world s)) as [[[e|] dt] w]; cbn;
    [discriminate | auto].
Qed.

Lemma gates_copyContent (c : SSHClient W) ctx host l r :
  P (EvCopyContent ctx host l r None) -> gates P (sshCopyContent c ctx host l r).
Proof.
  intros H s a. unfold sshCopyContent, result, trace.
  destruct (CopyContent c ctx host l r (world s)) as [[[e|] dt] w]; cbn;
    [discriminate | auto].
Qed.
End Sends.

Lemma gates_In {W A} e (m : M W A) s a :
  gates (eq e) m -> result (m s) = Ok a -> In e (trace (m s)).
Proof.
  intros H Hok. apply (H s a) in Hok.
  apply Exists_exists in Hok as (x & Hx & <-). exact Hx.
Qed.

Lemma length_append (a b : string) :
  String.length (a ++ b) = (String.length a + String.length b)%nat.
Proof. induction a as [|c a IH]; cbn; [reflexivity | now rewrite IH]. Qed.

Lemma append_same_suffix (a b x : string) : a ++ x = b ++ x -> a = b.
Proof.
  revert b. induction a as [|c a IH]; intros [|d b] H.
  - reflexivity.
  - apply (f_equal String.length) in H. cbn in H. rewrite length_append in H. lia.
  - apply (f_equal String.length) in H. cbn in H. rewrite length_append in H. lia.
  - cbn in H. injection H as -> H. f_equal. now apply IH.
Qed.

Lemma HasPrefix_same (n a b : string) :
  HasPrefix (n ++ a) (n ++ b) = HasPrefix a b.
Proof.
  induction n as [|c n IH]; [reflexivity|]. cbn. now rewrite Ascii.eqb_refl.
Qed.

(** The [k]-th of the steps of a sequence. *)
Ltac nth_step k :=
  lazymatch k with
  | O => apply gates_bind_l
  | S ?k' => apply gates_bind_r; intros _; nth_step k'
  end.

(** X14.  A worker set up without error has been sent what its units are
    told to read.  The kubelet unit rendered by [helpers.go] is installed
    and names [/var/lib/kubelet/kubelet-config.yaml] and
    [/var/lib/kubelet/<name>.kubeconfig]; the first is uploaded with the
    rendered kubelet configuration, the second is copied from the work
    directory.  The kube-proxy unit is installed and names
    [/var/lib/kube-proxy/kube-proxy-config.yaml], which is uploaded and in
    turn names [/var/lib/kube-proxy/kube-proxy.kubeconfig], which is copied
    from the work directory.  This needs a worker that is not itself named
    [kube-proxy]: the copy loop tells the destination by the file name. *)
Theorem setupSingleWorkerNode_sends {W} (os : OS W) lib (cm : ClusterManager W)
    ctx workDir worker s
    (Hok : result (setupSingleWorkerNode os lib helpers cm ctx workDir worker s)
           = Ok tt)
    (Hrange : rangesOverEntries os)
    (Hname : Name worker <> "kube-proxy") :
  let t := trace (setupSingleWorkerNode os lib helpers cm ctx workDir worker s) in
  let cfg := config cm in
  let ip := IPAddress worker in
  let kubeconfig := "/var/lib/kubelet/" ++ Name worker ++ ".kubeconfig" in
  In (EvCopyContent ctx ip (Render.generateKubeletService cfg worker)
        "/etc/systemd/system/kubelet.service" None) t
  /\ Contains (Render.generateKubeletService cfg worker)
       "--config=/var/lib/kubelet/kubelet-config.yaml" = true
  /\ In (EvCopyContent ctx ip (Render.generateKubeletConfig cfg worker)
           "/var/lib/kubelet/kubelet-config.yaml" None) t
  /\ Contains (Render.generateKubeletService cfg worker)
       ("--kubeconfig=" ++ kubeconfig) = true
  /\ In (EvCopyFile ctx ip
           (filepathJoin lib workDir (Name worker ++ ".kubeconfig"))
           kubeconfig None) t
  /\ In (EvCopyContent ctx ip (Render.generateKubeProxyService cfg)
           "/etc/systemd/system/kube-proxy.service" None) t
  /\ Contains (Render.generateKubeProxyService cfg)
       "--config=/var/lib/kube-proxy/kube-proxy-config.yaml" = true
  /\ In (EvCopyContent ctx ip (Render.generateKubeProxyConfig cfg)
           "/var/lib/kube-proxy/kube-proxy-config.yaml" None) t
  /\ Contains (Render.generateKubeProxyConfig cfg)
       "kubeconfig: /var/lib/kube-proxy/kube-proxy.kubeconfig" = true
  /\ In (EvCopyFile ctx ip (filepathJoin lib workDir "kube-proxy.kubeconfig")
           "/var/lib/kube-proxy/kube-proxy.kubeconfig" None) t.
Proof.
  cbv zeta.
  assert (Hfile : String.eqb (Name worker ++ ".kubeconfig")
                    "kube-proxy.kubeconfig" = false).
  { apply String.eqb_neq. intros H. apply Hname.
    now apply (append_same_suffix _ "kube-proxy" ".kubeconfig"). }
  repeat match goal with |- _ /\ _ => split end.
  - refine (gates_In _ _ _ _ _ Hok).
    unfold setupSingleWorkerNode. cbv zeta. nth_step 7%nat.
    apply (gates_forM _ ("kubelet", Render.generateKubeletService (config cm) worker));
      [apply Hrange; cbn; tauto|].
    apply gates_wrap, gates_copyContent. reflexivity.
  - unfold Render.generateKubeletService.
    in_template "  --config=/var/lib/kubelet/kubelet-config.yaml \".
  - refine (gates_In _ _ _ _ _ Hok).
    unfold setupSingleWorkerNode. cbv zeta. nth_step 6%nat.
    apply (gates_forM _ ("/var/lib/kubelet/kubelet-config.yaml",
                         Render.generateKubeletConfig (config cm) worker));
      [apply Hrange; cbn; tauto|].
    apply gates_wrap, gates_copyContent. reflexivity.
  - unfold Render.generateKubeletService.
    apply (Contains_unlines _
             ("  --kubeconfig=/var/lib/kubelet/" ++ Name worker
              ++ ".kubeconfig \"));
      [cbn [In]; repeat first [left; reflexivity | right]|].
    cbn. rewrite HasPrefix_same. reflexivity.
  - refine (gates_In _ _ _ _ _ Hok).
    unfold setupSingleWorkerNode. cbv zeta. nth_step 5%nat.
    apply (gates_forM _ (Name worker ++ ".kubeconfig")); [cbn; tauto|].
    cbv beta. rewrite Hfile.
    apply gates_wrap, gates_copyFile. reflexivity.
  - refine (gates_In _ _ _ _ _ Hok).
    unfold setupSingleWorkerNode. cbv zeta. nth_step 7%nat.
    apply (gates_forM _ ("kube-proxy", Render.generateKubeProxyService (config cm)));
      [apply Hrange; cbn; tauto|].
    apply gates_wrap, gates_copyContent. reflexivity.
  - unfold Render.generateKubeProxyService.
    in_template "  --config=/var/lib/kube-proxy/kube-proxy-config.yaml".
  - refine (gates_In _ _ _ _ _ Hok).
    unfold setupSingleWorkerNode. cbv zeta. nth_step 6%nat.
    apply (gates_forM _ ("/var/lib/kube-proxy/kube-proxy-config.yaml",
                         Render.generateKubeProxyConfig (config cm)));
      [apply Hrange; cbn; tauto|].
    apply gates_wrap, gates_copyContent. reflexivity.
  - unfold Render.generateKubeProxyConfig.
    in_template "  kubeconfig: /var/lib/kube-proxy/kube-proxy.kubeconfig".
  - refine (gates_In _ _ _ _ _ Hok).
    unfold setupSingleWorkerNode. cbv zeta. nth_step 5%nat.
    apply (gates_forM _ "kube-proxy.kubeconfig"); [cbn; tauto|].
    apply gates_wrap, gates_copyFile. reflexivity.
Qed.

(** X16.  A control plane set up without error has been sent what the units
    of etcd, of the controller manager and of the scheduler are told to
    read: each unit rendered by [helpers.go] is installed, and every file it
    names under [/etc/etcd] or [/var/lib/kubernetes] was copied there from
    the work directory. *)
Theorem setupControlPlane_sends {W} (os : OS W) lib (cm : ClusterManager W)
    fuel ctx workDir s
    (Hok : result (setupControlPlane os lib helpers cm fuel ctx workDir s)
           = Ok tt)
    (Hrange : rangesOverEntries os) :
  let t := trace (setupControlPlane os lib helpers cm fuel ctx workDir s) in
  let cfg := config cm in
  let ip := IPAddress (Controller cfg) in
  let installed unit text :=
    In (EvCopyContent ctx ip text ("/etc/systemd/system/" ++ unit ++ ".service")
          None) t in
  let read text dir file :=
    Contains text (dir ++ file) = true
    /\ In (EvCopyFile ctx ip (filepathJoin lib workDir file) (dir ++ file) None)
         t in
  installed "etcd" (Render.generateEtcdService cfg (Controller cfg))
  /\ Forall (read (Render.generateEtcdService cfg (Controller cfg)) "/etc/etcd/")
       ["ca.pem"; "kubernetes.pem"; "kubernetes-key.pem"]
  /\ installed "kube-controller-manager"
       (Render.generateControllerManagerService cfg)
  /\ Forall (read (Render.generateControllerManagerService cfg)
               "/var/lib/kubernetes/")
       ["service-account-key.pem"; "kube-controller-manager.kubeconfig"]
  /\ installed "kube-scheduler" (Render.generateSchedulerService cfg)
  /\ Forall (read (Render.generateSchedulerService cfg) "/var/lib/kubernetes/")
       ["kube-scheduler.kubeconfig"].
Proof.
  cbv zeta.
  assert (Hetcd : forall file,
             In file ["ca.pem"; "kubernetes-key.pem"; "kubernetes.pem"] ->
             In (EvCopyFile ctx (IPAddress (Controller (config cm)))
                   (filepathJoin lib workDir file) ("/etc/etcd/" ++ file) None)
               (trace (setupControlPlane os lib helpers cm fuel ctx workDir s))).
  { intros file Hfile. refine (gates_In _ _ _ _ _ Hok).
    unfold setupControlPlane. cbv zeta. nth_step 2%nat.
    apply (gates_forM _ file); [exact Hfile|].
    apply gates_bind_l, gates_wrap, gates_copyFile. reflexivity. }
  assert (Hk8s : forall file,
             In file ["ca-key.pem"; "service-account-key.pem";
                      "service-account.pem"; "encryption-config.yaml";
                      "kube-controller-manager.kubeconfig";
                      "kube-scheduler.kubeconfig"] ->
             In (EvCopyFile ctx (IPAddress (Controller (config cm)))
                   (filepathJoin lib workDir file)
                   ("/var/lib/kubernetes/" ++ file) None)
               (trace (setupControlPlane os lib helpers cm fuel ctx workDir s))).
  { intros file Hfile. refine (gates_In _ _ _ _ _ Hok).
    unfold setupControlPlane. cbv zeta. nth_step 5%nat.
    apply (gates_forM _ file); [exact Hfile|].
    apply gates_wrap, gates_copyFile. reflexivity. }
  assert (Hunit : forall name text,
             In (name, text)
               [("kube-apiserver", generateAPIServerService helpers (config cm));
                ("kube-controller-manager",
                 generateControllerManagerService helpers (config cm));
                ("kube-scheduler", generateSchedulerService helpers (config cm))] ->
             In (EvCopyContent ctx (IPAddress (Controller (config cm))) text
                   ("/etc/systemd/system/" ++ name ++ ".service") None)
               (trace (setupControlPlane os lib helpers cm fuel ctx workDir s))).
  { intros name text Hin. refine (gates_In _ _ _ _ _ Hok).
    unfold setupControlPlane. cbv zeta. nth_step 6%nat.
    apply (gates_forM _ (name, text)); [now apply Hrange|].
    apply gates_wrap, gates_copyContent. reflexivity. }
  repeat match goal with
         | |- _ /\ _ => split
         | |- Forall _ _ => constructor
         end;
    try (apply Hetcd; cbn; tauto);
    try (apply Hk8s; cbn; tauto);
    try (apply Hunit; cbn; tauto).
  - refine (gates_In _ _ _ _ _ Hok).
    unfold setupControlPlane. cbv zeta. nth_step 3%nat.
    apply gates_wrap, gates_copyContent. reflexivity.
  - unfold Render.generateEtcdService.
    in_template "  --trusted-ca-file=/etc/etcd/ca.pem \".
  - unfold Render.generateEtcdService.
    in_template "  --cert-file=/etc/etcd/kubernetes.pem \".
  - unfold Render.generateEtcdService.
    in_template "  --key-file=/etc/etcd/kubernetes-key.pem \".
  - unfold Render.generateControllerManagerService.
    in_template "  --service-account-private-key-file=/var/lib/kubernetes/service-account-key.pem \".
  - unfold Render.generateControllerManagerService.
    in_template "  --kubeconfig=/var/lib/kubernetes/kube-controller-manager.kubeconfig".
  - unfold Render.generateSchedulerService.
    in_template "  --kubeconfig=/var/lib/kubernetes/kube-scheduler.kubeconfig".
Qed.

(* ===================================================================== *)
(** ** The error of [SetupCluster] names the phase that failed *)

Section Stages.
Context {W : Type}.

Lemma stage_phase step total phase prefix (m k : M W unit) rest s :
  always notProgress m ->
  (forall s', failsInStage rest (k s')) ->
  failsInStage (((step, total, phase), prefix) :: rest)
    (bind (emit (EvProgress step total phase))
       (fun _ => bind (wrap prefix m) (fun _ => k)) s).
Proof.
  intros Hm Hk. unfold failsInStage. rewrite emit_bind_eq.
  cbn [result trace fst snd progress flat_map app].
  fold (progress (trace (bind (wrap prefix m) (fun _ => k) s))).
  rewrite bind_trace, bind_result, progress_app, wrap_trace, wrap_result.
  rewrite (progress_silent _ (Hm s)). cbn [app].
  destruct (result (m s)) as [[]|e|]; [| |exact I].
  - specialize (Hk (final (wrap prefix m s))). unfold failsInStage in Hk.
    destruct (result (k (final (wrap prefix m s)))) as [[]|msg|]; try exact I.
    destruct Hk as (n & stage & e & Hn & Hp & ->).
    exists (S n), stage, e. repeat split; [exact Hn|].
    rewrite Hp. reflexivity.
  - exists 0%nat, ((step, total, phase), prefix), e. repeat split.
Qed.

Lemma stage_last step total phase prefix (m : M W unit) s :
  always notProgress m ->
  failsInStage [((step, total, phase), prefix)]
    (bind (emit (EvProgress step total phase)) (fun _ => wrap prefix m) s).
Proof.
  intros Hm. unfold failsInStage. rewrite emit_bind_eq.
  cbn [result trace fst snd progress flat_map app].
  fold (progress (trace (wrap prefix m s))).
  rewrite wrap_trace, wrap_result, (progress_silent _ (Hm s)).
  destruct (result (m s)) as [[]|e|]; try exact I.
  exists 0%nat, ((step, total, phase), prefix), e. repeat split.
Qed.
End Stages.

(** X18.  When [SetupCluster] returns an error, the message starts with the
    prefix of the phase that was announced last -- [prerequisites check
    failed: ], [failed to generate certificates: ], [failed to create
    configurations: ], [failed to setup control plane: ], [failed to setup
    worker nodes: ], [failed to setup networking: ] or [failed to validate
    cluster: ] -- followed by the error of that phase, and the phases
    announced are exactly those up to it. *)
Theorem SetupCluster_errors {W} (os : OS W) lib rnd (cm : ClusterManager W)
    fuel ctx s :
  failsInStage setupStages (SetupCluster os lib rnd cm fuel ctx s).
Proof.
  unfold SetupCluster, ReportProgress, setupStages. cbv zeta.
  apply stage_phase; [apply silent_ValidateK8sPrerequisites|]. intros s1.
  apply stage_phase; [apply silent_generateCertificates|]. intros s2.
  apply stage_phase; [apply silent_createConfigurations|]. intros s3.
  apply stage_phase; [apply silent_setupControlPlane|]. intros s4.
  apply stage_phase; [apply silent_setupWorkerNodes|]. intros s5.
  apply stage_phase; [apply silent_setupNetworking|]. intros s6.
  apply stage_last. apply silent_validateCluster.
Qed.

(* ===================================================================== *)
(** ** The default configuration *)

(** X17.  The configuration of [GenerateDefaultConfig] passes every check
    of [LoadClusterConfig]; its three workers have distinct names, none of
    them one of the names [generateCertificates] uses itself, and distinct
    addresses that differ from the controller's. *)
Theorem GenerateDefaultConfig_valid :
  validateConfig GenerateDefaultConfig = None
  /\ workerNamesUnique GenerateDefaultConfig
  /\ (forall w, In w (Workers GenerateDefaultConfig) ->
        ~ In (Name w) reservedNames)
  /\ controllerApart GenerateDefaultConfig
  /\ NoDup (map IPAddress (Workers GenerateDefaultConfig)).
Proof.
  split; [reflexivity|]. split; [|split; [|split]].
  - unfold workerNamesUnique. cbn.
    repeat constructor; cbn [In]; intros H; decompose [or] H;
      first [contradiction | discriminate].
  - intros w Hw. cbn in Hw. decompose [or] Hw; try contradiction; subst;
      cbn; intros H; decompose [or] H; first [contradiction | discriminate].
  - intros w Hw. cbn in Hw. decompose [or] Hw; try contradiction; subst;
      cbn; discriminate.
  - cbn. repeat constructor; cbn [In]; intros H; decompose [or] H;
      first [contradiction | discriminate].
Qed.

(* ===================================================================== *)
(** ** The properties above on the configuration of the package's tests *)

(** X19.  [ExecuteCommand] runs the command at most once, in a session of
    its own and with nothing on standard input.  When it returns a value,
    that run ended without error and the value is its standard output as it
    came, untrimmed; when it returns an error, either nothing was run (the
    key, the connection or the session failed) or the one run failed. *)
Theorem ExecuteCommand_runs_once {W} (os : OS W) sshlib c ctx host command s :
  let run := RealExecuteCommand os sshlib c ctx host command s in
  match result run with
  | Ok out =>
      sessionRuns (trace run) = [(command, None, None)]
      /\ exists id t0 dt, In (EvRun id command None t0 dt out None) (trace run)
  | Err _ =>
      sessionRuns (trace run) = []
      \/ exists e, sessionRuns (trace run) = [(command, None, Some e)]
  | OutOfFuel => False
  end.
Proof.
  cbv zeta. open_transport. answers; eauto 10.
Qed.

Lemma mockOS_ranges c : rangesOverEntries (mockOS c).
Proof. intros m x. cbn. tauto. Qed.

Lemma SetupCluster_never_sends_witness :
  Forall (sendsNoneOf namedOnController)
    (trace (SetupCluster (mockOS testConfig) mockLib helpers
              (testManager healthyMock testConfig) 12 Background start0)).
Proof.
  apply (SetupCluster_never_sends (mockOS testConfig) mockLib
           (testManager healthyMock testConfig) 12 Background start0
           (mockOS_ranges testConfig)).
Defined.

Lemma generateCertificates_names_witness :
  NoDup (issuedNames
           (trace (generateCertificates (testManager healthyMock testConfig)
                     Background "/tmp/test-k8s" start0))).
Proof.
  apply (proj2 (generateCertificates_names
                  (testManager healthyMock testConfig) Background
                  "/tmp/test-k8s" start0 eq_refl)).
  split.
  - unfold workerNamesUnique. cbn.
    repeat constructor; cbn [In]; intros H; decompose [or] H;
      first [contradiction | discriminate].
  - intros w Hw. cbn in Hw. decompose [or] Hw; try contradiction; subst;
      cbn; intros H; decompose [or] H; first [contradiction | discriminate].
Defined.

Lemma setupSingleWorkerNode_sends_witness :
  In (EvCopyFile Background "10.240.0.20" "/tmp/test-k8s/worker-0.kubeconfig"
        "/var/lib/kubelet/worker-0.kubeconfig" None)
    (trace (setupSingleWorkerNode (mockOS testConfig) mockLib helpers
              (testManager healthyMock testConfig) Background "/tmp/test-k8s"
              (mkNode "worker-0" "10.240.0.20" "worker-0" "10.200.0.0/24")
              start0)).
Proof.
  assert (Hok : result
                  (setupSingleWorkerNode (mockOS testConfig) mockLib helpers
                     (testManager healthyMock testConfig) Background
                     "/tmp/test-k8s"
                     (mkNode "worker-0" "10.240.0.20" "worker-0" "10.200.0.0/24")
                     start0) = Ok tt)
    by (vm_compute; reflexivity).
  assert (Hname : Name (mkNode "worker-0" "10.240.0.20" "worker-0" "10.200.0.0/24")
                  <> "kube-proxy") by discriminate.
  destruct (setupSingleWorkerNode_sends (mockOS testConfig) mockLib
              (testManager healthyMock testConfig) Background "/tmp/test-k8s"
              (mkNode "worker-0" "10.240.0.20" "worker-0" "10.200.0.0/24")
              start0 Hok (mockOS_ranges testConfig) Hname)
    as (_ & _ & _ & _ & Hsent & _).
  exact Hsent.
Defined.

Lemma setupControlPlane_sends_witness :
  In (EvCopyFile Background "10.240.0.10" "/tmp/test-k8s/ca.pem"
        "/etc/etcd/ca.pem" None)
    (trace (setupControlPlane (mockOS testConfig) mockLib helpers
              (testManager healthyMock testConfig) 12 Background "/tmp/test-k8s"
              start0)).
Proof.
  assert (Hok : result
                  (setupControlPlane (mockOS testConfig) mockLib helpers
                     (testManager healthyMock testConfig) 12 Background
                     "/tmp/test-k8s" start0) = Ok tt)
    by (vm_compute; reflexivity).
  destruct (setupControlPlane_sends (mockOS testConfig) mockLib
              (testManager healthyMock testConfig) 12 Background "/tmp/test-k8s"
              start0 Hok (mockOS_ranges testConfig))
    as (_ & Hetcd & _).
  apply Forall_cons_iff in Hetcd as [[_ Hca] _]. exact Hca.
Defined.
